(** * Connector backend: registry, connector contract, rate limiting,
      pagination and schema discovery.

    A shallow embedding of [app.py] and of the connector classes under
    [extractors/connectors/], followed by the properties of the
    specification that were checked against it.

    Conventions of the embedding.
    - Python values that come from JSON or from the caller are values of
      [pyval]; a dict is an association list in insertion order.  JSON
      numbers are modelled by integers.
    - A method is a computation of the monad [M Self]: it threads the
      attributes of the instance ([Self]) and the outside world ([world]:
      clock, logger sink, vendor), and ends with a value, with a raised
      exception, or by running out of fuel (only the two pagination loops
      take fuel).
    - The vendor is an oracle [vendor w n c]: the answer to the [n]-th
      outbound call [c].  Every call is appended to the trace [sent w],
      and [raised w] counts the calls that raised.
    - Time is counted in microseconds, the resolution of [datetime]. *)

From Stdlib Require Import ZArith List String Ascii Bool Lia.
Import ListNotations.

Set Warnings "-register-all".
Set Implicit Arguments.

Local Open Scope string_scope.
Local Open Scope list_scope.
Local Open Scope Z_scope.

(* ===================================================================== *)
(** * Strings *)
(* ===================================================================== *)

Module Str.

(** [c.lower()] on one ASCII letter; other bytes are unchanged. *)
Definition lower_ascii (c : ascii) : ascii :=
  let n := nat_of_ascii c in
  if andb (Nat.leb 65 n) (Nat.leb n 90) then ascii_of_nat (n + 32) else c.

(** [s.lower()] *)
Fixpoint lower (s : string) : string :=
  match s with
  | EmptyString => EmptyString
  | String c r => String (lower_ascii c) (lower r)
  end.

(** [s.startswith(p)] *)
Fixpoint startswith (p s : string) : bool :=
  match p, s with
  | EmptyString, _ => true
  | String a p', String b s' => andb (Ascii.eqb a b) (startswith p' s')
  | String _ _, EmptyString => false
  end.

(** [p in s] for two strings: [p] occurs as a substring of [s]. *)
Fixpoint contains (p s : string) : bool :=
  orb (startswith p s)
      match s with
      | EmptyString => false
      | String _ s' => contains p s'
      end.

(** [s.endswith(p)] *)
Definition endswith (p s : string) : bool :=
  let lp := String.length p in
  let ls := String.length s in
  andb (Nat.leb lp ls) (String.eqb (substring (ls - lp) lp s) p).

(** The characters of a string, each as a one-character string. *)
Fixpoint chars (s : string) : list string :=
  match s with
  | EmptyString => []
  | String c r => String c EmptyString :: chars r
  end.

(** [s.replace(c, '')] for a one-character [c] *)
Fixpoint remove (c : ascii) (s : string) : string :=
  match s with
  | EmptyString => EmptyString
  | String a r => if Ascii.eqb a c then remove c r else String a (remove c r)
  end.

(** [sep.join(l)] *)
Fixpoint join (sep : string) (l : list string) : string :=
  match l with
  | [] => ""
  | [x] => x
  | x :: r => x ++ sep ++ join sep r
  end.

End Str.

(* ===================================================================== *)
(** * Python values *)
(* ===================================================================== *)

(** Values of the dynamically typed parts of the program: credentials,
    query parameters, JSON bodies, schemas, records.  A dict keeps its
    items in insertion order; its keys are hashable values (a dict that
    comes from JSON has string keys). *)
Inductive pyval : Type :=
| PNone
| PBool (b : bool)
| PInt (z : Z)
| PStr (s : string)
| PList (l : list pyval)
| PDict (d : list (pyval * pyval)).

Definition pydict := list (pyval * pyval).

(** An f-string, kept as the list of its pieces: its text is the
    concatenation of [str(piece)] over the pieces. *)
Definition fstring := list pyval.

(** Exceptions, by the classes the [except] clauses tell apart. *)
Inductive exn : Type :=
| RequestException (msg : string)  (* requests.exceptions.RequestException
                                      and subclasses: ConnectionError,
                                      Timeout, HTTPError, JSONDecodeError *)
| GoogleAdsException (msg : string)
| HttpError (msg : string)         (* googleapiclient.errors.HttpError *)
| KeyError (k : pyval)
| IndexError
| TypeError
| AttributeError
| ValueError (msg : string)
| PlainException (msg : string).   (* Exception(msg) *)

(** [isinstance(e, requests.exceptions.RequestException)] *)
Definition is_RequestException (e : exn) : bool :=
  match e with RequestException _ => true | _ => false end.

Definition is_GoogleAdsException (e : exn) : bool :=
  match e with GoogleAdsException _ => true | _ => false end.

Definition is_HttpError (e : exn) : bool :=
  match e with HttpError _ => true | _ => false end.

(** Sequencing of pure steps that may raise. *)
Notation "'let?' x ':=' e 'in' k" :=
  (match e with inl err => inl err | inr x => k end)
  (at level 10, x name, e at level 99, k at level 200).

Module Py.

(** [bool(v)] *)
Definition truthy (v : pyval) : bool :=
  match v with
  | PNone => false
  | PBool b => b
  | PInt z => negb (z =? 0)
  | PStr s => negb (String.eqb s "")
  | PList l => match l with [] => false | _ => true end
  | PDict d => match d with [] => false | _ => true end
  end.

(** ** Dicts *)

(** Whether a value can be a key. *)
Definition hashable (k : pyval) : bool :=
  match k with
  | PList _ | PDict _ => false
  | _ => true
  end.

(** Equality of two keys: [True] and [1], [False] and [0] are one key. *)
Definition key_eqb (a b : pyval) : bool :=
  match a, b with
  | PNone, PNone => true
  | PStr x, PStr y => String.eqb x y
  | PInt x, PInt y => x =? y
  | PInt x, PBool y => x =? Z.b2z y
  | PBool x, PInt y => Z.b2z x =? y
  | PBool x, PBool y => Bool.eqb x y
  | _, _ => false
  end.

(** [k in d] *)
Fixpoint dict_mem (k : pyval) (d : pydict) : bool :=
  match d with
  | [] => false
  | (k', _) :: r => orb (key_eqb k k') (dict_mem k r)
  end.

(** [d.get(k)] as an option *)
Fixpoint dict_find (k : pyval) (d : pydict) : option pyval :=
  match d with
  | [] => None
  | (k', v) :: r => if key_eqb k k' then Some v else dict_find k r
  end.

(** [d.get(k, default)] for a string key *)
Definition dict_get (k : string) (default : pyval) (d : pydict) : pyval :=
  match dict_find (PStr k) d with Some v => v | None => default end.

(** [del d[k]] *)
Fixpoint dict_del (k : pyval) (d : pydict) : pydict :=
  match d with
  | [] => []
  | (k', v) :: r =>
      if key_eqb k k' then dict_del k r else (k', v) :: dict_del k r
  end.

(** [d[k] = v]: an existing key keeps its place (and its first spelling),
    a new key goes last. *)
Fixpoint dict_set (k v : pyval) (d : pydict) : pydict :=
  match d with
  | [] => [(k, v)]
  | (k', v') :: r =>
      if key_eqb k k' then (k', v) :: dict_del k r
      else (k', v') :: dict_set k v r
  end.

Definition dict_keys (d : pydict) : list pyval := map fst d.

(** A dict literal with string keys. *)
Definition dict_of (l : list (string * pyval)) : pydict :=
  map (fun kv => (PStr (fst kv), snd kv)) l.

(** ** Operations that raise on the wrong type *)

(** [v.get(k, default)]: only a dict has [get]. *)
Definition get (v : pyval) (k : string) (default : pyval) : exn + pyval :=
  match v with
  | PDict d => inr (dict_get k default d)
  | _ => inl AttributeError
  end.

(** [v[k]] for a string key. *)
Definition getitem (v : pyval) (k : string) : exn + pyval :=
  match v with
  | PDict d => match dict_find (PStr k) d with
               | Some x => inr x
               | None => inl (KeyError (PStr k))
               end
  | _ => inl TypeError
  end.

(** [v[i]] for an integer index [0 <= i]. *)
Definition getindex (v : pyval) (i : nat) : exn + pyval :=
  match v with
  | PList l => match nth_error l i with
               | Some x => inr x
               | None => inl IndexError
               end
  | PStr s => match String.get i s with
              | Some c => inr (PStr (String c EmptyString))
              | None => inl IndexError
              end
  | PDict d => match dict_find (PInt (Z.of_nat i)) d with
               | Some x => inr x
               | None => inl (KeyError (PInt (Z.of_nat i)))
               end
  | _ => inl TypeError
  end.

(** [v[k] = x] for a string key. *)
Definition setitem (v : pyval) (k : string) (x : pyval) : exn + pyval :=
  match v with
  | PDict d => inr (PDict (dict_set (PStr k) x d))
  | _ => inl TypeError
  end.

(** [d[k] = x] on a dict, for any key. *)
Definition dict_setitem (d : pydict) (k x : pyval) : exn + pydict :=
  if hashable k then inr (dict_set k x d) else inl TypeError.

Definition is_str (s : string) (v : pyval) : bool :=
  match v with PStr s' => String.eqb s s' | _ => false end.

(** [k in v] for a string [k]. *)
Definition contains (k : string) (v : pyval) : exn + bool :=
  match v with
  | PDict d => inr (dict_mem (PStr k) d)
  | PList l => inr (existsb (is_str k) l)
  | PStr s => inr (Str.contains k s)
  | _ => inl TypeError
  end.

(** [iter(v)]: the elements a [for] loop or [extend] sees. *)
Definition iter (v : pyval) : exn + list pyval :=
  match v with
  | PList l => inr l
  | PDict d => inr (dict_keys d)
  | PStr s => inr (map PStr (Str.chars s))
  | _ => inl TypeError
  end.

(** [len(v)] *)
Definition len (v : pyval) : exn + nat :=
  match v with
  | PList l => inr (List.length l)
  | PDict d => inr (List.length d)
  | PStr s => inr (String.length s)
  | _ => inl TypeError
  end.

(** [del v[k]] for a string key. *)
Definition delitem (v : pyval) (k : string) : exn + pyval :=
  match v with
  | PDict d => if dict_mem (PStr k) d then inr (PDict (dict_del (PStr k) d))
               else inl (KeyError (PStr k))
  | _ => inl TypeError
  end.

(** [l.extend(more)]: only a list has [extend]. *)
Definition extend (l more : pyval) : exn + pyval :=
  match l with
  | PList xs => let? ys := iter more in inr (PList (xs ++ ys))
  | _ => inl AttributeError
  end.

(** The strings of an iterable of strings, as [sep.join] needs them. *)
Fixpoint all_str (l : list pyval) : exn + list string :=
  match l with
  | [] => inr []
  | PStr s :: r => let? ss := all_str r in inr (s :: ss)
  | _ :: _ => inl TypeError
  end.

(** [sep.join(v)] *)
Definition join (sep : string) (v : pyval) : exn + string :=
  let? l := iter v in
  let? ss := all_str l in
  inr (Str.join sep ss).

(** [a + b] ([a += b]) on the types that support it. *)
Definition add (a b : pyval) : exn + pyval :=
  match a, b with
  | PStr x, PStr y => inr (PStr (x ++ y))
  | PList x, PList y => inr (PList (x ++ y))
  | PInt x, PInt y => inr (PInt (x + y))
  | PInt x, PBool y => inr (PInt (x + Z.b2z y))
  | PBool x, PInt y => inr (PInt (Z.b2z x + y))
  | PBool x, PBool y => inr (PInt (Z.b2z x + Z.b2z y))
  | _, _ => inl TypeError
  end.

(** [x or default] *)
Definition or_ (x default : pyval) : pyval :=
  if truthy x then x else default.

End Py.

(* ===================================================================== *)
(** * datetime *)
(* ===================================================================== *)

Module Datetime.

Definition digit (n : Z) : ascii := ascii_of_nat (48 + Z.to_nat (n mod 10)).

(** [n] written with [k] decimal digits, zero padded. *)
Fixpoint digits (k : nat) (n : Z) : string :=
  match k with
  | O => ""
  | S k' => digits k' (n / 10) ++ String (digit n) ""
  end.

(** Year, month and day of the day number [days] (days since 1970-01-01
    in the proleptic Gregorian calendar). *)
Definition civil_from_days (days : Z) : Z * Z * Z :=
  let z := days + 719468 in
  let era := z / 146097 in
  let doe := z - era * 146097 in
  let yoe := (doe - doe / 1460 + doe / 36524 - doe / 146096) / 365 in
  let doy := doe - (365 * yoe + yoe / 4 - yoe / 100) in
  let mp := (5 * doy + 2) / 153 in
  let d := doy - (153 * mp + 2) / 5 + 1 in
  let m := if mp <? 10 then mp + 3 else mp - 9 in
  let y := yoe + era * 400 + (if m <=? 2 then 1 else 0) in
  (y, m, d).

(** [t.isoformat()] for the clock reading [t], in microseconds since
    1970-01-01T00:00:00 of the local calendar. *)
Definition isoformat (t : Z) : string :=
  let us := t mod 1000000 in
  let secs := t / 1000000 in
  let '(y, m, d) := civil_from_days (secs / 86400) in
  let sod := secs mod 86400 in
  digits 4 y ++ "-" ++ digits 2 m ++ "-" ++ digits 2 d ++ "T" ++
  digits 2 (sod / 3600) ++ ":" ++ digits 2 (sod / 60 mod 60) ++ ":" ++
  digits 2 (sod mod 60) ++
  (if us =? 0 then "" else "." ++ digits 6 us).

End Datetime.

(* ===================================================================== *)
(** * app.py: the connector registry *)
(* ===================================================================== *)

Module App.

(** The connector classes the registry can hand out. *)
Inductive connector_class : Type :=
| SalesforceConnector
| GoogleAdsConnector
| GA4Connector
| MetaAdsConnector
| GoogleSheetsConnector
| HubspotConnector.

(** [CONNECTOR_REGISTRY]: populated only if the imports succeeded. *)
Definition CONNECTOR_REGISTRY (CONNECTORS_AVAILABLE : bool)
  : list (string * connector_class) :=
  if CONNECTORS_AVAILABLE then
    [ ("salesforce", SalesforceConnector);
      ("google_ads", GoogleAdsConnector);
      ("ga4", GA4Connector);
      ("meta_ads", MetaAdsConnector);
      ("google_sheets", GoogleSheetsConnector);
      ("hubspot", HubspotConnector) ]
  else [].

Fixpoint registry_get (k : string) (r : list (string * connector_class))
  : option connector_class :=
  match r with
  | [] => None
  | (k', c) :: r' => if String.eqb k k' then Some c else registry_get k r'
  end.

(** [get_connector(connector_type)] *)
Definition get_connector (CONNECTORS_AVAILABLE : bool)
    (connector_type : string) : exn + connector_class :=
  if negb CONNECTORS_AVAILABLE then
    inl (ValueError
           "Connector registry is not available due to import errors.")
  else
    match registry_get (Str.lower connector_type)
                       (CONNECTOR_REGISTRY CONNECTORS_AVAILABLE) with
    | None =>
        inl (ValueError ("Unsupported connector type: " ++ connector_type))
    | Some connector_class => inr connector_class
    end.

(** The two failures of the registry, under the names the specification
    gives them. *)
Definition RegistryUnavailableError : exn :=
  ValueError "Connector registry is not available due to import errors.".

Definition UnknownConnectorError (connector_type : string) : exn :=
  ValueError ("Unsupported connector type: " ++ connector_type).

(** The fixed set of vendor identifiers. *)
Definition vendor_ids : list string :=
  map fst (CONNECTOR_REGISTRY true).

End App.

(* ===================================================================== *)
(** * The outside world: vendor, clock, logger *)
(* ===================================================================== *)

(** What [requests] hands back: [json] is what [response.json()] does,
    a value or the exception it raises on a body that is not JSON. *)
Record response : Type := {
  status_code : Z;
  text : string;
  json : exn + pyval
}.

(** GA4 Data API objects (typed protobuf messages). *)
Record ga4_row : Type := {
  dimension_values : list string;
  metric_values : list string
}.

Record ga4_report : Type := {
  dimension_headers : list string;
  metric_headers : list string;
  rows : list ga4_row
}.

Record ga4_dimension : Type := {
  dim_api_name : string;
  dim_ui_name : string;
  dim_description : string;
  dim_category : string;
  dim_deprecated : bool
}.

Record ga4_metric : Type := {
  met_api_name : string;
  met_ui_name : string;
  met_description : string;
  met_type_name : string;
  met_category : string;
  met_deprecated : bool
}.

Record ga4_metadata : Type := {
  md_dimensions : list ga4_dimension;
  md_metrics : list ga4_metric
}.

(** The calls of the five connectors into the vendors and their client
    libraries, indexed by the type of what comes back.  [headers] is the
    token that the session sends in its [Authorization: Bearer ...]
    header, if one was set.  The Google client libraries hand back typed
    messages; a message constructor that rejects an ill-typed field is
    not told apart from the call that would carry the message. *)
Inductive call : Type -> Type :=
(* Salesforce, through [self.session] *)
| SfToken (auth_url : string) (headers : option pyval) (payload : pydict)
    : call response
| SfSObjects (headers : option pyval) (instance_url api_version : pyval)
    : call response
| SfQuery (headers : option pyval) (instance_url api_version : pyval)
    (q : fstring) : call response
| SfNextRecords (headers : option pyval) (instance_url next_url : pyval)
    : call response
| SfDescribe (headers : option pyval) (instance_url api_version : pyval)
    (object_name : pyval) : call response
(* HubSpot, through [self.session] *)
| HsToken (headers : option pyval) (payload : pydict) : call response
| HsAccountInfo (headers : option pyval) : call response
| HsSearch (headers : option pyval) (object_type : string)
    (payload : pydict) : call response
| HsSchema (headers : option pyval) (object_type : string) : call response
| HsSchemas (headers : option pyval) : call response
(* google.oauth2 credentials *)
| CredsExpired (token refresh_token : pyval) : call bool
| CredsRefresh (client_id client_secret refresh_token : pyval) : call pyval
(* GA4 *)
| GA4Client (token : pyval) : call unit
| GA4GetMetadata (name : fstring) : call ga4_metadata
| GA4RunReport (request : pydict) : call ga4_report
| GA4RunRealtimeReport (request : pydict) : call ga4_report
(* Google Ads *)
| AdsLoadClient (config : pydict) : call unit
| AdsGetService (name : string) : call unit
| AdsGetCustomer (customer_id : pyval) : call string
| AdsSearch (customer_id : pyval) (query : fstring) : call (list pydict)
    (* the rows, each as [_convert_row_to_dict(row)] gives it *)
(* Google Sheets *)
| SheetsBuild (token : pyval) : call unit
| SheetsGet (spreadsheet_id : string) : call pyval
| SheetsValuesGet (spreadsheet_id : string) (range : fstring)
    (options : pydict) : call pyval.

Inductive any_call : Type :=
| AnyCall (T : Type) (c : call T).

Inductive level : Type := DEBUG | INFO | WARNING | ERROR.

Record world : Type := {
  now : Z;                               (* the clock, in microseconds *)
  log : list (level * string);           (* logger sink, latest first *)
  sent : list any_call;                  (* calls issued, latest first *)
  raised : nat;                          (* how many of them raised *)
  vendor : forall T : Type, nat -> call T -> exn + T
}.

Definition with_now (t : Z) (w : world) : world :=
  {| now := t; log := log w; sent := sent w; raised := raised w;
     vendor := vendor w |}.

Definition with_log (l : list (level * string)) (w : world) : world :=
  {| now := now w; log := l; sent := sent w; raised := raised w;
     vendor := vendor w |}.

(** The call [c] goes out; [failed] tells whether it raised. *)
Definition with_sent (c : any_call) (failed : bool) (w : world) : world :=
  {| now := now w; log := log w; sent := c :: sent w;
     raised := if failed then S (raised w) else raised w;
     vendor := vendor w |}.

(* ===================================================================== *)
(** * The monad of methods *)
(* ===================================================================== *)

Inductive result (A : Type) : Type :=
| Ret (a : A)
| Raise (e : exn)
| OutOfFuel.

Arguments Ret {A} a.
Arguments Raise {A} e.
Arguments OutOfFuel {A}.

Definition M (S A : Type) : Type := S -> world -> result A * S * world.

Section Monad.
Context {S : Type}.

Definition ret {A} (a : A) : M S A := fun s w => (Ret a, s, w).

Definition bind {A B} (m : M S A) (k : A -> M S B) : M S B :=
  fun s w =>
    match m s w with
    | (Ret a, s', w') => k a s' w'
    | (Raise e, s', w') => (Raise e, s', w')
    | (OutOfFuel, s', w') => (OutOfFuel, s', w')
    end.

(** [raise e] *)
Definition raise {A} (e : exn) : M S A := fun s w => (Raise e, s, w).

Definition out_of_fuel {A} : M S A := fun s w => (OutOfFuel, s, w).

(** [try: m  except Exception as e: h e] *)
Definition try_except {A} (m : M S A) (h : exn -> M S A) : M S A :=
  fun s w =>
    match m s w with
    | (Raise e, s', w') => h e s' w'
    | r => r
    end.

(** A pure step that may raise. *)
Definition lift {A} (r : exn + A) : M S A :=
  match r with
  | inr a => ret a
  | inl e => raise e
  end.

(** Reading and writing the attributes of [self]. *)
Definition self : M S S := fun s w => (Ret s, s, w).
Definition set_self (f : S -> S) : M S unit := fun s w => (Ret tt, f s, w).

(** [self.logger.<lvl>(msg)]; interpolated values are left out of [msg]. *)
Definition logger (lvl : level) (msg : string) : M S unit :=
  fun s w => (Ret tt, s, with_log ((lvl, msg) :: log w) w).

(** [datetime.now()] *)
Definition datetime_now : M S Z := fun s w => (Ret (now w), s, w).

(** [time.sleep(d)]: the clock moves on by [d]. *)
Definition time_sleep (d : Z) : M S unit :=
  fun s w => (Ret tt, s, with_now (now w + d) w).

(** One outbound call: it is recorded, and the vendor answers or the
    transport raises. *)
Definition send {T} (c : call T) : M S T :=
  fun s w =>
    match vendor w (List.length (sent w)) c with
    | inr r => (Ret r, s, with_sent (AnyCall c) false w)
    | inl e => (Raise e, s, with_sent (AnyCall c) true w)
    end.

End Monad.

Notation "'let!' x ':=' m 'in' k" := (bind m (fun x => k))
  (at level 10, x name, m at level 99, k at level 200).
Notation "m ;; k" := (bind m (fun _ => k))
  (at level 100, right associativity).

(** Time passing between two actions of the caller. *)
Definition elapse {S} (d : Z) : M S unit :=
  fun s w => (Ret tt, s, with_now (now w + d) w).

(** [response.raise_for_status()] *)
Definition raise_for_status {S} (r : response) : M S unit :=
  if andb (400 <=? status_code r) (status_code r <? 600)
  then raise (RequestException "HTTPError")
  else ret tt.

(** The configured rate limits: [rate_limit_config], with durations in
    microseconds. *)
Definition rate_limit_config_t := list (string * Z).

Fixpoint config_get (k : string) (default : Z) (c : rate_limit_config_t)
  : Z :=
  match c with
  | [] => default
  | (k', v) :: r => if String.eqb k k' then v else config_get k default r
  end.

(** [c.setdefault(k, v)] *)
Definition config_setdefault (k : string) (v : Z) (c : rate_limit_config_t)
  : rate_limit_config_t :=
  if existsb (fun kv => String.eqb k (fst kv)) c then c else c ++ [(k, v)].

(* ===================================================================== *)
(** * extractors/connectors/salesforce_connector.py *)
(* ===================================================================== *)

Module Salesforce.

Inductive auth_type_t : Type := token | password | unauthenticated.

Definition is_password (a : auth_type_t) : bool :=
  match a with password => true | _ => false end.

(** The attributes of a [SalesforceConnector].  [session_headers] is the
    token of the session's [Authorization] header ([None]: not set). *)
Record Self : Type := {
  credentials : pydict;
  instance_url : pyval;
  api_version : pyval;
  access_token : pyval;
  refresh_token : pyval;
  last_request_time : option Z;
  client_id : pyval;
  client_secret : pyval;
  session_headers : option pyval;
  request_count : Z;
  max_retries : Z;
  auth_type : auth_type_t
}.

Definition set_instance_url (v : pyval) (s : Self) : Self :=
  {| credentials := credentials s; instance_url := v;
     api_version := api_version s; access_token := access_token s;
     refresh_token := refresh_token s;
     last_request_time := last_request_time s; client_id := client_id s;
     client_secret := client_secret s;
     session_headers := session_headers s;
     request_count := request_count s; max_retries := max_retries s;
     auth_type := auth_type s |}.

Definition set_access_token (v : pyval) (s : Self) : Self :=
  {| credentials := credentials s; instance_url := instance_url s;
     api_version := api_version s; access_token := v;
     refresh_token := refresh_token s;
     last_request_time := last_request_time s; client_id := client_id s;
     client_secret := client_secret s;
     session_headers := session_headers s;
     request_count := request_count s; max_retries := max_retries s;
     auth_type := auth_type s |}.

Definition set_refresh_token (v : pyval) (s : Self) : Self :=
  {| credentials := credentials s; instance_url := instance_url s;
     api_version := api_version s; access_token := access_token s;
     refresh_token := v;
     last_request_time := last_request_time s; client_id := client_id s;
     client_secret := client_secret s;
     session_headers := session_headers s;
     request_count := request_count s; max_retries := max_retries s;
     auth_type := auth_type s |}.

Definition set_last_request_time (t : option Z) (s : Self) : Self :=
  {| credentials := credentials s; instance_url := instance_url s;
     api_version := api_version s; access_token := access_token s;
     refresh_token := refresh_token s;
     last_request_time := t; client_id := client_id s;
     client_secret := client_secret s;
     session_headers := session_headers s;
     request_count := request_count s; max_retries := max_retries s;
     auth_type := auth_type s |}.

Definition set_session_headers (h : option pyval) (s : Self) : Self :=
  {| credentials := credentials s; instance_url := instance_url s;
     api_version := api_version s; access_token := access_token s;
     refresh_token := refresh_token s;
     last_request_time := last_request_time s; client_id := client_id s;
     client_secret := client_secret s;
     session_headers := h;
     request_count := request_count s; max_retries := max_retries s;
     auth_type := auth_type s |}.

Definition set_request_count (n : Z) (s : Self) : Self :=
  {| credentials := credentials s; instance_url := instance_url s;
     api_version := api_version s; access_token := access_token s;
     refresh_token := refresh_token s;
     last_request_time := last_request_time s; client_id := client_id s;
     client_secret := client_secret s;
     session_headers := session_headers s;
     request_count := n; max_retries := max_retries s;
     auth_type := auth_type s |}.

(** [__init__(credentials)]; [environ] is [os.environ]. *)
Definition init (environ : pydict) (creds : option pydict) : Self :=
  let credentials := match creds with Some c => c | None => [] end in
  let has k := Py.dict_mem (PStr k) credentials in
  {| credentials := credentials;
     instance_url := Py.dict_get "instance_url" PNone credentials;
     api_version := Py.dict_get "api_version" (PStr "57.0") credentials;
     access_token := Py.dict_get "access_token" PNone credentials;
     refresh_token := Py.dict_get "refresh_token" PNone credentials;
     last_request_time := None;
     client_id := Py.dict_get "SALESFORCE_CLIENT_ID" PNone environ;
     client_secret := Py.dict_get "SALESFORCE_CLIENT_SECRET" PNone environ;
     session_headers :=
       if has "access_token"
       then Some (Py.dict_get "access_token" PNone credentials)
       else None;
     request_count := 0;
     max_retries := 3;
     auth_type :=
       if has "access_token" then token
       else if andb (has "username") (has "password") then password
       else unauthenticated |}.

(** [_get_auth_url()] *)
Definition _get_auth_url (s : Self) : string :=
  if Py.truthy (Py.dict_get "sandbox" (PBool false) (credentials s))
  then "https://test.salesforce.com/services/oauth2/token"
  else "https://login.salesforce.com/services/oauth2/token".

(** The body of [authenticate]'s [try], for password credentials. *)
Definition password_login : M Self pyval :=
  let! s := self in
  let auth_url := _get_auth_url s in
  let! username := lift (Py.getitem (PDict (credentials s)) "username") in
  let! pw := lift (Py.getitem (PDict (credentials s)) "password") in
  let! pw :=
    if Py.dict_mem (PStr "security_token") (credentials s) then
      let! st :=
        lift (Py.getitem (PDict (credentials s)) "security_token") in
      lift (Py.add pw st)
    else ret pw in
  let payload :=
    Py.dict_of [("grant_type", PStr "password");
                ("client_id", client_id s);
                ("client_secret", client_secret s);
                ("username", username);
                ("password", pw)] in
  let! response := send (SfToken auth_url (session_headers s) payload) in
  if status_code response =? 200 then
    let! auth_data := lift (json response) in
    let! tok := lift (Py.getitem auth_data "access_token") in
    set_self (set_access_token tok) ;;
    let! s1 := self in
    let! url := lift (Py.get auth_data "instance_url" (instance_url s1)) in
    set_self (set_instance_url url) ;;
    set_self (set_session_headers (Some tok)) ;;
    logger INFO "Successfully authenticated with Salesforce" ;;
    ret (PBool true)
  else
    logger ERROR "Authentication failed" ;;
    ret (PBool false).

(** [authenticate()], with the [validate_connection] it calls back for
    credentials that are not a password. *)
Definition authenticate_with (validate_connection : M Self pyval)
  : M Self pyval :=
  try_except
    (let! s := self in
     if negb (is_password (auth_type s)) then
       logger ERROR
         "Authenticate called for non-password credentials. Use token refresh instead." ;;
       validate_connection
     else password_login)
    (fun e => logger ERROR "Authentication error" ;; ret (PBool false)).

(** The body of [refresh_access_token]'s [try]. *)
Definition refresh_access_token_try : M Self pyval :=
  let! s := self in
  let auth_url := _get_auth_url s in
  let payload :=
    Py.dict_of [("grant_type", PStr "refresh_token");
                ("client_id", client_id s);
                ("client_secret", client_secret s);
                ("refresh_token", refresh_token s)] in
  let! response := send (SfToken auth_url (session_headers s) payload) in
  raise_for_status response ;;
  let! auth_data := lift (json response) in
  let! tok := lift (Py.getitem auth_data "access_token") in
  set_self (set_access_token tok) ;;
  let! rt := lift (Py.get auth_data "refresh_token" (refresh_token s)) in
  set_self (set_refresh_token rt) ;;
  set_self (set_session_headers (Some tok)) ;;
  logger INFO "Successfully refreshed Salesforce access token." ;;
  ret auth_data.

(** [refresh_access_token()] *)
Definition refresh_access_token : M Self pyval :=
  let! s := self in
  if negb (Py.truthy (refresh_token s)) then
    logger ERROR "No refresh token available to refresh the access token." ;;
    raise (PlainException "No refresh token available.")
  else
    try_except refresh_access_token_try
      (fun e => logger ERROR "Error refreshing access token" ;; raise e).

(** [validate_connection()], with the [authenticate] it calls. *)
Definition validate_connection_with (authenticate : M Self pyval)
  : M Self pyval :=
  let! s := self in
  if negb (Py.truthy (access_token s)) then
    if is_password (auth_type s) then authenticate
    else
      logger WARNING "No access token present for connection validation." ;;
      ret (PBool false)
  else
    try_except
      (let! response :=
         send (SfSObjects (session_headers s) (instance_url s)
                 (api_version s)) in
       if status_code response =? 200 then
         logger INFO "Connection to Salesforce is valid" ;;
         ret (PBool true)
       else if status_code response =? 401 then
         logger INFO
           "Access token may be expired, attempting to refresh/re-authenticate." ;;
         match auth_type s with
         | token => refresh_access_token
         | password => authenticate
         | unauthenticated => ret (PBool false)
         end
       else
         logger ERROR "Connection validation failed" ;;
         ret (PBool false))
      (fun e => logger ERROR "Connection validation error" ;;
                ret (PBool false)).

(** The two methods call each other, but only one level deep:
    [validate_connection] calls [authenticate] for password credentials
    only, and then [authenticate] logs in without calling back. *)
Definition validate_connection : M Self pyval :=
  validate_connection_with (authenticate_with out_of_fuel).

Definition authenticate : M Self pyval :=
  authenticate_with validate_connection.

(** [handle_rate_limits()] *)
Definition handle_rate_limits : M Self unit :=
  let! s := self in
  if 100 <=? request_count s then
    time_sleep 5000000 ;;
    set_self (set_request_count 0)
  else
    match last_request_time s with
    | Some last =>
        let! t := datetime_now in
        let elapsed := t - last in
        if elapsed <? 100000 then time_sleep (100000 - elapsed) else ret tt
    | None => ret tt
    end ;;
    let! t := datetime_now in
    set_self (set_last_request_time (Some t)) ;;
    set_self (fun s => set_request_count (request_count s + 1) s).

(** [query_params or {}] *)
Definition params_or_empty (query_params : option pydict) : pydict :=
  match query_params with Some d => d | None => [] end.

(** The SOQL text that [fetch_data] builds before its [try]. *)
Definition build_query (query_or_object_name : string)
    (query_params : option pydict) : exn + fstring :=
  let lowered := Str.lower query_or_object_name in
  if andb (Str.contains "select" lowered) (Str.contains "from" lowered)
  then inr [PStr query_or_object_name]
  else
    let object_name := query_or_object_name in
    let query_params := params_or_empty query_params in
    let fields :=
      Py.dict_get "fields"
        (PList [PStr "Id"; PStr "Name"; PStr "CreatedDate";
                PStr "LastModifiedDate"]) query_params in
    let where_clause := Py.dict_get "where" (PStr "") query_params in
    let limit_clause :=
      if Py.dict_mem (PStr "limit") query_params
      then [PStr "LIMIT "; Py.dict_get "limit" (PInt 2000) query_params]
      else [] in
    let order_by := Py.dict_get "order_by" (PStr "") query_params in
    let? fields_str := Py.join ", " fields in
    let query :=
      [PStr "SELECT "; PStr fields_str; PStr " FROM "; PStr object_name] in
    let query :=
      if Py.truthy where_clause
      then query ++ [PStr " WHERE "; where_clause] else query in
    let query :=
      if Py.truthy order_by
      then query ++ [PStr " ORDER BY "; order_by] else query in
    let query :=
      match limit_clause with
      | [] => query
      | _ => query ++ PStr " " :: limit_clause
      end in
    inr query.

(** [if 'attributes' in record: del record['attributes']] *)
Definition strip_record (record : pyval) : exn + pyval :=
  let? present := Py.contains "attributes" record in
  if present then Py.delitem record "attributes" else inr record.

Fixpoint strip_all (l : list pyval) : exn + list pyval :=
  match l with
  | [] => inr []
  | record :: r =>
      let? record' := strip_record record in
      let? r' := strip_all r in
      inr (record' :: r')
  end.

(** [for record in records: ...]: the records of a list are changed in
    place; the items of another iterable are strings, which either have
    no ['attributes'] in them or make [del] raise. *)
Definition remove_attributes (records : pyval) : exn + pyval :=
  match records with
  | PList l => let? l' := strip_all l in inr (PList l')
  | _ => let? items := Py.iter records in
         let? _ := strip_all items in
         inr records
  end.

(** [while next_url: ...] *)
Fixpoint next_batches (fuel : nat) (records next_url : pyval)
  : M Self pyval :=
  if negb (Py.truthy next_url) then ret records
  else
    match fuel with
    | O => out_of_fuel
    | S fuel' =>
        handle_rate_limits ;;
        logger DEBUG "Fetching next batch" ;;
        let! s := self in
        let! response :=
          send (SfNextRecords (session_headers s) (instance_url s)
                  next_url) in
        if status_code response =? 200 then
          let! data := lift (json response) in
          let! more := lift (Py.get data "records" (PList [])) in
          let! records := lift (Py.extend records more) in
          let! next_url := lift (Py.get data "nextRecordsUrl" PNone) in
          next_batches fuel' records next_url
        else
          logger ERROR "Error fetching next batch" ;;
          ret records
    end.

(** The body of [fetch_data]'s [try]. *)
Definition fetch_data_try (fuel : nat) (query : fstring) : M Self pyval :=
  handle_rate_limits ;;
  let! s := self in
  let! response :=
    send (SfQuery (session_headers s) (instance_url s) (api_version s)
            query) in
  if status_code response =? 200 then
    let! data := lift (json response) in
    let! records := lift (Py.get data "records" (PList [])) in
    let! next_url := lift (Py.get data "nextRecordsUrl" PNone) in
    let! records := next_batches fuel records next_url in
    let! records := lift (remove_attributes records) in
    logger INFO "Successfully fetched records." ;;
    ret records
  else
    logger ERROR "Error fetching data" ;;
    ret (PList []).

(** [fetch_data(query_or_object_name, query_params)] *)
Definition fetch_data (fuel : nat) (query_or_object_name : string)
    (query_params : option pydict) : M Self pyval :=
  let! ok := validate_connection in
  if negb (Py.truthy ok) then
    logger ERROR "Connection validation failed, cannot fetch data" ;;
    ret (PList [])
  else
    let! query := lift (build_query query_or_object_name query_params) in
    logger DEBUG "SOQL Query" ;;
    try_except (fetch_data_try fuel query)
      (fun e => logger ERROR "Error fetching data" ;; ret (PList [])).

(** One entry of [field_info]: the right-hand side is evaluated first,
    then the key [field['name']]. *)
Definition field_entry (field : pyval) (field_info : pydict)
  : exn + pydict :=
  let? ty := Py.getitem field "type" in
  let? label := Py.getitem field "label" in
  let? length := Py.get field "length" PNone in
  let? nillable := Py.get field "nillable" (PBool true) in
  let? createable := Py.get field "createable" (PBool false) in
  let? updateable := Py.get field "updateable" (PBool false) in
  let? name := Py.getitem field "name" in
  Py.dict_setitem field_info name
    (PDict (Py.dict_of [("type", ty); ("label", label);
                        ("length", length); ("nillable", nillable);
                        ("createable", createable);
                        ("updateable", updateable)])).

(** [for field in fields: field_info[field['name']] = {...}] *)
Fixpoint field_entries (fields : list pyval) (field_info : pydict)
  : exn + pydict :=
  match fields with
  | [] => inr field_info
  | field :: r =>
      let? field_info' := field_entry field field_info in
      field_entries r field_info'
  end.

(** The body of [fetch_schema]'s [try]. *)
Definition fetch_schema_try (object_name : string) : M Self pyval :=
  handle_rate_limits ;;
  let! s := self in
  let! response :=
    send (SfDescribe (session_headers s) (instance_url s) (api_version s)
            (PStr object_name)) in
  if status_code response =? 200 then
    let! schema := lift (json response) in
    let! fields := lift (Py.get schema "fields" (PList [])) in
    let! fields := lift (Py.iter fields) in
    let! field_info := lift (field_entries fields []) in
    let! name := lift (Py.get schema "name" PNone) in
    let! label := lift (Py.get schema "label" PNone) in
    let! t := datetime_now in
    ret (PDict (Py.dict_of [("name", name); ("label", label);
                            ("fields", PDict field_info);
                            ("timestamp", PStr (Datetime.isoformat t))]))
  else
    logger ERROR "Error fetching schema" ;;
    ret (PDict []).

(** [fetch_schema(object_name)] *)
Definition fetch_schema (object_name : string) : M Self pyval :=
  let! ok := validate_connection in
  if negb (Py.truthy ok) then
    logger ERROR "Connection validation failed, cannot fetch schema" ;;
    ret (PDict [])
  else
    try_except (fetch_schema_try object_name)
      (fun e => logger ERROR "Error fetching schema" ;; ret (PDict [])).

(** [obj['name'].endswith(('__e', '__c'))] *)
Definition name_is_event_or_custom (obj : pyval) : exn + bool :=
  let? name := Py.getitem obj "name" in
  match name with
  | PStr n => inr (orb (Str.endswith "__e" n) (Str.endswith "__c" n))
  | _ => inl AttributeError
  end.

(** The list comprehension that selects the object names. *)
Fixpoint queryable_names (sobjects : list pyval) : exn + list string :=
  match sobjects with
  | [] => inr []
  | obj :: r =>
      let? queryable := Py.get obj "queryable" PNone in
      let? keep :=
        if Py.truthy queryable then
          let? custom := Py.get obj "customSetting" PNone in
          if negb (Py.truthy custom) then
            let? skip := name_is_event_or_custom obj in
            inr (negb skip)
          else inr false
        else inr false in
      let? here :=
        if keep then
          let? name := Py.getitem obj "name" in
          match name with
          | PStr n => inr [n]
          | _ => inl AttributeError
          end
        else inr [] in
      let? rest := queryable_names r in
      inr (here ++ rest)
  end.

(** [{'columnName': field_name, 'dataType': field_details.get('type',
    'string')}] for each item of [object_schema['fields']]. *)
Fixpoint columns_of (fields : pydict) : exn + list pyval :=
  match fields with
  | [] => inr []
  | (field_name, field_details) :: r =>
      let? ty := Py.get field_details "type" (PStr "string") in
      let? rest := columns_of r in
      inr (PDict (Py.dict_of [("columnName", field_name);
                              ("dataType", ty)]) :: rest)
  end.

(** [object_schema['fields'].items()] *)
Definition items_of_fields (object_schema : pyval) : exn + pydict :=
  let? fields := Py.getitem object_schema "fields" in
  match fields with
  | PDict d => inr d
  | _ => inl AttributeError
  end.

(** [for object_name in object_names[:100]: ...] *)
Fixpoint describe_all (object_names : list string) (full_schema : pydict)
  : M Self pydict :=
  match object_names with
  | [] => ret full_schema
  | object_name :: r =>
      logger DEBUG "Fetching schema for object" ;;
      let! object_schema := fetch_schema object_name in
      let! has_fields :=
        if Py.truthy object_schema
        then lift (Py.contains "fields" object_schema)
        else ret false in
      if has_fields then
        let! fields := lift (items_of_fields object_schema) in
        let! fields_list := lift (columns_of fields) in
        describe_all r
          (Py.dict_set (PStr object_name) (PList fields_list) full_schema)
      else
        logger WARNING "Could not retrieve schema for object" ;;
        describe_all r full_schema
  end.

(** The body of [list_objects]'s [try]. *)
Definition list_objects_try : M Self pyval :=
  handle_rate_limits ;;
  let! s := self in
  let! response :=
    send (SfSObjects (session_headers s) (instance_url s)
            (api_version s)) in
  raise_for_status response ;;
  let! all_objects_data := lift (json response) in
  let! sobjects := lift (Py.get all_objects_data "sobjects" (PList [])) in
  let! sobjects := lift (Py.iter sobjects) in
  let! object_names := lift (queryable_names sobjects) in
  logger INFO "Found queryable SObjects to describe." ;;
  let! full_schema := describe_all (firstn 100 object_names) [] in
  ret (PDict [(PStr "salesforce", PDict full_schema)]).

(** [list_objects()] *)
Definition list_objects : M Self pyval :=
  let! ok := validate_connection in
  if negb (Py.truthy ok) then
    logger ERROR "Connection validation failed, cannot list objects" ;;
    ret (PDict [])
  else
    try_except list_objects_try
      (fun e =>
         if is_RequestException e then
           logger ERROR "API request error while listing objects" ;;
           ret (PDict [])
         else
           logger ERROR
             "An unexpected error occurred while listing objects" ;;
           ret (PDict [])).

End Salesforce.

(* ===================================================================== *)
(** * extractors/connectors/hubspot_connector.py *)
(* ===================================================================== *)

Module Hubspot.

Record Self : Type := {
  credentials : pydict;
  api_base_url : string;
  access_token : pyval;
  refresh_token : pyval;
  last_request_time : option Z;
  session_headers : option pyval;
  request_count : Z;
  max_retries : Z
}.

Definition set_tokens (a r : pyval) (s : Self) : Self :=
  {| credentials := credentials s; api_base_url := api_base_url s;
     access_token := a; refresh_token := r;
     last_request_time := last_request_time s;
     session_headers := session_headers s;
     request_count := request_count s; max_retries := max_retries s |}.

Definition set_access_token (a : pyval) (s : Self) : Self :=
  set_tokens a (refresh_token s) s.

Definition set_refresh_token (r : pyval) (s : Self) : Self :=
  set_tokens (access_token s) r s.

Definition set_session_headers (h : option pyval) (s : Self) : Self :=
  {| credentials := credentials s; api_base_url := api_base_url s;
     access_token := access_token s; refresh_token := refresh_token s;
     last_request_time := last_request_time s;
     session_headers := h;
     request_count := request_count s; max_retries := max_retries s |}.

(** [__init__(credentials)] *)
Definition init (creds : option pydict) : Self :=
  let credentials := match creds with Some c => c | None => [] end in
  let access_token := Py.dict_get "access_token" PNone credentials in
  {| credentials := credentials;
     api_base_url := "https://api.hubapi.com";
     access_token := access_token;
     refresh_token := Py.dict_get "refresh_token" PNone credentials;
     last_request_time := None;
     session_headers :=
       if Py.truthy access_token then Some access_token else None;
     request_count := 0;
     max_retries := 3 |}.

(** The body of [refresh_access_token]'s [try]. *)
Definition refresh_access_token_try : M Self pyval :=
  let! s := self in
  let! client_id := lift (Py.getitem (PDict (credentials s)) "client_id") in
  let! client_secret :=
    lift (Py.getitem (PDict (credentials s)) "client_secret") in
  let payload :=
    Py.dict_of [("grant_type", PStr "refresh_token");
                ("client_id", client_id);
                ("client_secret", client_secret);
                ("refresh_token", refresh_token s)] in
  let! response := send (HsToken (session_headers s) payload) in
  raise_for_status response ;;
  let! auth_data := lift (json response) in
  let! tok := lift (Py.getitem auth_data "access_token") in
  set_self (set_access_token tok) ;;
  let! rt := lift (Py.get auth_data "refresh_token" (refresh_token s)) in
  set_self (set_refresh_token rt) ;;
  set_self (set_session_headers (Some tok)) ;;
  logger INFO "Successfully refreshed HubSpot access token." ;;
  ret (PBool true).

(** [refresh_access_token()]: only a [RequestException] is caught. *)
Definition refresh_access_token : M Self pyval :=
  let! s := self in
  if negb (Py.truthy (refresh_token s)) then
    logger ERROR "No refresh token available to refresh the access token." ;;
    ret (PBool false)
  else
    try_except refresh_access_token_try
      (fun e =>
         if is_RequestException e then
           logger ERROR "Error refreshing access token" ;;
           ret (PBool false)
         else raise e).

(** [validate_connection()] *)
Definition validate_connection : M Self pyval :=
  let! s := self in
  if negb (Py.truthy (access_token s)) then
    logger WARNING "No access token present for connection validation." ;;
    ret (PBool false)
  else
    try_except
      (let! response := send (HsAccountInfo (session_headers s)) in
       if status_code response =? 200 then
         logger INFO "Connection to HubSpot is valid." ;;
         ret (PBool true)
       else if status_code response =? 401 then
         logger INFO
           "HubSpot access token may be expired, attempting to refresh." ;;
         refresh_access_token
       else
         logger ERROR "Connection validation failed" ;;
         ret (PBool false))
      (fun e => logger ERROR "Connection validation error" ;;
                ret (PBool false)).

(** [authenticate()] *)
Definition authenticate : M Self pyval := validate_connection.

(** [handle_rate_limits()]: sleep for 110ms between requests. *)
Definition handle_rate_limits : M Self unit := time_sleep 110000.

Definition params_or_empty (query_params : option pydict) : pydict :=
  match query_params with Some d => d | None => [] end.

(** [flat_item = item.get('properties', {}); flat_item['id'] =
    item.get('id')] *)
Definition flatten_item (item : pyval) : exn + pyval :=
  let? flat_item := Py.get item "properties" (PDict []) in
  let? id := Py.get item "id" PNone in
  Py.setitem flat_item "id" id.

Fixpoint flatten_all (results : list pyval) : exn + list pyval :=
  match results with
  | [] => inr []
  | item :: r =>
      let? flat_item := flatten_item item in
      let? rest := flatten_all r in
      inr (flat_item :: rest)
  end.

(** The cursor of the next page, if the response has one:
    [data['paging']['next']['after']]. *)
Definition next_after (data : pyval) : exn + option pyval :=
  let? has_paging := Py.contains "paging" data in
  if has_paging then
    let? paging := Py.getitem data "paging" in
    let? has_next := Py.contains "next" paging in
    if has_next then
      let? next := Py.getitem paging "next" in
      let? after := Py.getitem next "after" in
      inr (Some after)
    else inr None
  else inr None.

(** [while True: ...] *)
Fixpoint search_pages (fuel : nat) (object_type : string)
    (query_params : pydict) (properties : pyval)
    (all_results : list pyval) (after : pyval) : M Self pyval :=
  match fuel with
  | O => out_of_fuel
  | S fuel' =>
      handle_rate_limits ;;
      let payload :=
        Py.dict_of [("properties", properties);
                    ("limit", Py.dict_get "limit" (PInt 100) query_params)]
      in
      let payload :=
        if Py.truthy after then Py.dict_set (PStr "after") after payload
        else payload in
      logger DEBUG "Fetching HubSpot data" ;;
      let! s := self in
      let! response :=
        send (HsSearch (session_headers s) object_type payload) in
      raise_for_status response ;;
      let! data := lift (json response) in
      let! results := lift (Py.get data "results" (PList [])) in
      let! results := lift (Py.iter results) in
      let! flat := lift (flatten_all results) in
      let all_results := all_results ++ flat in
      let! cursor := lift (next_after data) in
      match cursor with
      | Some after' =>
          search_pages fuel' object_type query_params properties
            all_results after'
      | None =>
          logger INFO "Successfully fetched records." ;;
          ret (PList all_results)
      end
  end.

(** The body of [fetch_data]'s [try]. *)
Definition fetch_data_try (fuel : nat) (object_type : string)
    (query_params : pydict) (properties : pyval) : M Self pyval :=
  search_pages fuel object_type query_params properties [] PNone.

Definition on_error (request_msg other_msg : string) (empty : pyval)
    (e : exn) : M Self pyval :=
  if is_RequestException e then logger ERROR request_msg ;; ret empty
  else logger ERROR other_msg ;; ret empty.

(** [fetch_data(object_type, query_params)] *)
Definition fetch_data (fuel : nat) (object_type : string)
    (query_params : option pydict) : M Self pyval :=
  let! ok := validate_connection in
  if negb (Py.truthy ok) then
    logger ERROR "Connection validation failed, cannot fetch data." ;;
    ret (PList [])
  else
    let query_params := params_or_empty query_params in
    let properties :=
      Py.dict_get "properties"
        (PList [PStr "createdate"; PStr "lastmodifieddate";
                PStr "hs_object_id"]) query_params in
    try_except (fetch_data_try fuel object_type query_params properties)
      (on_error "Error fetching data"
         "An unexpected error occurred while fetching data" (PList [])).

(** [field_info[prop['name']] = {...}] *)
Definition property_entry (prop : pyval) (field_info : pydict)
  : exn + pydict :=
  let? ty := Py.get prop "type" PNone in
  let? label := Py.get prop "label" PNone in
  let? field_type := Py.get prop "fieldType" PNone in
  let? name := Py.getitem prop "name" in
  Py.dict_setitem field_info name
    (PDict (Py.dict_of [("type", ty); ("label", label);
                        ("fieldType", field_type)])).

Fixpoint property_entries (props : list pyval) (field_info : pydict)
  : exn + pydict :=
  match props with
  | [] => inr field_info
  | prop :: r =>
      let? field_info' := property_entry prop field_info in
      property_entries r field_info'
  end.

(** The body of [fetch_schema]'s [try]. *)
Definition fetch_schema_try (object_type : string) : M Self pyval :=
  handle_rate_limits ;;
  let! s := self in
  let! response := send (HsSchema (session_headers s) object_type) in
  raise_for_status response ;;
  let! schema := lift (json response) in
  let! props := lift (Py.get schema "properties" (PList [])) in
  let! props := lift (Py.iter props) in
  let! field_info := lift (property_entries props []) in
  let! name := lift (Py.get schema "name" PNone) in
  let! labels := lift (Py.get schema "labels" PNone) in
  let! primary := lift (Py.get schema "primaryDisplayProperty" PNone) in
  let! t := datetime_now in
  ret (PDict (Py.dict_of [("name", name); ("labels", labels);
                          ("primaryDisplayProperty", primary);
                          ("properties", PDict field_info);
                          ("timestamp", PStr (Datetime.isoformat t))])).

(** [fetch_schema(object_type)] *)
Definition fetch_schema (object_type : string) : M Self pyval :=
  let! ok := validate_connection in
  if negb (Py.truthy ok) then
    logger ERROR "Connection validation failed, cannot fetch schema." ;;
    ret (PDict [])
  else
    try_except (fetch_schema_try object_type)
      (on_error "Error fetching schema"
         "An unexpected error occurred while fetching schema" (PDict [])).

(** [{'columnName': prop['name'], 'dataType': prop.get('type',
    'string')}] for each property of one schema. *)
Fixpoint columns_of (props : list pyval) : exn + list pyval :=
  match props with
  | [] => inr []
  | prop :: r =>
      let? name := Py.getitem prop "name" in
      let? ty := Py.get prop "type" (PStr "string") in
      let? rest := columns_of r in
      inr (PDict (Py.dict_of [("columnName", name); ("dataType", ty)])
           :: rest)
  end.

(** [for schema in all_schemas: full_schema[schema['name']] = ...] *)
Fixpoint schemas_to_tables (all_schemas : list pyval) (full_schema : pydict)
  : exn + pydict :=
  match all_schemas with
  | [] => inr full_schema
  | schema :: r =>
      let? object_type := Py.getitem schema "name" in
      let? props := Py.get schema "properties" (PList []) in
      let? props := Py.iter props in
      let? fields_list := columns_of props in
      let? full_schema' :=
        Py.dict_setitem full_schema object_type (PList fields_list) in
      schemas_to_tables r full_schema'
  end.

(** The body of [list_objects]'s [try]. *)
Definition list_objects_try : M Self pyval :=
  handle_rate_limits ;;
  let! s := self in
  let! response := send (HsSchemas (session_headers s)) in
  raise_for_status response ;;
  let! body := lift (json response) in
  let! all_schemas := lift (Py.get body "results" (PList [])) in
  let! all_schemas := lift (Py.iter all_schemas) in
  let! full_schema := lift (schemas_to_tables all_schemas []) in
  ret (PDict [(PStr "hubspot", PDict full_schema)]).

(** [list_objects()] *)
Definition list_objects : M Self pyval :=
  let! ok := validate_connection in
  if negb (Py.truthy ok) then
    logger ERROR "Connection validation failed, cannot list objects." ;;
    ret (PDict [])
  else
    try_except list_objects_try
      (on_error "API request error while listing objects"
         "An unexpected error occurred while listing objects" (PDict [])).

End Hubspot.

(* ===================================================================== *)
(** * The rate limiter of the three Google connectors *)
(* ===================================================================== *)

(** [handle_rate_limits] of [GA4Connector], [GoogleAdsConnector] and
    [GoogleSheetsConnector] share their first part: the time since the
    recorded call is compared with [min_request_interval], and the
    reading taken on entry is recorded. *)
Module Spacing.
Section Spacing.
Context {S : Type}.
Variable last_request_time : S -> option Z.
Variable set_last_request_time : option Z -> S -> S.
Variable request_count : S -> Z.
Variable set_request_count : Z -> S -> S.
Variable rate_limit_config : S -> rate_limit_config_t.

Definition space_out (default_interval : Z) : M S unit :=
  let! current_time := datetime_now in
  let! s := self in
  match last_request_time s with
  | Some last =>
      let elapsed := current_time - last in
      let min_interval :=
        config_get "min_request_interval" default_interval
          (rate_limit_config s) in
      if elapsed <? min_interval then
        let sleep_time := min_interval - elapsed in
        logger DEBUG "Rate limiting: sleeping" ;;
        time_sleep sleep_time
      else ret tt
  | None => ret tt
  end ;;
  set_self (set_last_request_time (Some current_time)) ;;
  set_self (fun s => set_request_count (request_count s + 1) s).

(** [if self.request_count % n == 0: self.logger.info(...)] *)
Definition log_progress (n : Z) (msg : string) : M S unit :=
  let! s := self in
  if request_count s mod n =? 0 then logger INFO msg else ret tt.

End Spacing.
End Spacing.

(* ===================================================================== *)
(** * extractors/connectors/ga4_connector.py *)
(* ===================================================================== *)

Module GA4.

Record Self : Type := {
  credentials : pydict;
  rate_limit_config : rate_limit_config_t;
  client : option pyval;      (* the client, by the token it was built on *)
  property_id : pyval;
  client_id : pyval;
  client_secret : pyval;
  refresh_token : pyval;
  access_token : pyval;
  last_request_time : option Z;
  request_count : Z;
  max_retries : Z
}.

Definition set_client (c : option pyval) (s : Self) : Self :=
  {| credentials := credentials s;
     rate_limit_config := rate_limit_config s; client := c;
     property_id := property_id s; client_id := client_id s;
     client_secret := client_secret s; refresh_token := refresh_token s;
     access_token := access_token s;
     last_request_time := last_request_time s;
     request_count := request_count s; max_retries := max_retries s |}.

Definition set_access_token (a : pyval) (s : Self) : Self :=
  {| credentials := credentials s;
     rate_limit_config := rate_limit_config s; client := client s;
     property_id := property_id s; client_id := client_id s;
     client_secret := client_secret s; refresh_token := refresh_token s;
     access_token := a;
     last_request_time := last_request_time s;
     request_count := request_count s; max_retries := max_retries s |}.

Definition set_last_request_time (t : option Z) (s : Self) : Self :=
  {| credentials := credentials s;
     rate_limit_config := rate_limit_config s; client := client s;
     property_id := property_id s; client_id := client_id s;
     client_secret := client_secret s; refresh_token := refresh_token s;
     access_token := access_token s;
     last_request_time := t;
     request_count := request_count s; max_retries := max_retries s |}.

Definition set_request_count (n : Z) (s : Self) : Self :=
  {| credentials := credentials s;
     rate_limit_config := rate_limit_config s; client := client s;
     property_id := property_id s; client_id := client_id s;
     client_secret := client_secret s; refresh_token := refresh_token s;
     access_token := access_token s;
     last_request_time := last_request_time s;
     request_count := n; max_retries := max_retries s |}.

(** [if self.property_id and not
    self.property_id.startswith('properties/'): ...] *)
Definition with_prefix (property_id : pyval) : exn + pyval :=
  if Py.truthy property_id then
    match property_id with
    | PStr p => inr (if Str.startswith "properties/" p then property_id
                     else PStr ("properties/" ++ p))
    | _ => inl AttributeError
    end
  else inr property_id.

(** [__init__(credentials, rate_limit_config)]; the base class keeps the
    two arguments, an absent configuration as an empty one. *)
Definition init (creds : pydict) (config : option rate_limit_config_t)
  : exn + Self :=
  let config := match config with Some c => c | None => [] end in
  let? property_id := with_prefix (Py.dict_get "property_id" PNone creds) in
  inr {| credentials := creds;
         rate_limit_config :=
           config_setdefault "min_request_interval" 100000
             (config_setdefault "tokens_per_hour" 250
                (config_setdefault "tokens_per_day" 25000 config));
         client := None;
         property_id := property_id;
         client_id := Py.dict_get "client_id" PNone creds;
         client_secret := Py.dict_get "client_secret" PNone creds;
         refresh_token := Py.dict_get "refresh_token" PNone creds;
         access_token := Py.dict_get "access_token" PNone creds;
         last_request_time := None;
         request_count := 0;
         max_retries := 3 |}.

(** [authenticate()] *)
Definition authenticate : M Self pyval :=
  try_except
    (let! s := self in
     let! expired :=
       send (CredsExpired (access_token s) (refresh_token s)) in
     let! tok :=
       if (expired : bool) then
         let! tok :=
           send (CredsRefresh (client_id s) (client_secret s)
                   (refresh_token s)) in
         set_self (set_access_token tok) ;;
         logger INFO "Access token refreshed" ;;
         ret tok
       else ret (access_token s) in
     send (GA4Client tok) ;;
     set_self (set_client (Some tok)) ;;
     logger INFO "Successfully authenticated with GA4 API" ;;
     ret (PBool true))
    (fun e => logger ERROR "Authentication failed" ;; ret (PBool false)).

(** [validate_connection()] *)
Definition validate_connection : M Self pyval :=
  let! s := self in
  match client s with
  | None => authenticate
  | Some _ =>
      try_except
        (send (GA4GetMetadata [property_id s; PStr "/metadata"]) ;;
         logger INFO "Connection valid for property" ;;
         ret (PBool true))
        (fun e => logger ERROR "Connection validation error" ;;
                  ret (PBool false))
  end.

(** [handle_rate_limits()] *)
Definition handle_rate_limits : M Self unit :=
  Spacing.space_out last_request_time set_last_request_time request_count
    set_request_count rate_limit_config 100000 ;;
  Spacing.log_progress request_count 50 "Processed GA4 API requests".

(** [_build_filter_expression(filter_config)] *)
Definition _build_filter_expression (filter_config : pyval) : exn + pyval :=
  let? has_name := Py.contains "field_name" filter_config in
  let? both :=
    if has_name then Py.contains "string_value" filter_config
    else inr false in
  if both then
    let? field_name := Py.getitem filter_config "field_name" in
    let? value := Py.getitem filter_config "string_value" in
    inr (PDict (Py.dict_of
           [("filter",
             PDict (Py.dict_of
               [("field_name", field_name);
                ("string_filter",
                 PDict (Py.dict_of [("value", value);
                                    ("match_type", PStr "EXACT")]))]))]))
  else inr (PDict []).

(** [_build_order_by(order_config)] *)
Definition _build_order_by (order_config : pyval) : exn + pyval :=
  let? has_dim := Py.contains "dimension" order_config in
  let? order_by :=
    if has_dim then
      let? d := Py.getitem order_config "dimension" in
      inr (Py.dict_of [("dimension",
                        PDict (Py.dict_of [("dimension_name", d)]))])
    else
      let? has_metric := Py.contains "metric" order_config in
      if has_metric then
        let? m := Py.getitem order_config "metric" in
        inr (Py.dict_of [("metric",
                          PDict (Py.dict_of [("metric_name", m)]))])
      else inr [] in
  let? desc := Py.get order_config "desc" (PBool false) in
  inr (PDict (if Py.truthy desc
              then Py.dict_set (PStr "desc") (PBool true) order_by
              else order_by)).

Fixpoint map_exn {A B} (f : A -> exn + B) (l : list A) : exn + list B :=
  match l with
  | [] => inr []
  | x :: r => let? y := f x in let? ys := map_exn f r in inr (y :: ys)
  end.

(** [DateRange(start_date=dr['start_date'], end_date=dr['end_date'])] *)
Definition date_range_of (dr : pyval) : exn + pyval :=
  let? start_date := Py.getitem dr "start_date" in
  let? end_date := Py.getitem dr "end_date" in
  inr (PDict (Py.dict_of [("start_date", start_date);
                          ("end_date", end_date)])).

(** [t.strftime('%Y-%m-%d')] *)
Definition strftime_date (t : Z) : string :=
  let '(y, m, d) := Datetime.civil_from_days (t / 1000000 / 86400) in
  Datetime.digits 4 y ++ "-" ++ Datetime.digits 2 m ++ "-" ++
  Datetime.digits 2 d.

Definition days (n : Z) : Z := n * 86400 * 1000000.

(** The filters that both report requests take from [query_params]. *)
Definition with_filters (query_params request : pydict) : exn + pydict :=
  let? request :=
    if Py.dict_mem (PStr "dimension_filter") query_params then
      let? cfg := Py.getitem (PDict query_params) "dimension_filter" in
      let? f := _build_filter_expression cfg in
      inr (Py.dict_set (PStr "dimension_filter") f request)
    else inr request in
  if Py.dict_mem (PStr "metric_filter") query_params then
    let? cfg := Py.getitem (PDict query_params) "metric_filter" in
    let? f := _build_filter_expression cfg in
    inr (Py.dict_set (PStr "metric_filter") f request)
  else inr request.

(** One record of [_convert_report_to_records]: the values are paired
    with the headers as far as there are headers. *)
Fixpoint put_values (headers values : list string) (record : pydict)
  : pydict :=
  match headers, values with
  | h :: hs, v :: vs => put_values hs vs (Py.dict_set (PStr h) (PStr v) record)
  | _, _ => record
  end.

(** [_convert_report_to_records(response, report_type)] *)
Fixpoint convert_rows (response : ga4_report) (report_type : string)
    (rows : list ga4_row) : M Self (list pyval) :=
  match rows with
  | [] => ret []
  | row :: r =>
      let record :=
        put_values (dimension_headers response) (dimension_values row)
          [] in
      let record :=
        put_values (metric_headers response) (metric_values row) record in
      let record :=
        Py.dict_set (PStr "_report_type") (PStr report_type) record in
      let! s := self in
      let record :=
        Py.dict_set (PStr "_property_id") (property_id s) record in
      let! t := datetime_now in
      let record :=
        Py.dict_set (PStr "_extracted_at") (PStr (Datetime.isoformat t))
          record in
      let! rest := convert_rows response report_type r in
      ret (PDict record :: rest)
  end.

Definition _convert_report_to_records (response : ga4_report)
    (report_type : string) : M Self pyval :=
  let! records := convert_rows response report_type (rows response) in
  ret (PList records).

(** [_fetch_standard_report(query_params)] *)
Definition _fetch_standard_report (query_params : pydict) : M Self pyval :=
  let dimensions :=
    Py.dict_get "dimensions"
      (PList [PStr "date"; PStr "country"; PStr "deviceCategory";
              PStr "channelGrouping"; PStr "source"; PStr "medium"])
      query_params in
  let metrics :=
    Py.dict_get "metrics"
      (PList [PStr "sessions"; PStr "users"; PStr "newUsers";
              PStr "pageviews"; PStr "bounceRate";
              PStr "averageSessionDuration"; PStr "conversions";
              PStr "totalRevenue"]) query_params in
  let! t0 := datetime_now in
  let! t1 := datetime_now in
  let date_ranges :=
    Py.dict_get "date_ranges"
      (PList [PDict (Py.dict_of
                [("start_date", PStr (strftime_date (t0 - days 30)));
                 ("end_date", PStr (strftime_date t1))])]) query_params in
  let! s := self in
  let! dims := lift (Py.iter dimensions) in
  let! mets := lift (Py.iter metrics) in
  let! ranges := lift (Py.iter date_ranges) in
  let! ranges := lift (map_exn date_range_of ranges) in
  let request :=
    Py.dict_of [("property", property_id s);
                ("dimensions", PList dims);
                ("metrics", PList mets);
                ("date_ranges", PList ranges);
                ("limit", Py.dict_get "limit" (PInt 10000) query_params);
                ("offset", Py.dict_get "offset" (PInt 0) query_params)] in
  let! request := lift (with_filters query_params request) in
  let! request :=
    if Py.dict_mem (PStr "order_bys") query_params then
      let! cfg := lift (Py.getitem (PDict query_params) "order_bys") in
      let! orders := lift (Py.iter cfg) in
      let! order_bys := lift (map_exn _build_order_by orders) in
      ret (Py.dict_set (PStr "order_bys") (PList order_bys) request)
    else ret request in
  handle_rate_limits ;;
  let! response := send (GA4RunReport request) in
  _convert_report_to_records response "standard".

(** [_fetch_realtime_report(query_params)] *)
Definition _fetch_realtime_report (query_params : pydict) : M Self pyval :=
  let dimensions :=
    Py.dict_get "dimensions" (PList [PStr "country"; PStr "deviceCategory"])
      query_params in
  let metrics :=
    Py.dict_get "metrics" (PList [PStr "activeUsers"]) query_params in
  let! s := self in
  let! dims := lift (Py.iter dimensions) in
  let! mets := lift (Py.iter metrics) in
  let request :=
    Py.dict_of [("property", property_id s);
                ("dimensions", PList dims);
                ("metrics", PList mets);
                ("limit", Py.dict_get "limit" (PInt 10000) query_params)] in
  let! request := lift (with_filters query_params request) in
  handle_rate_limits ;;
  let! response := send (GA4RunRealtimeReport request) in
  _convert_report_to_records response "realtime".

(** [_fetch_cohort_report(query_params)] *)
Definition _fetch_cohort_report (query_params : pydict) : M Self pyval :=
  logger WARNING
    "Cohort reports require complex configuration - using standard report" ;;
  _fetch_standard_report query_params.

(** [_fetch_pivot_report(query_params)] *)
Definition _fetch_pivot_report (query_params : pydict) : M Self pyval :=
  logger WARNING
    "Pivot reports require complex configuration - using standard report" ;;
  _fetch_standard_report query_params.

Definition params_or_empty (query_params : option pydict) : pydict :=
  match query_params with Some d => d | None => [] end.

(** The body of [fetch_data]'s [try]. *)
Definition fetch_data_try (report_type : string) (query_params : pydict)
  : M Self pyval :=
  if String.eqb report_type "standard" then
    let! records := _fetch_standard_report query_params in
    logger INFO "Successfully fetched records" ;; ret records
  else if String.eqb report_type "realtime" then
    let! records := _fetch_realtime_report query_params in
    logger INFO "Successfully fetched records" ;; ret records
  else if String.eqb report_type "cohort" then
    let! records := _fetch_cohort_report query_params in
    logger INFO "Successfully fetched records" ;; ret records
  else if String.eqb report_type "pivot" then
    let! records := _fetch_pivot_report query_params in
    logger INFO "Successfully fetched records" ;; ret records
  else
    logger ERROR "Unsupported report type" ;;
    ret (PList []).

(** [fetch_data(report_type, query_params)] *)
Definition fetch_data (report_type : string) (query_params : option pydict)
  : M Self pyval :=
  let! ok := validate_connection in
  if negb (Py.truthy ok) then
    logger ERROR "Connection validation failed, cannot fetch data" ;;
    ret (PList [])
  else
    let query_params := params_or_empty query_params in
    try_except (fetch_data_try report_type query_params)
      (fun e => logger ERROR "Error fetching data" ;; ret (PList [])).

Definition dimension_entry (d : ga4_dimension) : pyval * pyval :=
  (PStr (dim_api_name d),
   PDict (Py.dict_of [("display_name", PStr (dim_ui_name d));
                      ("description", PStr (dim_description d));
                      ("category", PStr (dim_category d));
                      ("deprecated", PBool (dim_deprecated d))])).

Definition metric_entry (m : ga4_metric) : pyval * pyval :=
  (PStr (met_api_name m),
   PDict (Py.dict_of [("display_name", PStr (met_ui_name m));
                      ("description", PStr (met_description m));
                      ("type", PStr (met_type_name m));
                      ("category", PStr (met_category m));
                      ("deprecated", PBool (met_deprecated m))])).

(** [for x in xs: d[key x] = value x] *)
Definition fill (entries : list (pyval * pyval)) : pydict :=
  fold_left (fun d kv => Py.dict_set (fst kv) (snd kv) d) entries [].

(** The body of [fetch_schema]'s [try]. *)
Definition fetch_schema_try : M Self pyval :=
  let! s := self in
  handle_rate_limits ;;
  let! metadata := send (GA4GetMetadata [property_id s; PStr "/metadata"]) in
  let! t := datetime_now in
  ret (PDict (Py.dict_of
         [("property_id", property_id s);
          ("dimensions",
           PDict (fill (map dimension_entry (md_dimensions metadata))));
          ("metrics",
           PDict (fill (map metric_entry (md_metrics metadata))));
          ("timestamp", PStr (Datetime.isoformat t))])).

(** [fetch_schema(object_type)] *)
Definition fetch_schema (object_type : string) : M Self pyval :=
  let! ok := validate_connection in
  if negb (Py.truthy ok) then
    logger ERROR "Connection validation failed, cannot fetch schema" ;;
    ret (PDict [])
  else
    try_except fetch_schema_try
      (fun e => logger ERROR "Error fetching schema" ;; ret (PDict [])).

End GA4.

(* ===================================================================== *)
(** * extractors/connectors/google_ads_connector.py *)
(* ===================================================================== *)

Module GoogleAds.

Record Self : Type := {
  credentials : pydict;
  rate_limit_config : rate_limit_config_t;
  client : option pydict;     (* the client, by the config it was built on *)
  customer_id : pyval;
  developer_token : pyval;
  client_id : pyval;
  client_secret : pyval;
  refresh_token : pyval;
  access_token : pyval;
  last_request_time : option Z;
  request_count : Z;
  max_retries : Z
}.

Definition set_client (c : option pydict) (s : Self) : Self :=
  {| credentials := credentials s;
     rate_limit_config := rate_limit_config s; client := c;
     customer_id := customer_id s; developer_token := developer_token s;
     client_id := client_id s; client_secret := client_secret s;
     refresh_token := refresh_token s; access_token := access_token s;
     last_request_time := last_request_time s;
     request_count := request_count s; max_retries := max_retries s |}.

Definition set_last_request_time (t : option Z) (s : Self) : Self :=
  {| credentials := credentials s;
     rate_limit_config := rate_limit_config s; client := client s;
     customer_id := customer_id s; developer_token := developer_token s;
     client_id := client_id s; client_secret := client_secret s;
     refresh_token := refresh_token s; access_token := access_token s;
     last_request_time := t;
     request_count := request_count s; max_retries := max_retries s |}.

Definition set_request_count (n : Z) (s : Self) : Self :=
  {| credentials := credentials s;
     rate_limit_config := rate_limit_config s; client := client s;
     customer_id := customer_id s; developer_token := developer_token s;
     client_id := client_id s; client_secret := client_secret s;
     refresh_token := refresh_token s; access_token := access_token s;
     last_request_time := last_request_time s;
     request_count := n; max_retries := max_retries s |}.

(** [if self.customer_id: self.customer_id =
    self.customer_id.replace('-', '')] *)
Definition without_dashes (customer_id : pyval) : exn + pyval :=
  if Py.truthy customer_id then
    match customer_id with
    | PStr c => inr (PStr (Str.remove "-"%char c))
    | _ => inl AttributeError
    end
  else inr customer_id.

(** [__init__(credentials, rate_limit_config)]; the base class keeps the
    two arguments, an absent configuration as an empty one. *)
Definition init (creds : pydict) (config : option rate_limit_config_t)
  : exn + Self :=
  let config := match config with Some c => c | None => [] end in
  let? customer_id :=
    without_dashes (Py.dict_get "customer_id" PNone creds) in
  inr {| credentials := creds;
         rate_limit_config :=
           config_setdefault "min_request_interval" 100000
             (config_setdefault "operations_per_day" 15000 config);
         client := None;
         customer_id := customer_id;
         developer_token := Py.dict_get "developer_token" PNone creds;
         client_id := Py.dict_get "client_id" PNone creds;
         client_secret := Py.dict_get "client_secret" PNone creds;
         refresh_token := Py.dict_get "refresh_token" PNone creds;
         access_token := Py.dict_get "access_token" PNone creds;
         last_request_time := None;
         request_count := 0;
         max_retries := 3 |}.

(** [authenticate()] *)
Definition authenticate : M Self pyval :=
  try_except
    (let! s := self in
     let config :=
       Py.dict_of [("developer_token", developer_token s);
                   ("client_id", client_id s);
                   ("client_secret", client_secret s);
                   ("refresh_token", refresh_token s);
                   ("use_proto_plus", PBool true)] in
     send (AdsLoadClient config) ;;
     set_self (set_client (Some config)) ;;
     logger INFO "Successfully authenticated with Google Ads API" ;;
     ret (PBool true))
    (fun e => logger ERROR "Authentication failed" ;; ret (PBool false)).

(** [validate_connection()] *)
Definition validate_connection : M Self pyval :=
  let! s := self in
  match client s with
  | None => authenticate
  | Some _ =>
      try_except
        (send (AdsGetService "CustomerService") ;;
         send (AdsGetCustomer (customer_id s)) ;;
         logger INFO "Connection valid for customer" ;;
         ret (PBool true))
        (fun e =>
           if is_GoogleAdsException e then
             logger ERROR "Google Ads API error" ;; ret (PBool false)
           else
             logger ERROR "Connection validation error" ;;
             ret (PBool false))
  end.

(** [handle_rate_limits()] *)
Definition handle_rate_limits : M Self unit :=
  Spacing.space_out last_request_time set_last_request_time request_count
    set_request_count rate_limit_config 100000 ;;
  Spacing.log_progress request_count 100 "Processed API operations".

(** [_execute_query(query)] *)
Fixpoint stamp_rows (rows : list pydict) : M Self (list pyval) :=
  match rows with
  | [] => ret []
  | record :: r =>
      let! s := self in
      let record :=
        Py.dict_set (PStr "_customer_id") (customer_id s) record in
      let! t := datetime_now in
      let record :=
        Py.dict_set (PStr "_extracted_at") (PStr (Datetime.isoformat t))
          record in
      let! rest := stamp_rows r in
      ret (PDict record :: rest)
  end.

Definition _execute_query (query : fstring) : M Self pyval :=
  handle_rate_limits ;;
  send (AdsGetService "GoogleAdsService") ;;
  try_except
    (let! s := self in
     let! response := send (AdsSearch (customer_id s) query) in
     let! records := stamp_rows response in
     ret (PList records))
    (fun e =>
       if is_GoogleAdsException e then
         logger ERROR "Query execution failed" ;; raise e
       else raise e).

Definition nl : string := String (ascii_of_nat 10) "".
Definition indent : string := "            ".

(** The GAQL text of the seven fetchers: [SELECT fields FROM resource
    WHERE condition], then [AND conditions] if the caller gave some. *)
Definition gaql (fields : string) (resource : string) (where_ : fstring)
    (conditions : pyval) : fstring :=
  [PStr (nl ++ indent ++ "SELECT " ++ fields ++ nl ++ indent ++ "FROM "
         ++ resource ++ nl ++ indent ++ "WHERE ")]
  ++ where_ ++ [PStr (nl ++ "        ")]
  ++ (if Py.truthy conditions then [PStr " AND "; conditions] else []).

Definition plain_fetch (defaults : list string) (resource status : string)
    (query_params : pydict) : M Self pyval :=
  let fields :=
    Py.dict_get "fields" (PList (map PStr defaults)) query_params in
  let! fields_str := lift (Py.join ", " fields) in
  let conditions := Py.dict_get "conditions" PNone query_params in
  _execute_query
    (gaql fields_str resource [PStr (status ++ " != 'REMOVED'")]
       conditions).

Definition performance_fetch (defaults : list string)
    (resource status : string) (query_params : pydict) : M Self pyval :=
  let fields :=
    Py.dict_get "fields" (PList (map PStr defaults)) query_params in
  let date_range := Py.dict_get "date_range" (PDict []) query_params in
  let! t0 := datetime_now in
  let! start_date :=
    lift (Py.get date_range "start_date"
            (PStr (GA4.strftime_date (t0 - GA4.days 30)))) in
  let! t1 := datetime_now in
  let! end_date :=
    lift (Py.get date_range "end_date" (PStr (GA4.strftime_date t1))) in
  let! fields_str := lift (Py.join ", " fields) in
  let conditions := Py.dict_get "conditions" PNone query_params in
  _execute_query
    (gaql fields_str resource
       [PStr "segments.date BETWEEN '"; start_date; PStr "' AND '";
        end_date; PStr ("'" ++ nl ++ indent ++ "AND " ++ status
                        ++ " != 'REMOVED'")]
       conditions).

Definition _fetch_campaigns : pydict -> M Self pyval :=
  plain_fetch
    ["campaign.id"; "campaign.name"; "campaign.status";
     "campaign.advertising_channel_type"; "campaign.start_date";
     "campaign.end_date"; "campaign.campaign_budget"]
    "campaign" "campaign.status".

Definition _fetch_ad_groups : pydict -> M Self pyval :=
  plain_fetch
    ["ad_group.id"; "ad_group.name"; "ad_group.status"; "ad_group.type";
     "campaign.id"; "campaign.name"]
    "ad_group" "ad_group.status".

Definition _fetch_ads : pydict -> M Self pyval :=
  plain_fetch
    ["ad_group_ad.ad.id"; "ad_group_ad.ad.name"; "ad_group_ad.status";
     "ad_group_ad.ad.type"; "ad_group.id"; "campaign.id"]
    "ad_group_ad" "ad_group_ad.status".

Definition _fetch_keywords : pydict -> M Self pyval :=
  plain_fetch
    ["ad_group_criterion.criterion_id"; "ad_group_criterion.keyword.text";
     "ad_group_criterion.keyword.match_type"; "ad_group_criterion.status";
     "ad_group.id"; "campaign.id"]
    "keyword_view" "ad_group_criterion.status".

Definition _fetch_campaign_performance : pydict -> M Self pyval :=
  performance_fetch
    ["campaign.id"; "campaign.name"; "segments.date";
     "metrics.impressions"; "metrics.clicks"; "metrics.cost_micros";
     "metrics.conversions"; "metrics.ctr"; "metrics.average_cpc"]
    "campaign" "campaign.status".

Definition _fetch_ad_group_performance : pydict -> M Self pyval :=
  performance_fetch
    ["campaign.id"; "ad_group.id"; "ad_group.name"; "segments.date";
     "metrics.impressions"; "metrics.clicks"; "metrics.cost_micros";
     "metrics.conversions"; "metrics.ctr"; "metrics.average_cpc"]
    "ad_group" "ad_group.status".

Definition _fetch_keyword_performance : pydict -> M Self pyval :=
  performance_fetch
    ["campaign.id"; "ad_group.id"; "ad_group_criterion.criterion_id";
     "ad_group_criterion.keyword.text"; "segments.date";
     "metrics.impressions"; "metrics.clicks"; "metrics.cost_micros";
     "metrics.conversions"; "metrics.ctr"; "metrics.average_cpc"]
    "keyword_view" "ad_group_criterion.status".

(** The fetcher of an object type, if it is a supported one. *)
Definition fetcher (object_type : string)
  : option (pydict -> M Self pyval) :=
  if String.eqb object_type "campaigns" then Some _fetch_campaigns
  else if String.eqb object_type "ad_groups" then Some _fetch_ad_groups
  else if String.eqb object_type "ads" then Some _fetch_ads
  else if String.eqb object_type "keywords" then Some _fetch_keywords
  else if String.eqb object_type "campaign_performance"
  then Some _fetch_campaign_performance
  else if String.eqb object_type "ad_group_performance"
  then Some _fetch_ad_group_performance
  else if String.eqb object_type "keyword_performance"
  then Some _fetch_keyword_performance
  else None.

(** The body of [fetch_data]'s [try]. *)
Definition fetch_data_try (object_type : string) (query_params : pydict)
  : M Self pyval :=
  match fetcher object_type with
  | Some fetch =>
      let! records := fetch query_params in
      logger INFO "Successfully fetched records" ;;
      ret records
  | None =>
      logger ERROR "Unsupported object type" ;;
      ret (PList [])
  end.

(** [fetch_data(object_type, query_params)] *)
Definition fetch_data (object_type : string) (query_params : option pydict)
  : M Self pyval :=
  let! ok := validate_connection in
  if negb (Py.truthy ok) then
    logger ERROR "Connection validation failed, cannot fetch data" ;;
    ret (PList [])
  else
    let query_params := GA4.params_or_empty query_params in
    try_except (fetch_data_try object_type query_params)
      (fun e =>
         if is_GoogleAdsException e then
           logger ERROR "Google Ads API error" ;; ret (PList [])
         else
           logger ERROR "Error fetching data" ;; ret (PList [])).

Definition field_doc (name ty description : string) : pyval * pyval :=
  (PStr name,
   PDict (Py.dict_of [("type", PStr ty);
                      ("description", PStr description)])).

(** The table [schemas] of [fetch_schema]. *)
Definition schemas : pydict :=
  [ (PStr "campaigns",
     PDict [(PStr "fields",
             PDict [field_doc "campaign.id" "integer" "Campaign ID";
                    field_doc "campaign.name" "string" "Campaign name";
                    field_doc "campaign.status" "string" "Campaign status";
                    field_doc "campaign.advertising_channel_type" "string"
                      "Channel type";
                    field_doc "campaign.start_date" "date" "Start date";
                    field_doc "campaign.end_date" "date" "End date"])]);
    (PStr "campaign_performance",
     PDict [(PStr "fields",
             PDict [field_doc "campaign.id" "integer" "Campaign ID";
                    field_doc "segments.date" "date" "Date";
                    field_doc "metrics.impressions" "integer" "Impressions";
                    field_doc "metrics.clicks" "integer" "Clicks";
                    field_doc "metrics.cost_micros" "integer"
                      "Cost in micros";
                    field_doc "metrics.conversions" "number" "Conversions";
                    field_doc "metrics.ctr" "number" "Click-through rate";
                    field_doc "metrics.average_cpc" "number"
                      "Average cost per click"])]) ].

(** [fetch_schema(object_type)]: no vendor call at all. *)
Definition fetch_schema (object_type : string) : M Self pyval :=
  let! s := self in
  let! t := datetime_now in
  ret (PDict (Py.dict_of
         [("object_type", PStr object_type);
          ("customer_id", customer_id s);
          ("schema", Py.dict_get object_type (PDict []) schemas);
          ("timestamp", PStr (Datetime.isoformat t))])).

End GoogleAds.

(* ===================================================================== *)
(** * extractors/connectors/google_sheets_connector.py *)
(* ===================================================================== *)

Module GoogleSheets.

Record Self : Type := {
  credentials : pydict;
  rate_limit_config : rate_limit_config_t;
  service : option pyval;     (* the service, by the token it was built on *)
  access_token : pyval;
  refresh_token : pyval;
  client_id : pyval;
  client_secret : pyval;
  last_request_time : option Z;
  request_count : Z;
  max_retries : Z
}.

Definition set_service (c : option pyval) (s : Self) : Self :=
  {| credentials := credentials s;
     rate_limit_config := rate_limit_config s; service := c;
     access_token := access_token s; refresh_token := refresh_token s;
     client_id := client_id s; client_secret := client_secret s;
     last_request_time := last_request_time s;
     request_count := request_count s; max_retries := max_retries s |}.

Definition set_access_token (a : pyval) (s : Self) : Self :=
  {| credentials := credentials s;
     rate_limit_config := rate_limit_config s; service := service s;
     access_token := a; refresh_token := refresh_token s;
     client_id := client_id s; client_secret := client_secret s;
     last_request_time := last_request_time s;
     request_count := request_count s; max_retries := max_retries s |}.

Definition set_last_request_time (t : option Z) (s : Self) : Self :=
  {| credentials := credentials s;
     rate_limit_config := rate_limit_config s; service := service s;
     access_token := access_token s; refresh_token := refresh_token s;
     client_id := client_id s; client_secret := client_secret s;
     last_request_time := t;
     request_count := request_count s; max_retries := max_retries s |}.

Definition set_request_count (n : Z) (s : Self) : Self :=
  {| credentials := credentials s;
     rate_limit_config := rate_limit_config s; service := service s;
     access_token := access_token s; refresh_token := refresh_token s;
     client_id := client_id s; client_secret := client_secret s;
     last_request_time := last_request_time s;
     request_count := n; max_retries := max_retries s |}.

(** [__init__(credentials, rate_limit_config)]; the base class keeps the
    two arguments, an absent configuration as an empty one. *)
Definition init (creds : pydict) (config : option rate_limit_config_t)
  : Self :=
  let config := match config with Some c => c | None => [] end in
  {| credentials := creds;
     rate_limit_config :=
       config_setdefault "min_request_interval" 1000000
         (config_setdefault "requests_per_100_seconds" 100 config);
     service := None;
     access_token := Py.dict_get "access_token" PNone creds;
     refresh_token := Py.dict_get "refresh_token" PNone creds;
     client_id := Py.dict_get "client_id" PNone creds;
     client_secret := Py.dict_get "client_secret" PNone creds;
     last_request_time := None;
     request_count := 0;
     max_retries := 3 |}.

(** [authenticate()] *)
Definition authenticate : M Self pyval :=
  try_except
    (let! s := self in
     let! expired :=
       send (CredsExpired (access_token s) (refresh_token s)) in
     let! tok :=
       if (expired : bool) then
         let! tok :=
           send (CredsRefresh (client_id s) (client_secret s)
                   (refresh_token s)) in
         set_self (set_access_token tok) ;;
         logger INFO "Access token refreshed" ;;
         ret tok
       else ret (access_token s) in
     send (SheetsBuild tok) ;;
     set_self (set_service (Some tok)) ;;
     logger INFO "Successfully authenticated with Google Sheets API" ;;
     ret (PBool true))
    (fun e => logger ERROR "Authentication failed" ;; ret (PBool false)).

(** [validate_connection()] *)
Definition validate_connection : M Self pyval :=
  let! s := self in
  match service s with
  | None => authenticate
  | Some _ =>
      try_except
        (logger INFO "Connection to Google Sheets API is valid" ;;
         ret (PBool true))
        (fun e => logger ERROR "Connection validation error" ;;
                  ret (PBool false))
  end.

(** [handle_rate_limits()] *)
Definition handle_rate_limits : M Self unit :=
  Spacing.space_out last_request_time set_last_request_time request_count
    set_request_count rate_limit_config 1000000 ;;
  let! s := self in
  if config_get "requests_per_100_seconds" 100 (rate_limit_config s)
     <=? request_count s
  then
    logger INFO "Rate limit reached, waiting 100 seconds" ;;
    time_sleep 100000000 ;;
    set_self (set_request_count 0)
  else ret tt.

(** A number in decimal, for [f"Column_{i+1}"]. *)
Fixpoint decimal_fuel (fuel : nat) (n : Z) : string :=
  match fuel with
  | O => ""
  | S fuel' =>
      (if n <? 10 then "" else decimal_fuel fuel' (n / 10))
      ++ String (Datetime.digit n) ""
  end.

Definition decimal (n : nat) : string := decimal_fuel (S n) (Z.of_nat n).

(** [_number_to_column_letter(n)] *)
Fixpoint column_letter_fuel (fuel : nat) (n : Z) (result : string)
  : string :=
  match fuel with
  | O => result
  | S fuel' =>
      if 0 <? n then
        let n := n - 1 in
        column_letter_fuel fuel' (n / 26)
          (String (ascii_of_nat (Z.to_nat (n mod 26) + 65)) result)
      else result
  end.

Definition _number_to_column_letter (n : nat) : string :=
  column_letter_fuel (S n) (Z.of_nat n) "".

(** [v[1:]] *)
Definition slice_from_1 (v : pyval) : exn + pyval :=
  match v with
  | PList l => inr (PList (tl l))
  | PStr s => inr (PStr (substring 1 (String.length s - 1) s))
  | _ => inl TypeError
  end.

(** [max(len(row) for row in values)] *)
Fixpoint max_len (rows : list pyval) : exn + nat :=
  match rows with
  | [] => inr O
  | row :: r => let? n := Py.len row in
                let? m := max_len r in
                inr (Nat.max n m)
  end.

(** [[f"Column_{i+1}" for i in range(max_cols)]] *)
Definition generic_headers (max_cols : nat) : list pyval :=
  map (fun i => PStr ("Column_" ++ decimal (i + 1))) (seq 0 max_cols).

(** [for col_index, header in enumerate(headers): record[header] =
    row[col_index] if col_index < len(row) else None] *)
Fixpoint put_cells (headers : list pyval) (col_index : nat) (row : pyval)
    (record : pydict) : exn + pydict :=
  match headers with
  | [] => inr record
  | header :: r =>
      let? n := Py.len row in
      let? value :=
        if Nat.ltb col_index n then Py.getindex row col_index
        else inr PNone in
      let? record' := Py.dict_setitem record header value in
      put_cells r (S col_index) row record'
  end.

(** [for row_index, row in enumerate(data_rows): ...] *)
Fixpoint rows_to_records (data_rows : list pyval) (row_index : nat)
    (headers : pyval) (include_headers sheet_name : pyval)
    (spreadsheet_id : string) : M Self (list pyval) :=
  match data_rows with
  | [] => ret []
  | row :: r =>
      let! hs := lift (Py.iter headers) in
      let! record := lift (put_cells hs 0 row []) in
      let record :=
        Py.dict_set (PStr "_row_number")
          (PInt (Z.of_nat row_index
                 + (if Py.truthy include_headers then 2 else 1))) record in
      let record := Py.dict_set (PStr "_sheet_name") sheet_name record in
      let record :=
        Py.dict_set (PStr "_spreadsheet_id") (PStr spreadsheet_id) record
      in
      let! t := datetime_now in
      let record :=
        Py.dict_set (PStr "_extracted_at") (PStr (Datetime.isoformat t))
          record in
      let! rest :=
        rows_to_records r (S row_index) headers include_headers sheet_name
          spreadsheet_id in
      ret (PDict record :: rest)
  end.

(** [spreadsheet['sheets'][0]] *)
Definition first_sheet (spreadsheet : pyval) : exn + pyval :=
  let? sheets := Py.getitem spreadsheet "sheets" in
  Py.getindex sheets 0.

(** [sheet['properties']['title']] *)
Definition sheet_title (sheet : pyval) : exn + pyval :=
  let? props := Py.getitem sheet "properties" in
  Py.getitem props "title".

(** The body of [fetch_data]'s [try]. *)
Definition fetch_data_try (spreadsheet_id : string)
    (sheet_name range_notation include_headers : pyval) : M Self pyval :=
  handle_rate_limits ;;
  let! spreadsheet := send (SheetsGet spreadsheet_id) in
  let! sheet_name :=
    if negb (Py.truthy sheet_name) then
      let! sheet := lift (first_sheet spreadsheet) in
      lift (sheet_title sheet)
    else ret sheet_name in
  let full_range :=
    if Py.truthy range_notation
    then [sheet_name; PStr "!"; range_notation]
    else [sheet_name] in
  logger DEBUG "Fetching data from range" ;;
  handle_rate_limits ;;
  let! result :=
    send (SheetsValuesGet spreadsheet_id full_range
            (Py.dict_of
               [("valueRenderOption", PStr "UNFORMATTED_VALUE");
                ("dateTimeRenderOption", PStr "FORMATTED_STRING")])) in
  let! values := lift (Py.get result "values" (PList [])) in
  if negb (Py.truthy values) then
    logger WARNING "No data found in the specified range" ;;
    ret (PList [])
  else
    let! with_headers :=
      if Py.truthy include_headers then
        let! n := lift (Py.len values) in ret (Nat.ltb 0 n)
      else ret false in
    let! split :=
      if (with_headers : bool) then
        let! headers := lift (Py.getindex values 0) in
        let! data_rows := lift (slice_from_1 values) in
        ret (headers, data_rows)
      else
        let! rows := lift (Py.iter values) in
        let! max_cols := lift (max_len rows) in
        ret (PList (generic_headers max_cols), values) in
    let! data_rows := lift (Py.iter (snd split)) in
    let! records :=
      rows_to_records data_rows 0 (fst split) include_headers sheet_name
        spreadsheet_id in
    logger INFO "Successfully fetched records" ;;
    ret (PList records).

(** [fetch_data(spreadsheet_id, query_params)] *)
Definition fetch_data (spreadsheet_id : string)
    (query_params : option pydict) : M Self pyval :=
  let! ok := validate_connection in
  if negb (Py.truthy ok) then
    logger ERROR "Connection validation failed, cannot fetch data" ;;
    ret (PList [])
  else
    let query_params := GA4.params_or_empty query_params in
    let sheet_name := Py.dict_get "sheet_name" (PStr "") query_params in
    let range_notation := Py.dict_get "range" (PStr "") query_params in
    let include_headers :=
      Py.dict_get "include_headers" (PBool true) query_params in
    try_except
      (fetch_data_try spreadsheet_id sheet_name range_notation
         include_headers)
      (fun e =>
         if is_HttpError e then
           logger ERROR "Google Sheets API error" ;; ret (PList [])
         else
           logger ERROR "Error fetching data" ;; ret (PList [])).

(** [for sheet in spreadsheet['sheets']: if sheet['properties']['title']
    == sheet_name: target_sheet = sheet; break] *)
Fixpoint find_sheet (sheets : list pyval) (sheet_name : string)
  : exn + pyval :=
  match sheets with
  | [] => inr PNone
  | sheet :: r =>
      let? title := sheet_title sheet in
      if Py.is_str sheet_name title then inr sheet
      else find_sheet r sheet_name
  end.

(** [schema['fields'][header] = {...}] for each header. *)
Fixpoint header_fields (headers : list pyval) (i : nat) (fields : pydict)
  : exn + pydict :=
  match headers with
  | [] => inr fields
  | header :: r =>
      let? fields' :=
        Py.dict_setitem fields header
          (PDict (Py.dict_of
             [("column_index", PInt (Z.of_nat i));
              ("column_letter", PStr (_number_to_column_letter (i + 1)));
              ("type", PStr "string");
              ("nullable", PBool true)])) in
      header_fields r (S i) fields'
  end.

(** The body of [fetch_schema]'s [try]. *)
Definition fetch_schema_try (spreadsheet_id : string)
    (sheet_name : option string) : M Self pyval :=
  handle_rate_limits ;;
  let! spreadsheet := send (SheetsGet spreadsheet_id) in
  let! found :=
    match sheet_name with
    | Some (String _ _ as name) =>
        let! sheets := lift (Py.getitem spreadsheet "sheets") in
        let! sheets := lift (Py.iter sheets) in
        let! target := lift (find_sheet sheets name) in
        ret (target, PStr name)
    | _ =>
        let! target := lift (first_sheet spreadsheet) in
        let! title := lift (sheet_title target) in
        ret (target, title)
    end in
  let target_sheet := fst found in
  let sheet_name := snd found in
  if negb (Py.truthy target_sheet) then
    logger ERROR "Sheet not found" ;;
    ret (PDict [])
  else
    handle_rate_limits ;;
    let! result :=
      send (SheetsValuesGet spreadsheet_id [sheet_name; PStr "!1:1"] []) in
    let! values := lift (Py.get result "values" PNone) in
    let! headers :=
      if Py.truthy values then
        let! values := lift (Py.get result "values" (PList [PList []])) in
        lift (Py.getindex values 0)
      else ret (PList []) in
    let! properties :=
      lift (Py.get spreadsheet "properties" (PDict [])) in
    let! title := lift (Py.get properties "title" (PStr "")) in
    let! props := lift (Py.getitem target_sheet "properties") in
    let! sheet_id := lift (Py.getitem props "sheetId") in
    let! props := lift (Py.getitem target_sheet "properties") in
    let! grid := lift (Py.getitem props "gridProperties") in
    let! row_count := lift (Py.get grid "rowCount" (PInt 0)) in
    let! props := lift (Py.getitem target_sheet "properties") in
    let! grid := lift (Py.getitem props "gridProperties") in
    let! column_count := lift (Py.get grid "columnCount" (PInt 0)) in
    let! t := datetime_now in
    let! hs := lift (Py.iter headers) in
    let! fields := lift (header_fields hs 0 []) in
    ret (PDict (Py.dict_of
           [("spreadsheet_id", PStr spreadsheet_id);
            ("spreadsheet_title", title);
            ("sheet_name", sheet_name);
            ("sheet_id", sheet_id);
            ("row_count", row_count);
            ("column_count", column_count);
            ("headers", headers);
            ("fields", PDict fields);
            ("timestamp", PStr (Datetime.isoformat t))])).

(** [fetch_schema(spreadsheet_id, sheet_name=None)] *)
Definition fetch_schema (spreadsheet_id : string)
    (sheet_name : option string) : M Self pyval :=
  let! ok := validate_connection in
  if negb (Py.truthy ok) then
    logger ERROR "Connection validation failed, cannot fetch schema" ;;
    ret (PDict [])
  else
    try_except (fetch_schema_try spreadsheet_id sheet_name)
      (fun e => logger ERROR "Error fetching schema" ;; ret (PDict [])).

End GoogleSheets.

(* ===================================================================== *)
(** * The connector contract *)
(* ===================================================================== *)

Module Contract.

(** The connector classes whose source is at hand. *)
Inductive vendor_t : Type :=
| salesforce | hubspot | ga4 | google_ads | google_sheets.

(** What [BaseAPIConnector] asks of a connector, as far as the callers
    in [app.py] use it.  [fetch_data] takes the fuel of its pagination
    loop; the second argument of [fetch_schema] is the sheet name that
    only [GoogleSheetsConnector.fetch_schema] takes. *)
Record Connector : Type := {
  Self : Type;
  validate_connection : M Self pyval;
  fetch_data : nat -> string -> option pydict -> M Self pyval;
  fetch_schema : string -> option string -> M Self pyval;
  list_objects : option (M Self pyval)
}.

Definition impl (v : vendor_t) : Connector :=
  match v with
  | salesforce =>
      {| Self := Salesforce.Self;
         validate_connection := Salesforce.validate_connection;
         fetch_data := Salesforce.fetch_data;
         fetch_schema := fun o _ => Salesforce.fetch_schema o;
         list_objects := Some Salesforce.list_objects |}
  | hubspot =>
      {| Self := Hubspot.Self;
         validate_connection := Hubspot.validate_connection;
         fetch_data := Hubspot.fetch_data;
         fetch_schema := fun o _ => Hubspot.fetch_schema o;
         list_objects := Some Hubspot.list_objects |}
  | ga4 =>
      {| Self := GA4.Self;
         validate_connection := GA4.validate_connection;
         fetch_data := fun _ => GA4.fetch_data;
         fetch_schema := fun o _ => GA4.fetch_schema o;
         list_objects := None |}
  | google_ads =>
      {| Self := GoogleAds.Self;
         validate_connection := GoogleAds.validate_connection;
         fetch_data := fun _ => GoogleAds.fetch_data;
         fetch_schema := fun o _ => GoogleAds.fetch_schema o;
         list_objects := None |}
  | google_sheets =>
      {| Self := GoogleSheets.Self;
         validate_connection := GoogleSheets.validate_connection;
         fetch_data := fun _ => GoogleSheets.fetch_data;
         fetch_schema := GoogleSheets.fetch_schema;
         list_objects := None |}
  end.

(** The calls that ask a vendor for data: the query, search, report and
    spreadsheet endpoints. *)
Definition is_data_request (c : any_call) : bool :=
  match c with
  | AnyCall (SfQuery _ _ _ _) | AnyCall (SfNextRecords _ _ _)
  | AnyCall (HsSearch _ _ _)
  | AnyCall (GA4RunReport _) | AnyCall (GA4RunRealtimeReport _)
  | AnyCall (AdsSearch _ _)
  | AnyCall (SheetsGet _) | AnyCall (SheetsValuesGet _ _ _) => true
  | _ => false
  end.

(** The arguments on which the part of [fetch_data] that runs before its
    [try] does not raise: Salesforce builds its SOQL text there. *)
Definition well_formed (v : vendor_t) (selector : string)
    (query_params : option pydict) : bool :=
  match v with
  | salesforce =>
      match Salesforce.build_query selector query_params with
      | inr _ => true
      | inl _ => false
      end
  | _ => true
  end.

End Contract.

(* ===================================================================== *)
(** * Vocabulary of the properties *)
(* ===================================================================== *)

Definition is_raise {A} (r : result A) : bool :=
  match r with Raise _ => true | _ => false end.

(** The latest log entry is at level ERROR. *)
Definition error_logged (w : world) : Prop :=
  exists msg rest, log w = (ERROR, msg) :: rest.

(** [m] lets a failure of the vendor through: it never swallows the
    exception of a call that raised. *)
Definition transparent {S A} (m : M S A) : Prop :=
  forall s w,
    (raised w <= raised (snd (m s w)))%nat /\
    ((raised w < raised (snd (m s w)))%nat ->
     is_raise (fst (fst (m s w))) = true).

(** [m] turns every failure of the vendor into the value [x]: it never
    raises, and if a call raised while it ran, it returns [x]. [good]
    tells what is known then of the world it leaves. *)
Definition absorbs {S A} (good : A -> world -> Prop) (m : M S A) : Prop :=
  forall s w,
    (raised w <= raised (snd (m s w)))%nat /\
    is_raise (fst (fst (m s w))) = false /\
    ((raised w < raised (snd (m s w)))%nat ->
     exists x, fst (fst (m s w)) = Ret x /\ good x (snd (m s w))).

(** [m] has a result: it neither raises nor runs out of fuel. *)
Definition returns {S A} (m : M S A) : Prop :=
  forall s w, exists a, fst (fst (m s w)) = Ret a.

(** [m] issues only calls that [allowed] accepts. *)
Definition sends_only {S A} (allowed : any_call -> bool) (m : M S A)
  : Prop :=
  forall s w, exists new,
    sent (snd (m s w)) = new ++ sent w /\ forallb allowed new = true.

(** A world at time 0 with the given vendor. *)
Definition world_of (v : forall T : Type, nat -> call T -> exn + T)
  : world :=
  {| now := 0; log := []; sent := []; raised := 0; vendor := v |}.

(** A JSON response. *)
Definition json_response (status : Z) (body : pyval) : response :=
  {| status_code := status; text := ""; json := inr body |}.

(** The result, the instance and the world that a run leaves. *)
Definition result_of {S A} (x : result A * S * world) : result A :=
  fst (fst x).
Definition self_of {S A} (x : result A * S * world) : S := snd (fst x).
Definition world_after {S A} (x : result A * S * world) : world := snd x.

(** Two strings that differ at most in the case of their letters. *)
Definition same_letters (a b : string) : Prop := Str.lower a = Str.lower b.

(** ** Schedules of the rate limiter *)

(** A vendor that is never reached. *)
Definition no_vendor : forall T : Type, nat -> call T -> exn + T :=
  fun T _ _ => inl (RequestException "ConnectionError").

(** The caller invokes [handle_rate_limits] again and again, each time
    after the given gap since the previous invocation returned.  The
    clock readings at which the invocations return: *)
Fixpoint completions {S} (handle_rate_limits : M S unit) (gaps : list Z)
    (s : S) (w : world) : list Z :=
  match gaps with
  | [] => []
  | d :: r =>
      let run := (elapse d ;; handle_rate_limits) s w in
      now (world_after run)
      :: completions handle_rate_limits r (self_of run) (world_after run)
  end.

(** and the time that each invocation blocks: *)
Fixpoint blocked_for {S} (handle_rate_limits : M S unit) (gaps : list Z)
    (s : S) (w : world) : list Z :=
  match gaps with
  | [] => []
  | d :: r =>
      let run := (elapse d ;; handle_rate_limits) s w in
      (now (world_after run) - (now w + d))
      :: blocked_for handle_rate_limits r (self_of run) (world_after run)
  end.

(** The wait that keeps two calls [min_interval] apart, for a call that
    comes at [t] when the recorded time of the previous call is [last]. *)
Definition spacing_sleep (last : option Z) (t min_interval : Z) : Z :=
  match last with
  | Some l => if t - l <? min_interval then min_interval - (t - l) else 0
  | None => 0
  end.

(** A Salesforce instance that has made 100 requests, the last one at
    time 0. *)
Definition salesforce_after_100 : Salesforce.Self :=
  Salesforce.set_request_count 100
    (Salesforce.set_last_request_time (Some 0)
       (Salesforce.init [] (Some (Py.dict_of [("access_token", PStr "t")])))).

(** A Google Sheets instance with a budget of two requests per window. *)
Definition sheets_budget_2 : GoogleSheets.Self :=
  GoogleSheets.init [] (Some [("requests_per_100_seconds", 2)]).

(** ** Token refresh *)

(** What a token endpoint answers to a valid refresh token. *)
Definition token_data : pyval :=
  PDict (Py.dict_of [("access_token", PStr "new");
                     ("refresh_token", PStr "r2");
                     ("expires_in", PInt 1800)]).

Definition token_vendor : forall T : Type, nat -> call T -> exn + T :=
  fun T _ c =>
    match c in call T return exn + T with
    | HsToken _ _ => inr (json_response 200 token_data)
    | SfToken _ _ _ => inr (json_response 200 token_data)
    | _ => inl (RequestException "ConnectionError")
    end.

Definition refreshable_credentials : pydict :=
  Py.dict_of [("client_id", PStr "id"); ("client_secret", PStr "secret");
              ("access_token", PStr "old"); ("refresh_token", PStr "r1")].

Definition hubspot_refreshable : Hubspot.Self :=
  Hubspot.init (Some refreshable_credentials).

Definition salesforce_refreshable : Salesforce.Self :=
  Salesforce.init [] (Some refreshable_credentials).

(** ** Paged sources *)

(** A 200 response that carries the records of one page and, if [more],
    a continuation cursor. *)
Definition page_response (r : response) (records : list pyval)
    (more : bool) : Prop :=
  status_code r = 200 /\
  exists data,
    json r = inr (PDict data) /\
    Py.dict_get "records" (PList []) data = PList records /\
    Py.truthy (Py.dict_get "nextRecordsUrl" PNone data) = more.

Definition is_nil {A} (l : list A) : bool :=
  match l with [] => true | _ => false end.

(** From its [n]-th call on, the vendor answers the requests for a next
    batch with the given pages one after the other, each but the last
    with a cursor. *)
Fixpoint serves_next (v : forall T : Type, nat -> call T -> exn + T)
    (n : nat) (pages : list (list pyval)) : Prop :=
  match pages with
  | [] => True
  | page :: rest =>
      (forall headers instance_url next_url,
          exists r,
            v response n (SfNextRecords headers instance_url next_url)
            = inr r /\
            page_response r page (negb (is_nil rest))) /\
      serves_next v (S n) rest
  end.

(** The vendor answers the query, as its [n]-th call, with the first of
    the given pages, and goes on with the others. *)
Definition serves_pages (v : forall T : Type, nat -> call T -> exn + T)
    (n : nat) (pages : list (list pyval)) : Prop :=
  match pages with
  | [] => True
  | page :: rest =>
      (forall headers instance_url api_version q,
          exists r,
            v response n (SfQuery headers instance_url api_version q)
            = inr r /\
            page_response r page (negb (is_nil rest))) /\
      serves_next v (S n) rest
  end.

(** A JSON object. *)
Definition is_dict (v : pyval) : Prop :=
  match v with PDict _ => True | _ => False end.

(** A record without its Salesforce envelope. *)
Definition without_attributes (record : pyval) : pyval :=
  match record with
  | PDict d => PDict (Py.dict_del (PStr "attributes") d)
  | _ => record
  end.

(** Whether a record has a non-empty value under [key]. *)
Definition populated (key : string) (record : pyval) : bool :=
  match record with
  | PDict d => match Py.dict_find (PStr key) d with
               | Some v => Py.truthy v
               | None => false
               end
  | _ => false
  end.

(** The scenario of two pages, of 100 and of 37 records. *)
Definition sf_record (i : nat) : pyval :=
  PDict (Py.dict_of
    [("attributes", PDict (Py.dict_of [("type", PStr "Account")]));
     ("Id", PInt (Z.of_nat i))]).

Definition sf_page (records : list pyval) (next : option string)
  : response :=
  json_response 200
    (PDict (Py.dict_of
       ([("totalSize", PInt 137); ("records", PList records)]
        ++ match next with
           | Some url => [("nextRecordsUrl", PStr url)]
           | None => []
           end))).

Definition two_pages_vendor : forall T : Type, nat -> call T -> exn + T :=
  fun T _ c =>
    match c in call T return exn + T with
    | SfSObjects _ _ _ => inr (json_response 200 (PDict []))
    | SfQuery _ _ _ _ =>
        inr (sf_page (map sf_record (seq 0 100))
               (Some "/services/data/v57.0/query/01g-2000"))
    | SfNextRecords _ _ _ => inr (sf_page (map sf_record (seq 100 37)) None)
    | _ => inl (RequestException "ConnectionError")
    end.

Definition salesforce_with_token : Salesforce.Self :=
  Salesforce.init []
    (Some (Py.dict_of [("access_token", PStr "t");
                       ("instance_url", PStr "https://eu1.salesforce.com")])).

Definition two_pages_result : list pyval :=
  map (fun i => PDict (Py.dict_of [("Id", PInt (Z.of_nat i))])) (seq 0 137).

(** ** Page sources that never run dry *)

(** A response of HubSpot's search that passes [raise_for_status] and
    carries the given items and cursor. *)
Definition search_response (r : response) (items : list pyval)
    (after : option pyval) : Prop :=
  andb (400 <=? status_code r) (status_code r <? 600) = false /\
  exists data,
    json r = inr (PDict data) /\
    Py.dict_get "results" (PList []) data = PList items /\
    Hubspot.next_after (PDict data) = inr after.

(** Every answer of Salesforce to a query or to a request for the next
    batch carries a list of records and a cursor. *)
Definition salesforce_never_ends
    (v : forall T : Type, nat -> call T -> exn + T) : Prop :=
  (forall n headers instance_url api_version q,
      exists r records,
        v response n (SfQuery headers instance_url api_version q) = inr r /\
        page_response r records true) /\
  (forall n headers instance_url next_url,
      exists r records,
        v response n (SfNextRecords headers instance_url next_url) = inr r /\
        page_response r records true).

(** Every answer of HubSpot to a search carries items that can be
    flattened and a cursor. *)
Definition hubspot_never_ends
    (v : forall T : Type, nat -> call T -> exn + T) : Prop :=
  forall n headers object_type payload,
    exists r items flat after,
      v response n (HsSearch headers object_type payload) = inr r /\
      search_response r items (Some after) /\
      Hubspot.flatten_all items = inr flat.

(** A vendor whose every page has one record and a cursor. *)
Definition endless_vendor : forall T : Type, nat -> call T -> exn + T :=
  fun T _ c =>
    match c in call T return exn + T with
    | SfSObjects _ _ _ => inr (json_response 200 (PDict []))
    | SfQuery _ _ _ _ =>
        inr (sf_page [sf_record 0]
               (Some "/services/data/v57.0/query/01g-2000"))
    | SfNextRecords _ _ _ =>
        inr (sf_page [sf_record 0]
               (Some "/services/data/v57.0/query/01g-2000"))
    | _ => inl (RequestException "ConnectionError")
    end.

(** ** Schema discovery *)

(** One entry of the field list of a table, as [list_objects] makes it. *)
Definition column (name data_type : pyval) : pyval :=
  PDict (Py.dict_of [("columnName", name); ("dataType", data_type)]).

(** HubSpot's answer with one object [deals] that has one property
    [amount] of type [currency]. *)
Definition currency_schemas : pyval :=
  PDict (Py.dict_of
    [("results",
      PList [PDict (Py.dict_of
        [("name", PStr "deals");
         ("properties",
          PList [PDict (Py.dict_of [("name", PStr "amount");
                                    ("type", PStr "currency")])])])])]).

Definition currency_vendor : forall T : Type, nat -> call T -> exn + T :=
  fun T _ c =>
    match c in call T return exn + T with
    | HsAccountInfo _ => inr (json_response 200 (PDict []))
    | HsSchemas _ => inr (json_response 200 currency_schemas)
    | _ => inl (RequestException "ConnectionError")
    end.

Definition hubspot_with_token : Hubspot.Self :=
  Hubspot.init (Some (Py.dict_of [("access_token", PStr "t")])).

Definition deals_schema : pyval :=
  PDict (Py.dict_of
    [("name", PStr "deals");
     ("properties",
      PList [PDict (Py.dict_of [("name", PStr "amount");
                                ("type", PStr "currency")])])]).

(** A run that is not done after any number of iterations of its loop,
    and has sent more requests the more iterations it was given. *)
Definition never_returns {S A} (run : nat -> result A * S * world)
  : Prop :=
  forall fuel : nat,
    result_of (run fuel) = OutOfFuel /\
    (fuel <= List.length (sent (world_after (run fuel))))%nat.

(** ** Failing vendors *)

(** HubSpot answers the probe with a server error. *)
Definition failing_probe_vendor
  : forall T : Type, nat -> call T -> exn + T :=
  fun T _ c =>
    match c in call T return exn + T with
    | HsAccountInfo _ =>
        inr {| status_code := 500; text := "Internal Server Error";
               json := inl (RequestException "JSONDecodeError") |}
    | _ => inl (RequestException "ConnectionError")
    end.

(** ** Failures of the vendor *)

(** No call raises while [m] runs. *)
Definition quiet {S A} (m : M S A) : Prop :=
  forall s w, raised (snd (m s w)) = raised w.

(** If a call raised while [m] ran, [m] raised, or returned a value [x]
    with [good x]. *)
Definition guarded {S A} (good : A -> world -> Prop) (m : M S A) : Prop :=
  forall s w,
    (raised w <= raised (snd (m s w)))%nat /\
    ((raised w < raised (snd (m s w)))%nat ->
     is_raise (fst (fst (m s w))) = true \/
     exists x, fst (fst (m s w)) = Ret x /\ good x (snd (m s w))).

(** [m] sends nothing, and raises or returns a value [x] with [good x]:
    what a handler does. *)
Definition settles {S A} (good : A -> world -> Prop) (m : M S A) : Prop :=
  forall s w,
    raised (snd (m s w)) = raised w /\
    (is_raise (fst (fst (m s w))) = true \/
     exists x, fst (fst (m s w)) = Ret x /\ good x (snd (m s w))).

(** [m] does not raise. *)
Definition no_raise {S A} (m : M S A) : Prop :=
  forall s w, is_raise (fst (fst (m s w))) = false.

(** A false value. *)
Definition falsy (v : pyval) (_ : world) : Prop := Py.truthy v = false.

(** The value [empty], with an ERROR as the latest log entry. *)
Definition empty_and_logged (empty : pyval) (v : pyval) (w : world)
  : Prop :=
  v = empty /\ error_logged w.

Definition nothing {A} (_ : A) (_ : world) : Prop := False.

(** HubSpot answers the probe, and the search request fails in transit. *)
Definition search_down_vendor
  : forall T : Type, nat -> call T -> exn + T :=
  fun T _ c =>
    match c in call T return exn + T with
    | HsAccountInfo _ => inr (json_response 200 (PDict []))
    | _ => inl (RequestException "ConnectionError")
    end.

(** Instances without a refresh token. *)
Definition salesforce_without_refresh : Salesforce.Self :=
  Salesforce.init [] (Some (Py.dict_of [("access_token", PStr "old")])).

Definition hubspot_without_refresh : Hubspot.Self :=
  Hubspot.init (Some (Py.dict_of [("access_token", PStr "old")])).

(** The column that a letter string names: [A] is 1, [Z] is 26, [AA] is
    27; [acc] is the value of the letters read so far. *)
Fixpoint column_number_from (acc : Z) (letters : string) : Z :=
  match letters with
  | EmptyString => acc
  | String c r =>
      column_number_from (26 * acc + (Z.of_nat (nat_of_ascii c) - 64)) r
  end.

Definition column_number (letters : string) : Z :=
  column_number_from 0 letters.

Definition is_capital (c : ascii) : bool :=
  andb (Nat.leb 65 (nat_of_ascii c)) (Nat.leb (nat_of_ascii c) 90).

Fixpoint all_capitals (s : string) : bool :=
  match s with
  | EmptyString => true
  | String c r => andb (is_capital c) (all_capitals r)
  end.

(** What one more leading unit is worth in front of [s]: 26 to the
    length of [s]. *)
Fixpoint letters_weight (s : string) : Z :=
  match s with
  | EmptyString => 1
  | String _ r => 26 * letters_weight r
  end.

(* ===================================================================== *)
(** * Properties *)
(* ===================================================================== *)

Unset Implicit Arguments.

(** ** The registry *)

Lemma lower_vendor_ids :
  forall id, In id App.vendor_ids -> Str.lower id = id.
Proof.
  intros id H. simpl in H.
  repeat (destruct H as [<- | H]; [reflexivity |]). destruct H.
Qed.

Lemma registry_get_None (k : string) :
  ~ In k App.vendor_ids -> App.registry_get k (App.CONNECTOR_REGISTRY true) = None.
Proof.
  intros H. simpl.
  repeat match goal with
  | |- context [String.eqb k ?id] =>
      destruct (String.eqb_spec k id) as [-> | _];
      [exfalso; apply H; simpl; tauto |]
  end.
  reflexivity.
Qed.

(** C3. Resolution is a case-insensitive exact match over the fixed set of
    vendor identifiers: a registered identifier, in any letter casing,
    gives the class registered for it; a string that matches no
    identifier fails with the unknown-connector error; when the connector
    modules failed to load, every lookup fails with the
    registry-unavailable error, which differs from the error of every
    unknown identifier. *)
Theorem get_connector_resolves (connector_type : string) :
  (forall id cls,
      In (id, cls) (App.CONNECTOR_REGISTRY true) ->
      same_letters connector_type id ->
      App.get_connector true connector_type = inr cls) /\
  ((forall id, In id App.vendor_ids -> ~ same_letters connector_type id) ->
   App.get_connector true connector_type
   = inl (App.UnknownConnectorError connector_type)) /\
  App.get_connector false connector_type
  = inl App.RegistryUnavailableError /\
  (forall other,
      App.RegistryUnavailableError <> App.UnknownConnectorError other).
Proof.
  repeat split.
  - intros id cls Hin Hsame. unfold same_letters in Hsame.
    unfold App.get_connector. simpl negb. cbv iota.
    rewrite Hsame. simpl in Hin.
    repeat (destruct Hin as [Heq | Hin];
            [inversion Heq; subst; reflexivity |]).
    destruct Hin.
  - intros Hnone. unfold App.get_connector. simpl negb. cbv iota.
    rewrite registry_get_None; [reflexivity |].
    intros Hin. apply (Hnone _ Hin). unfold same_letters.
    symmetry. apply lower_vendor_ids. exact Hin.
  - intros other H. unfold App.RegistryUnavailableError, App.UnknownConnectorError in H.
    simpl in H. discriminate H.
Qed.

Lemma get_connector_resolves_witness :
  App.get_connector true "SalesForce" = inr App.SalesforceConnector /\
  App.get_connector true "mailchimp"
  = inl (App.UnknownConnectorError "mailchimp").
Proof.
  split.
  - apply (proj1 (get_connector_resolves "SalesForce")
             "salesforce" App.SalesforceConnector).
    + simpl. tauto.
    + reflexivity.
  - apply (proj1 (proj2 (get_connector_resolves "mailchimp"))).
    intros id Hin. simpl in Hin. unfold same_letters.
    repeat (destruct Hin as [<- | Hin]; [vm_compute; discriminate |]).
    destruct Hin.
Defined.

(** ** The rate limiter *)

(** C7. [GA4Connector.handle_rate_limits] with the default minimum
    interval of 100ms: three invocations that come at 0ms, at 10ms and as
    soon as the second has returned, return at 0ms, 100ms and 110ms.  The
    second and the third are 10ms apart, because the time recorded for an
    invocation is the reading taken before it slept.  In
    [SalesforceConnector.handle_rate_limits] the invocation that resets
    the counter returns without recording its time: the next one, 20ms
    later, returns at once. *)
Theorem minimum_spacing_broken :
  match GA4.init [] None with
  | inr ga4 =>
      completions GA4.handle_rate_limits [0; 10000; 0] ga4
        (world_of no_vendor)
      = [0; 100000; 110000]
  | inl _ => False
  end /\
  completions Salesforce.handle_rate_limits [50000; 20000]
    salesforce_after_100 (world_of no_vendor)
  = [5050000; 5070000].
Proof. split; vm_compute; reflexivity. Qed.

Lemma space_out_run {S} (last : S -> option Z) (set_last : option Z -> S -> S)
    (count : S -> Z) (set_count : Z -> S -> S)
    (config : S -> rate_limit_config_t) (default : Z) (s : S) (w : world) :
  exists l,
    Spacing.space_out last set_last count set_count config default s w
    = (Ret tt,
       set_count (count (set_last (Some (now w)) s) + 1)
         (set_last (Some (now w)) s),
       with_log l
         (with_now
            (now w + spacing_sleep (last s) (now w)
                       (config_get "min_request_interval" default (config s)))
            w)).
Proof.
  unfold Spacing.space_out, bind, datetime_now, self, set_self, logger,
    time_sleep, ret, spacing_sleep.
  destruct (last s) as [l |]; simpl.
  - destruct (now w - l <? _); simpl.
    + eexists. reflexivity.
    + exists (log w). unfold with_log, with_now. simpl.
      rewrite Z.add_0_r. destruct w; reflexivity.
  - exists (log w). unfold with_log, with_now. simpl.
    rewrite Z.add_0_r. destruct w; reflexivity.
Qed.

(** C8 (as amended). What the call counter does in each connector.
    Salesforce (budget 100, fixed): once the counter has reached 100, the
    next call sleeps 5 seconds, whatever time has passed, resets the
    counter to zero and returns; below 100 a call counts itself and waits
    only for the spacing.  Google Sheets (budget [b] from
    [requests_per_100_seconds]): the call that brings the counter to [b]
    sleeps 100 seconds itself and resets the counter; a call that leaves
    it below [b] only counts itself.  GA4 and Google Ads count every call
    and never block on the counter.  HubSpot sleeps 110ms on every call
    and does not count. *)
Theorem window_budget (s : Salesforce.Self) (g : GoogleSheets.Self)
    (w : world) :
  (100 <= Salesforce.request_count s ->
   Salesforce.handle_rate_limits s w
   = (Ret tt, Salesforce.set_request_count 0 s,
      with_now (now w + 5000000) w)) /\
  (Salesforce.request_count s < 100 ->
   let run := Salesforce.handle_rate_limits s w in
   result_of run = Ret tt /\
   Salesforce.request_count (self_of run) = Salesforce.request_count s + 1 /\
   now (world_after run)
   = now w + spacing_sleep (Salesforce.last_request_time s) (now w) 100000) /\
  (let b := config_get "requests_per_100_seconds" 100
              (GoogleSheets.rate_limit_config g) in
   let spacing :=
     spacing_sleep (GoogleSheets.last_request_time g) (now w)
       (config_get "min_request_interval" 1000000
          (GoogleSheets.rate_limit_config g)) in
   let run := GoogleSheets.handle_rate_limits g w in
   result_of run = Ret tt /\
   (b <= GoogleSheets.request_count g + 1 ->
    GoogleSheets.request_count (self_of run) = 0 /\
    now (world_after run) = now w + spacing + 100000000) /\
   (GoogleSheets.request_count g + 1 < b ->
    GoogleSheets.request_count (self_of run)
    = GoogleSheets.request_count g + 1 /\
    now (world_after run) = now w + spacing)) /\
  (forall a : GA4.Self,
   let run := GA4.handle_rate_limits a w in
   result_of run = Ret tt /\
   GA4.request_count (self_of run) = GA4.request_count a + 1 /\
   now (world_after run)
   = now w + spacing_sleep (GA4.last_request_time a) (now w)
               (config_get "min_request_interval" 100000
                  (GA4.rate_limit_config a))) /\
  (forall d : GoogleAds.Self,
   let run := GoogleAds.handle_rate_limits d w in
   result_of run = Ret tt /\
   GoogleAds.request_count (self_of run) = GoogleAds.request_count d + 1 /\
   now (world_after run)
   = now w + spacing_sleep (GoogleAds.last_request_time d) (now w)
               (config_get "min_request_interval" 100000
                  (GoogleAds.rate_limit_config d))) /\
  (forall h : Hubspot.Self,
   Hubspot.handle_rate_limits h w
   = (Ret tt, h, with_now (now w + 110000) w)).
Proof.
  split; [| split; [| split; [| split; [| split]]]].
  - intros H. unfold Salesforce.handle_rate_limits, bind, self.
    apply Z.leb_le in H. rewrite H. reflexivity.
  - intros H. unfold Salesforce.handle_rate_limits, bind, self.
    apply Z.leb_gt in H. rewrite H. unfold spacing_sleep.
    destruct (Salesforce.last_request_time s) as [l |]; simpl.
    + destruct (now w - l <? 100000); simpl; repeat split; lia.
    + repeat split; lia.
  - cbv zeta. unfold GoogleSheets.handle_rate_limits.
    destruct (space_out_run GoogleSheets.last_request_time
                GoogleSheets.set_last_request_time
                GoogleSheets.request_count GoogleSheets.set_request_count
                GoogleSheets.rate_limit_config 1000000 g w) as [l E].
    unfold bind. rewrite E. unfold self. simpl.
    split; [| split].
    + destruct (_ <=? _); reflexivity.
    + intros H. apply Z.leb_le in H. rewrite H. simpl. split; reflexivity.
    + intros H. apply Z.leb_gt in H. rewrite H. simpl. split; reflexivity.
  - intros a. cbv zeta. unfold GA4.handle_rate_limits.
    destruct (space_out_run GA4.last_request_time GA4.set_last_request_time
                GA4.request_count GA4.set_request_count
                GA4.rate_limit_config 100000 a w) as [l E].
    unfold Spacing.log_progress, bind. rewrite E. unfold self.
    simpl. destruct (_ =? 0); simpl; repeat split.
  - intros d. cbv zeta. unfold GoogleAds.handle_rate_limits.
    destruct (space_out_run GoogleAds.last_request_time
                GoogleAds.set_last_request_time
                GoogleAds.request_count GoogleAds.set_request_count
                GoogleAds.rate_limit_config 100000 d w) as [l E].
    unfold Spacing.log_progress, bind. rewrite E. unfold self.
    simpl. destruct (_ =? 0); simpl; repeat split.
  - reflexivity.
Qed.

Lemma window_budget_witness :
  Salesforce.handle_rate_limits salesforce_after_100 (world_of no_vendor)
  = (Ret tt, Salesforce.set_request_count 0 salesforce_after_100,
     with_now 5000000 (world_of no_vendor)) /\
  GoogleSheets.request_count
    (self_of (GoogleSheets.handle_rate_limits sheets_budget_2
                (world_of no_vendor))) = 1.
Proof.
  split.
  - apply (proj1 (window_budget salesforce_after_100 sheets_budget_2
                    (world_of no_vendor))).
    vm_compute. discriminate.
  - destruct (window_budget salesforce_after_100 sheets_budget_2
                (world_of no_vendor)) as (_ & _ & (_ & _ & H) & _).
    refine (proj1 (H _)). vm_compute. reflexivity.
Defined.

(** C8, the claim as stated fails: with a budget of [b = 2] requests,
    [GoogleSheetsConnector.handle_rate_limits] blocks the second call
    (for 100 seconds), not the third one, which returns at once. *)
Lemma window_budget_counterexample :
  blocked_for GoogleSheets.handle_rate_limits [0; 2000000; 2000000]
    sheets_budget_2 (world_of no_vendor)
  = [0; 100000000; 0].
Proof. vm_compute. reflexivity. Qed.

(** ** Token refresh *)

(** X4. Without a refresh token, [refresh_access_token] signals the failure
    (Salesforce raises, HubSpot returns [False]) after one log entry: no
    request goes out and the instance is unchanged. *)
Lemma refresh_without_refresh_token (s : Salesforce.Self)
    (h : Hubspot.Self) (w : world) :
  (Py.truthy (Salesforce.refresh_token s) = false ->
   Salesforce.refresh_access_token s w
   = (Raise (PlainException "No refresh token available."), s,
      with_log
        ((ERROR, "No refresh token available to refresh the access token.")
         :: log w) w)) /\
  (Py.truthy (Hubspot.refresh_token h) = false ->
   Hubspot.refresh_access_token h w
   = (Ret (PBool false), h,
      with_log
        ((ERROR, "No refresh token available to refresh the access token.")
         :: log w) w)).
Proof.
  split; intros H.
  - unfold Salesforce.refresh_access_token, bind, self. rewrite H. reflexivity.
  - unfold Hubspot.refresh_access_token, bind, self. rewrite H. reflexivity.
Qed.

(** X5. A successful refresh in Salesforce returns the token data of the
    vendor and replaces the access token with the one in it. *)
Lemma salesforce_refresh_returns_token_data (s : Salesforce.Self)
    (w : world) (r : response) (auth_data : pydict) (tok : pyval) :
  Py.truthy (Salesforce.refresh_token s) = true ->
  vendor w (List.length (sent w))
    (SfToken (Salesforce._get_auth_url s) (Salesforce.session_headers s)
       (Py.dict_of [("grant_type", PStr "refresh_token");
                    ("client_id", Salesforce.client_id s);
                    ("client_secret", Salesforce.client_secret s);
                    ("refresh_token", Salesforce.refresh_token s)]))
  = inr r ->
  status_code r = 200 ->
  json r = inr (PDict auth_data) ->
  Py.dict_find (PStr "access_token") auth_data = Some tok ->
  let run := Salesforce.refresh_access_token s w in
  result_of run = Ret (PDict auth_data) /\
  Salesforce.access_token (self_of run) = tok.
Proof.
  intros Ht Hv Hs Hj Hk.
  unfold Salesforce.refresh_access_token, bind, self. rewrite Ht. simpl.
  unfold try_except, Salesforce.refresh_access_token_try, bind, self, send.
  rewrite Hv. unfold raise_for_status. rewrite Hs. simpl.
  rewrite Hj. simpl. rewrite Hk. simpl. split; reflexivity.
Qed.

(** C9. On the same answer of the token endpoint, the refresh of
    Salesforce returns the token data, and the refresh of HubSpot, which
    replaces both tokens of the instance as well, returns [True]. *)
Theorem hubspot_refresh_returns_true :
  let sf := Salesforce.refresh_access_token salesforce_refreshable
              (world_of token_vendor) in
  let hs := Hubspot.refresh_access_token hubspot_refreshable
              (world_of token_vendor) in
  result_of sf = Ret token_data /\
  Salesforce.access_token (self_of sf) = PStr "new" /\
  result_of hs = Ret (PBool true) /\
  Hubspot.access_token (self_of hs) = PStr "new" /\
  Hubspot.refresh_token (self_of hs) = PStr "r2".
Proof. vm_compute. repeat split. Qed.

(** ** Python dicts *)

Lemma dict_mem_del (k : pyval) (d : pydict) :
  Py.dict_mem k (Py.dict_del k d) = false.
Proof.
  induction d as [| [k' v] d IH]; simpl; [reflexivity |].
  destruct (Py.key_eqb k k') eqn:E; simpl; [exact IH |].
  rewrite E. exact IH.
Qed.

(** ** Records of Salesforce *)

Lemma strip_record_no_attributes (record : pyval) (d : pydict) :
  Salesforce.strip_record record = inr (PDict d) ->
  Py.dict_mem (PStr "attributes") d = false.
Proof.
  unfold Salesforce.strip_record.
  destruct record as [| b | z | s | l | d0];
    unfold Py.contains, Py.delitem; cbv beta iota; try discriminate.
  - destruct (Str.contains "attributes" s); discriminate.
  - destruct (existsb _ l); discriminate.
  - destruct (Py.dict_mem (PStr "attributes") d0) eqn:E.
    + intros H. inversion H. apply dict_mem_del.
    + intros H. inversion H. subst. exact E.
Qed.

Lemma strip_all_no_attributes (l l' : list pyval) (d : pydict) :
  Salesforce.strip_all l = inr l' ->
  In (PDict d) l' -> Py.dict_mem (PStr "attributes") d = false.
Proof.
  revert l'. induction l as [| record l IH]; simpl; intros l' H Hin.
  - inversion H. subst. destruct Hin.
  - destruct (Salesforce.strip_record record) as [e | record'] eqn:E;
      [discriminate |].
    destruct (Salesforce.strip_all l) as [e | r'] eqn:E'; [discriminate |].
    inversion H. subst. destruct Hin as [-> | Hin].
    + eapply strip_record_no_attributes. exact E.
    + eapply IH; [reflexivity | exact Hin].
Qed.

Lemma remove_attributes_no_attributes (records : pyval) (l : list pyval)
    (d : pydict) :
  Salesforce.remove_attributes records = inr (PList l) ->
  In (PDict d) l -> Py.dict_mem (PStr "attributes") d = false.
Proof.
  unfold Salesforce.remove_attributes.
  destruct records as [| b | z | s | l0 | d0]; simpl; try discriminate.
  - destruct (Salesforce.strip_all _); discriminate.
  - destruct (Salesforce.strip_all l0) as [e | l'] eqn:E; [discriminate |].
    intros H. inversion H. subst. eapply strip_all_no_attributes. exact E.
  - destruct (Salesforce.strip_all _); discriminate.
Qed.

(** The scrutinee of a [match] in [H] that is itself free of [match]. *)
Ltac case_head H :=
  match type of H with
  | context [match ?x with _ => _ end] =>
      lazymatch x with
      | context [match _ with _ => _ end] => fail
      | _ => destruct x eqn:?
      end
  end.

Lemma fetch_data_try_no_attributes (fuel : nat) (query : fstring)
    (s : Salesforce.Self) (w : world) (l : list pyval) (d : pydict) :
  result_of (Salesforce.fetch_data_try fuel query s w) = Ret (PList l) ->
  In (PDict d) l -> Py.dict_mem (PStr "attributes") d = false.
Proof.
  unfold Salesforce.fetch_data_try, result_of, bind. intros H Hin.
  destruct (Salesforce.handle_rate_limits s w) as [[r0 s0] w0].
  destruct r0; simpl in H; try discriminate.
  unfold self, send, lift in H.
  destruct (vendor w0 _ _) as [e | resp]; simpl in H; [discriminate |].
  destruct (status_code resp =? 200); simpl in H.
  2:{ inversion H. subst. destruct Hin. }
  destruct (json resp) as [e | data]; simpl in H; [discriminate |].
  destruct (Py.get data "records" _) as [e | records];
    simpl in H; [discriminate |].
  destruct (Py.get data "nextRecordsUrl" _) as [e | next_url];
    simpl in H; [discriminate |].
  destruct (Salesforce.next_batches fuel records next_url _ _)
    as [[r1 s1] w1].
  destruct r1 as [records' | e |]; simpl in H; try discriminate.
  destruct (Salesforce.remove_attributes records') as [e | stripped] eqn:E;
    simpl in H; [discriminate |].
  inversion H. subst.
  eapply remove_attributes_no_attributes; eassumption.
Qed.

(** C10. No record mapping in the list that
    [SalesforceConnector.fetch_data] returns has the key ['attributes'],
    whatever the vendor sent on whichever page. *)
Theorem fetched_records_have_no_attributes (fuel : nat)
    (query_or_object_name : string) (query_params : option pydict)
    (s : Salesforce.Self) (w : world) (l : list pyval) (d : pydict) :
  result_of (Salesforce.fetch_data fuel query_or_object_name query_params
               s w) = Ret (PList l) ->
  In (PDict d) l ->
  Py.dict_mem (PStr "attributes") d = false.
Proof.
  unfold Salesforce.fetch_data, result_of, bind. intros H Hin.
  destruct (Salesforce.validate_connection s w) as [[r0 s0] w0].
  destruct r0 as [ok | e |]; simpl in H; try discriminate.
  destruct (Py.truthy ok); simpl in H.
  2:{ inversion H. subst. destruct Hin. }
  unfold lift in H.
  destruct (Salesforce.build_query _ _) as [e | query]; simpl in H;
    [discriminate |].
  unfold try_except in H.
  destruct (Salesforce.fetch_data_try fuel query s0 _) as [[r1 s1] w1] eqn:E.
  destruct r1 as [records | e |]; simpl in H; try discriminate.
  - inversion H. subst.
    eapply (fetch_data_try_no_attributes fuel query); [| exact Hin].
    unfold result_of. rewrite E. reflexivity.
  - inversion H. subst. destruct Hin.
Qed.

Lemma fetched_records_have_no_attributes_witness :
  result_of (Salesforce.fetch_data 1 "Account" None salesforce_with_token
               (world_of two_pages_vendor)) = Ret (PList two_pages_result) /\
  Py.dict_mem (PStr "attributes") (Py.dict_of [("Id", PInt 0)]) = false.
Proof.
  assert (H : result_of (Salesforce.fetch_data 1 "Account" None
                           salesforce_with_token (world_of two_pages_vendor))
              = Ret (PList two_pages_result)) by (vm_compute; reflexivity).
  split; [exact H |].
  apply (@fetched_records_have_no_attributes 1 "Account" None
           salesforce_with_token (world_of two_pages_vendor)
           two_pages_result (Py.dict_of [("Id", PInt 0)]) H).
  left. reflexivity.
Defined.

(** C6, the claim as stated fails: from two pages of 100 and of 37
    records [SalesforceConnector.fetch_data] returns the 137 records, and
    none of them carries [_extracted_at]. *)
Lemma fetched_records_counterexample :
  result_of (Salesforce.fetch_data 1 "Account" None salesforce_with_token
               (world_of two_pages_vendor)) = Ret (PList two_pages_result) /\
  List.length two_pages_result = 137%nat /\
  existsb (populated "_extracted_at") two_pages_result = false.
Proof. vm_compute. repeat split. Qed.

(** ** Pagination *)

Lemma dict_del_absent (k : pyval) (d : pydict) :
  Py.dict_mem k d = false -> Py.dict_del k d = d.
Proof.
  induction d as [| [k' v] d IH]; simpl; [reflexivity |].
  destruct (Py.key_eqb k k'); simpl; [discriminate |].
  intros H. rewrite (IH H). reflexivity.
Qed.

Lemma strip_record_dict (d : pydict) :
  Salesforce.strip_record (PDict d) = inr (without_attributes (PDict d)).
Proof.
  unfold Salesforce.strip_record, Py.contains, Py.delitem, without_attributes.
  cbv beta iota.
  destruct (Py.dict_mem (PStr "attributes") d) eqn:E; [reflexivity |].
  rewrite (dict_del_absent _ _ E). reflexivity.
Qed.

Lemma strip_all_dicts (l : list pyval) :
  Forall is_dict l -> Salesforce.strip_all l = inr (map without_attributes l).
Proof.
  induction 1 as [| record l Hd _ IH]; [reflexivity |].
  destruct record; try contradiction.
  cbn [Salesforce.strip_all map]. rewrite strip_record_dict, IH. reflexivity.
Qed.

(** The rate limiter of Salesforce always returns, and touches only the
    clock and the counters of the instance. *)
Lemma salesforce_limits_quiet (s : Salesforce.Self) (w : world) :
  exists s' w',
    Salesforce.handle_rate_limits s w = (Ret tt, s', w') /\
    sent w' = sent w /\ vendor w' = vendor w /\ raised w' = raised w /\
    log w' = log w /\
    Salesforce.session_headers s' = Salesforce.session_headers s /\
    Salesforce.instance_url s' = Salesforce.instance_url s /\
    Salesforce.api_version s' = Salesforce.api_version s.
Proof.
  unfold Salesforce.handle_rate_limits, bind, self.
  destruct (100 <=? Salesforce.request_count s); simpl.
  - do 2 eexists. repeat split.
  - destruct (Salesforce.last_request_time s) as [l |]; simpl.
    + destruct (now w - l <? 100000); simpl; do 2 eexists; repeat split.
    + do 2 eexists. repeat split.
Qed.

Lemma next_batches_pages (pages : list (list pyval)) :
  forall (fuel : nat) (acc : list pyval) (next_url : pyval)
         (s : Salesforce.Self) (w : world),
    serves_next (vendor w) (List.length (sent w)) pages ->
    Py.truthy next_url = negb (is_nil pages) ->
    (List.length pages <= fuel)%nat ->
    exists s' w',
      Salesforce.next_batches fuel (PList acc) next_url s w
      = (Ret (PList (acc ++ List.concat pages)), s', w') /\
      List.length (sent w') = (List.length (sent w) + List.length pages)%nat.
Proof.
  induction pages as [| page rest IH]; intros fuel acc next_url s w Hv Hn Hf.
  - simpl in Hn. exists s, w.
    destruct fuel; simpl; rewrite Hn; simpl; rewrite app_nil_r;
      split; try reflexivity; lia.
  - destruct fuel as [| fuel]; [simpl in Hf; lia |].
    simpl in Hn. cbn [Salesforce.next_batches]. rewrite Hn. cbn [negb].
    destruct (salesforce_limits_quiet s w)
      as (s1 & w1 & E1 & Hsent & Hvendor & _ & _ & _).
    unfold bind at 1. rewrite E1.
    unfold bind at 1. unfold logger at 1.
    unfold bind at 1. unfold self at 1.
    unfold bind at 1. unfold send at 1. cbn [sent with_log vendor].
    destruct Hv as [Hpage Hrest].
    rewrite Hvendor, Hsent.
    destruct (Hpage (Salesforce.session_headers s1)
                (Salesforce.instance_url s1) next_url)
      as (r & Er & Hstatus & data & Hjson & Hrecords & Hcursor).
    rewrite Er. rewrite Hstatus. cbn [Z.eqb Pos.eqb].
    unfold bind at 1. unfold lift at 1. rewrite Hjson. unfold ret at 1.
    unfold bind at 1. unfold lift at 1. unfold Py.get at 1.
    rewrite Hrecords. unfold ret at 1.
    unfold bind at 1. unfold lift at 1. unfold Py.extend, Py.iter.
    cbv beta iota. unfold ret at 1.
    unfold bind at 1. unfold lift at 1. unfold Py.get at 1. unfold ret at 1.
    edestruct (IH fuel (acc ++ page)
                 (Py.dict_get "nextRecordsUrl" PNone data) s1)
      as (s' & w' & E & Hlen); cycle 3.
    + rewrite E. exists s', w'. split.
      * cbn [List.concat]. rewrite app_assoc. reflexivity.
      * rewrite Hlen. cbn [sent with_sent with_log List.length]. rewrite Hsent. lia.
    + cbn [sent with_sent with_log vendor List.length].
      rewrite Hvendor, Hsent. exact Hrest.
    + exact Hcursor.
    + simpl in Hf. lia.
Qed.

Lemma length_concat_uniform {A} (pages : list (list A)) (n : nat) :
  Forall (fun page => List.length page = n) pages ->
  List.length (List.concat pages) = (List.length pages * n)%nat.
Proof.
  induction 1 as [| page rest Hp _ IH]; [reflexivity |].
  cbn [List.concat List.length]. rewrite length_app, Hp, IH. lia.
Qed.

Lemma fetch_data_try_pages (fuel : nat) (query : fstring)
    (s : Salesforce.Self) (w : world) (pages : list (list pyval)) :
  pages <> [] ->
  serves_pages (vendor w) (List.length (sent w)) pages ->
  Forall is_dict (List.concat pages) ->
  (List.length pages <= S fuel)%nat ->
  exists s' w',
    Salesforce.fetch_data_try fuel query s w
    = (Ret (PList (map without_attributes (List.concat pages))), s', w') /\
    List.length (sent w') = (List.length (sent w) + List.length pages)%nat.
Proof.
  intros Hne Hv Hd Hf. destruct pages as [| page rest]; [congruence |].
  unfold Salesforce.fetch_data_try.
  destruct (salesforce_limits_quiet s w)
    as (s1 & w1 & E1 & Hsent & Hvendor & _ & _ & _).
  unfold bind at 1. rewrite E1.
  unfold bind at 1. unfold self at 1.
  unfold bind at 1. unfold send at 1.
  destruct Hv as [Hpage Hrest]. rewrite Hvendor, Hsent.
  destruct (Hpage (Salesforce.session_headers s1)
              (Salesforce.instance_url s1)
              (Salesforce.api_version s1) query)
    as (r & Er & Hstatus & data & Hjson & Hrecords & Hcursor).
  rewrite Er, Hstatus. cbn [Z.eqb Pos.eqb].
  unfold bind at 1. unfold lift at 1. rewrite Hjson. unfold ret at 1.
  unfold bind at 1. unfold lift at 1. unfold Py.get at 1.
  rewrite Hrecords. unfold ret at 1.
  unfold bind at 1. unfold lift at 1. unfold Py.get at 1. unfold ret at 1.
  edestruct (next_batches_pages rest fuel page
               (Py.dict_get "nextRecordsUrl" PNone data) s1)
    as (s' & w' & E & Hlen); cycle 3.
  - unfold bind at 1. rewrite E.
    unfold bind at 1. unfold lift at 1. cbn [Salesforce.remove_attributes].
    change (page ++ List.concat rest) with (List.concat (page :: rest)).
    rewrite (strip_all_dicts _ Hd). cbv beta iota. unfold ret at 1.
    unfold bind, logger, ret. do 2 eexists. split; [reflexivity |].
    cbn [sent with_log]. rewrite Hlen.
    cbn [sent with_sent List.length]. rewrite Hsent. lia.
  - cbn [sent with_sent vendor List.length]. rewrite Hvendor, Hsent.
    exact Hrest.
  - exact Hcursor.
  - simpl in Hf. lia.
Qed.

Lemma dict_find_set (k v : pyval) (d : pydict) :
  Py.key_eqb k k = true -> Py.dict_find k (Py.dict_set k v d) = Some v.
Proof.
  intros Hk. induction d as [| [k' v'] d IH]; simpl.
  - rewrite Hk. reflexivity.
  - destruct (Py.key_eqb k k') eqn:E; simpl; rewrite E; [reflexivity |].
    exact IH.
Qed.

Lemma append_nonempty (a b : string) (c : ascii) :
  String.eqb (a ++ String c b) "" = false.
Proof. destruct a; reflexivity. Qed.

Lemma isoformat_nonempty (t : Z) :
  String.eqb (Datetime.isoformat t) "" = false.
Proof.
  unfold Datetime.isoformat.
  destruct (Datetime.civil_from_days _) as [[y m] d].
  apply append_nonempty.
Qed.

Lemma convert_rows_stamped (response : ga4_report) (report_type : string)
    (rows : list ga4_row) (a : GA4.Self) (w : world) :
  exists records,
    GA4.convert_rows response report_type rows a w = (Ret records, a, w) /\
    List.length records = List.length rows /\
    forallb (populated "_extracted_at") records = true.
Proof.
  induction rows as [| row rows (records & E & Hlen & Hall)].
  - exists []. repeat split.
  - cbn [GA4.convert_rows]. cbv zeta.
    unfold bind at 1. unfold self at 1.
    unfold bind at 1. unfold datetime_now at 1.
    unfold bind at 1. rewrite E. unfold ret.
    eexists. split; [reflexivity |]. split.
    + cbn [List.length]. rewrite Hlen. reflexivity.
    + cbn [forallb]. rewrite Hall, andb_true_r.
      unfold populated. rewrite dict_find_set by reflexivity.
      cbn [Py.truthy]. rewrite isoformat_nonempty. reflexivity.
Qed.

(** C6 (as amended). When the connection is valid and the vendor answers
    the query and the requests for the next batches with [k] pages, the
    last one without cursor, [SalesforceConnector.fetch_data] returns the
    records of the pages in page order, each without its ['attributes']:
    [k * n] records if every page has [n].  It adds no extraction
    metadata.  [_extracted_at] is populated by the connectors that do not
    page: [GA4Connector._convert_report_to_records] makes one record per
    row of the report, each with [_extracted_at]. *)
Theorem pages_are_aggregated (fuel : nat) (query_or_object_name : string)
    (query_params : option pydict) (s : Salesforce.Self) (w : world)
    (ok : pyval) (query : fstring) (pages : list (list pyval)) (n : nat) :
  let checked := Salesforce.validate_connection s w in
  result_of checked = Ret ok ->
  Py.truthy ok = true ->
  Salesforce.build_query query_or_object_name query_params = inr query ->
  pages <> [] ->
  serves_pages (vendor (world_after checked))
    (List.length (sent (world_after checked))) pages ->
  Forall is_dict (List.concat pages) ->
  (List.length pages <= S fuel)%nat ->
  let run :=
    Salesforce.fetch_data fuel query_or_object_name query_params s w in
  result_of run
  = Ret (PList (map without_attributes (List.concat pages))) /\
  (Forall (fun page => List.length page = n) pages ->
   List.length (map without_attributes (List.concat pages))
   = (List.length pages * n)%nat) /\
  List.length (sent (world_after run))
  = (List.length (sent (world_after checked)) + List.length pages)%nat /\
  (forall (a : GA4.Self) (response : ga4_report) (report_type : string)
          (w0 : world),
      exists records,
        GA4._convert_report_to_records response report_type a w0
        = (Ret (PList records), a, w0) /\
        List.length records = List.length (rows response) /\
        forallb (populated "_extracted_at") records = true).
Proof.
  cbv zeta. intros Hok Ht Hq Hne Hv Hd Hf.
  destruct (Salesforce.validate_connection s w) as [[r0 s0] w0] eqn:Ev.
  unfold result_of, world_after in Hok, Hv. cbn [fst snd] in Hok, Hv.
  subst r0.
  destruct (fetch_data_try_pages fuel query s0
              (with_log ((DEBUG, "SOQL Query") :: log w0) w0) pages
              Hne Hv Hd Hf) as (s' & w' & E & Hlen).
  assert (Erun :
    Salesforce.fetch_data fuel query_or_object_name query_params s w
    = (Ret (PList (map without_attributes (List.concat pages))), s', w')).
  { unfold Salesforce.fetch_data, bind. rewrite Ev, Ht. cbn [negb].
    unfold lift. rewrite Hq. unfold ret at 1. unfold logger at 1.
    unfold try_except. rewrite E. reflexivity. }
  rewrite Erun. unfold result_of, world_after. cbn [fst snd].
  repeat split.
  - intros Hn. rewrite length_map. apply length_concat_uniform. exact Hn.
  - exact Hlen.
  - intros a response report_type w1.
    unfold GA4._convert_report_to_records, bind.
    destruct (convert_rows_stamped response report_type (rows response)
                a w1) as (records & E' & Hl & Hall).
    rewrite E'. exists records. repeat split; assumption.
Qed.

Lemma two_pages_served :
  serves_pages two_pages_vendor 1
    [map sf_record (seq 0 100); map sf_record (seq 100 37)].
Proof.
  split; [| split; [| exact I]].
  - intros headers instance_url api_version q. eexists. split; [reflexivity |].
    split; [reflexivity |]. eexists. repeat split.
  - intros headers instance_url next_url. eexists. split; [reflexivity |].
    split; [reflexivity |]. eexists. repeat split.
Qed.

Lemma sf_records_are_dicts (l : list nat) : Forall is_dict (map sf_record l).
Proof. induction l; constructor; [exact I | assumption]. Qed.

Lemma pages_are_aggregated_witness :
  result_of (Salesforce.fetch_data 1 "Account" None salesforce_with_token
               (world_of two_pages_vendor))
  = Ret (PList (map without_attributes
                  (List.concat [map sf_record (seq 0 100);
                                map sf_record (seq 100 37)]))).
Proof.
  refine (proj1 (pages_are_aggregated 1 "Account" None salesforce_with_token
                   (world_of two_pages_vendor) (PBool true)
                   [PStr "SELECT "; PStr "Id, Name, CreatedDate, LastModifiedDate";
                    PStr " FROM "; PStr "Account"]
                   [map sf_record (seq 0 100); map sf_record (seq 100 37)]
                   100 _ _ _ _ _ _ _)).
  - vm_compute. reflexivity.
  - reflexivity.
  - vm_compute. reflexivity.
  - discriminate.
  - exact two_pages_served.
  - cbn [List.concat]. rewrite app_nil_r, <- map_app.
    apply sf_records_are_dicts.
  - simpl. lia.
Defined.

(** ** Pagination without end *)

Lemma next_batches_endless (fuel : nat) :
  forall (acc : list pyval) (next_url : pyval) (s : Salesforce.Self)
         (w : world),
    salesforce_never_ends (vendor w) ->
    Py.truthy next_url = true ->
    exists s' w',
      Salesforce.next_batches fuel (PList acc) next_url s w
      = (OutOfFuel, s', w') /\
      List.length (sent w') = (List.length (sent w) + fuel)%nat.
Proof.
  induction fuel as [| fuel IH]; intros acc next_url s w Hv Hn.
  - exists s, w. cbn [Salesforce.next_batches]. rewrite Hn. split.
    + reflexivity.
    + lia.
  - cbn [Salesforce.next_batches]. rewrite Hn. cbn [negb].
    destruct (salesforce_limits_quiet s w)
      as (s1 & w1 & E1 & Hsent & Hvendor & _).
    unfold bind at 1. rewrite E1.
    unfold bind at 1. unfold logger at 1.
    unfold bind at 1. unfold self at 1.
    unfold bind at 1. unfold send at 1. cbn [sent with_log vendor].
    rewrite Hvendor, Hsent.
    destruct (proj2 Hv (List.length (sent w))
                (Salesforce.session_headers s1)
                (Salesforce.instance_url s1) next_url)
      as (r & records & Er & Hstatus & data & Hjson & Hrecords & Hcursor).
    rewrite Er, Hstatus. cbn [Z.eqb Pos.eqb].
    unfold bind at 1. unfold lift at 1. rewrite Hjson. unfold ret at 1.
    unfold bind at 1. unfold lift at 1. unfold Py.get at 1.
    rewrite Hrecords. unfold ret at 1.
    unfold bind at 1. unfold lift at 1. unfold Py.extend, Py.iter.
    cbv beta iota. unfold ret at 1.
    unfold bind at 1. unfold lift at 1. unfold Py.get at 1. unfold ret at 1.
    edestruct (IH (acc ++ records)
                 (Py.dict_get "nextRecordsUrl" PNone data) s1)
      as (s' & w' & E & Hlen); cycle 2.
    + rewrite E. exists s', w'. split; [reflexivity |].
      rewrite Hlen. cbn [sent with_sent with_log List.length].
      rewrite Hsent. lia.
    + cbn [sent with_sent with_log vendor]. rewrite Hvendor. exact Hv.
    + exact Hcursor.
Qed.

Lemma fetch_data_try_endless (fuel : nat) (query : fstring)
    (s : Salesforce.Self) (w : world) :
  salesforce_never_ends (vendor w) ->
  exists s' w',
    Salesforce.fetch_data_try fuel query s w = (OutOfFuel, s', w') /\
    List.length (sent w') = (List.length (sent w) + S fuel)%nat.
Proof.
  intros Hv. unfold Salesforce.fetch_data_try.
  destruct (salesforce_limits_quiet s w)
    as (s1 & w1 & E1 & Hsent & Hvendor & _).
  unfold bind at 1. rewrite E1.
  unfold bind at 1. unfold self at 1.
  unfold bind at 1. unfold send at 1. rewrite Hvendor, Hsent.
  destruct (proj1 Hv (List.length (sent w)) (Salesforce.session_headers s1)
              (Salesforce.instance_url s1) (Salesforce.api_version s1) query)
    as (r & records & Er & Hstatus & data & Hjson & Hrecords & Hcursor).
  rewrite Er, Hstatus. cbn [Z.eqb Pos.eqb].
  unfold bind at 1. unfold lift at 1. rewrite Hjson. unfold ret at 1.
  unfold bind at 1. unfold lift at 1. unfold Py.get at 1.
  rewrite Hrecords. unfold ret at 1.
  unfold bind at 1. unfold lift at 1. unfold Py.get at 1. unfold ret at 1.
  edestruct (next_batches_endless fuel records
               (Py.dict_get "nextRecordsUrl" PNone data) s1)
    as (s' & w' & E & Hlen); cycle 2.
  - unfold bind at 1. rewrite E. exists s', w'. split; [reflexivity |].
    rewrite Hlen. cbn [sent with_sent List.length]. rewrite Hsent. lia.
  - cbn [vendor with_sent]. rewrite Hvendor. exact Hv.
  - exact Hcursor.
Qed.

Lemma search_pages_endless (fuel : nat) :
  forall (object_type : string) (query_params : pydict)
         (properties : pyval) (all_results : list pyval) (after : pyval)
         (h : Hubspot.Self) (w : world),
    hubspot_never_ends (vendor w) ->
    exists h' w',
      Hubspot.search_pages fuel object_type query_params properties
        all_results after h w = (OutOfFuel, h', w') /\
      List.length (sent w') = (List.length (sent w) + fuel)%nat.
Proof.
  induction fuel as [| fuel IH];
    intros object_type query_params properties all_results after h w Hv.
  - exists h, w. split; [reflexivity | lia].
  - cbn [Hubspot.search_pages]. cbv zeta.
    unfold bind at 1. unfold Hubspot.handle_rate_limits, time_sleep.
    unfold bind at 1. unfold logger at 1.
    unfold bind at 1. unfold self at 1.
    unfold bind at 1. unfold send at 1. cbn [sent with_log with_now vendor].
    match goal with
    | |- context [vendor w _ (HsSearch ?a ?b ?c)] =>
        destruct (Hv (List.length (sent w)) a b c)
          as (r & items & flat & after' & Er & (Hstatus & data & Hjson
              & Hresults & Hnext) & Hflat)
    end.
    rewrite Er.
    unfold bind at 1. unfold raise_for_status. rewrite Hstatus.
    unfold ret at 1.
    unfold bind at 1. unfold lift at 1. rewrite Hjson. unfold ret at 1.
    unfold bind at 1. unfold lift at 1. unfold Py.get at 1.
    rewrite Hresults. unfold ret at 1.
    unfold bind at 1. unfold lift at 1. unfold Py.iter. unfold ret at 1.
    unfold bind at 1. unfold lift at 1. rewrite Hflat. unfold ret at 1.
    unfold bind at 1. unfold lift at 1. rewrite Hnext. unfold ret at 1.
    edestruct (IH object_type query_params properties
                 (all_results ++ flat) after' h)
      as (h' & w' & E & Hlen); cycle 1.
    + rewrite E. exists h', w'. split; [reflexivity |].
      rewrite Hlen. cbn [sent with_sent with_log with_now List.length]. lia.
    + cbn [vendor with_sent with_log with_now]. exact Hv.
Qed.

(** C5 (as amended). The pagination loops have no page cap.  When every
    answer of the vendor carries a continuation cursor, the loop of
    [SalesforceConnector.fetch_data] and the loop of
    [HubspotConnector.fetch_data] do not end: whatever the number [fuel]
    of iterations they are given, they use them all, one request each,
    and are still not done.  No pagination-limit condition is raised. *)
Theorem pagination_has_no_cap (fuel : nat) (query : fstring)
    (s : Salesforce.Self) (object_type : string) (query_params : pydict)
    (properties : pyval) (h : Hubspot.Self) (w : world) :
  (salesforce_never_ends (vendor w) ->
   let run := Salesforce.fetch_data_try fuel query s w in
   result_of run = OutOfFuel /\
   List.length (sent (world_after run))
   = (List.length (sent w) + S fuel)%nat) /\
  (hubspot_never_ends (vendor w) ->
   let run :=
     Hubspot.fetch_data_try fuel object_type query_params properties h w in
   result_of run = OutOfFuel /\
   List.length (sent (world_after run))
   = (List.length (sent w) + fuel)%nat).
Proof.
  split; intros Hv; cbv zeta.
  - destruct (fetch_data_try_endless fuel query s w Hv)
      as (s' & w' & E & Hlen).
    rewrite E. split; [reflexivity | exact Hlen].
  - unfold Hubspot.fetch_data_try.
    destruct (search_pages_endless fuel object_type query_params properties
                [] PNone h w Hv) as (h' & w' & E & Hlen).
    rewrite E. split; [reflexivity | exact Hlen].
Qed.

Lemma endless_vendor_never_ends : salesforce_never_ends endless_vendor.
Proof.
  split.
  - intros n headers instance_url api_version q.
    eexists. exists [sf_record 0]. split; [reflexivity |].
    split; [reflexivity |]. eexists. repeat split.
  - intros n headers instance_url next_url.
    eexists. exists [sf_record 0]. split; [reflexivity |].
    split; [reflexivity |]. eexists. repeat split.
Qed.

Lemma pagination_has_no_cap_witness :
  result_of (Salesforce.fetch_data_try 3 [PStr "SELECT Id FROM Account"]
               salesforce_with_token (world_of endless_vendor))
  = OutOfFuel.
Proof.
  apply (proj1 (pagination_has_no_cap 3 [PStr "SELECT Id FROM Account"]
                  salesforce_with_token "contacts" [] PNone
                  (Hubspot.init None) (world_of endless_vendor))).
  exact endless_vendor_never_ends.
Defined.

(** C5, the claim as stated fails: on a vendor whose every page carries
    a cursor, [SalesforceConnector.fetch_data] does not come back within
    any number of iterations of its loop, and has sent at least one
    request per iteration. *)
Lemma pagination_cap_counterexample :
  never_returns
    (fun fuel =>
       Salesforce.fetch_data fuel "Account" None salesforce_with_token
         (world_of endless_vendor)).
Proof.
  intros fuel.
  assert (Ev :
    Salesforce.validate_connection salesforce_with_token
      (world_of endless_vendor)
    = (Ret (PBool true), salesforce_with_token,
       with_log [(INFO, "Connection to Salesforce is valid")]
         (with_sent
            (AnyCall (SfSObjects (Some (PStr "t"))
                        (PStr "https://eu1.salesforce.com") (PStr "57.0")))
            false (world_of endless_vendor)))) by reflexivity.
  assert (Eq :
    Salesforce.build_query "Account" None
    = inr [PStr "SELECT "; PStr "Id, Name, CreatedDate, LastModifiedDate";
           PStr " FROM "; PStr "Account"]) by reflexivity.
  match type of Ev with
  | _ = (_, ?s, ?w) =>
      destruct (fetch_data_try_endless fuel
                  [PStr "SELECT ";
                   PStr "Id, Name, CreatedDate, LastModifiedDate";
                   PStr " FROM "; PStr "Account"]
                  s (with_log ((DEBUG, "SOQL Query") :: log w) w)
                  endless_vendor_never_ends)
        as (s' & w' & E & Hlen)
  end.
  assert (Erun :
    Salesforce.fetch_data fuel "Account" None salesforce_with_token
      (world_of endless_vendor) = (OutOfFuel, s', w')).
  { unfold Salesforce.fetch_data, bind. rewrite Ev. cbn [Py.truthy negb].
    unfold lift. rewrite Eq. unfold ret at 1. unfold logger at 1.
    unfold try_except. rewrite E. reflexivity. }
  rewrite Erun. unfold result_of, world_after. cbn [fst snd].
  split; [reflexivity |]. rewrite Hlen. cbn. lia.
Qed.

(** ** Schema discovery *)

Lemma In_dict_del (k : pyval) (d : pydict) (x : pyval * pyval) :
  In x (Py.dict_del k d) -> In x d.
Proof.
  induction d as [| [k' v'] d IH]; simpl; [tauto |].
  destruct (Py.key_eqb k k'); simpl; intuition.
Qed.

(** An item of a dict after [d[k] = v] is the new value, under [k] or
    under the equal key that was there, or is an item of [d]. *)
Lemma In_dict_set (k v : pyval) (d : pydict) (k0 v0 : pyval) :
  In (k0, v0) (Py.dict_set k v d) ->
  (v0 = v /\ (k0 = k \/ Py.key_eqb k k0 = true)) \/ In (k0, v0) d.
Proof.
  induction d as [| [k' v'] d IH]; simpl.
  - intros [H | []]. inversion H. subst. left. split; [reflexivity | tauto].
  - destruct (Py.key_eqb k k') eqn:E; simpl.
    + intros [H | H].
      * inversion H. subst. left. split; [reflexivity | tauto].
      * right. right. eapply In_dict_del. exact H.
    + intros [H | H]; [tauto |].
      destruct (IH H) as [Hl | Hr]; tauto.
Qed.

Lemma hubspot_columns (props : list pyval) :
  forall cols col,
    Hubspot.columns_of props = inr cols ->
    In col cols ->
    exists prop name data_type,
      In prop props /\
      Py.getitem prop "name" = inr name /\
      Py.get prop "type" (PStr "string") = inr data_type /\
      col = column name data_type.
Proof.
  induction props as [| prop props IH]; intros cols col H Hin.
  - inversion H. subst. destruct Hin.
  - cbn [Hubspot.columns_of] in H.
    destruct (Py.getitem prop "name") as [e | name] eqn:En;
      [discriminate |].
    destruct (Py.get prop "type" (PStr "string")) as [e | ty] eqn:Et;
      [discriminate |].
    destruct (Hubspot.columns_of props) as [e | rest]; [discriminate |].
    inversion H. subst. destruct Hin as [<- | Hin].
    + exists prop, name, ty. repeat split; try assumption. left. reflexivity.
    + destruct (IH rest col eq_refl Hin) as (p & n & t & Hp & Hrest).
      exists p, n, t. split; [right; exact Hp | exact Hrest].
Qed.

(** Every column of every table that [schemas_to_tables] adds comes from
    a property of one of the schemas. *)
Lemma hubspot_tables (all_schemas : list pyval) :
  forall (acc full : pydict) (table : pyval) (cols : list pyval)
         (col : pyval),
    Hubspot.schemas_to_tables all_schemas acc = inr full ->
    In (table, PList cols) full ->
    In col cols ->
    In (table, PList cols) acc \/
    exists schema declared props prop name data_type,
      In schema all_schemas /\
      Py.get schema "properties" (PList []) = inr declared /\
      Py.iter declared = inr props /\
      In prop props /\
      Py.getitem prop "name" = inr name /\
      Py.get prop "type" (PStr "string") = inr data_type /\
      col = column name data_type.
Proof.
  induction all_schemas as [| schema rest IH];
    intros acc full table cols col H Hin Hcol.
  - inversion H. subst. left. exact Hin.
  - cbn [Hubspot.schemas_to_tables] in H.
    destruct (Py.getitem schema "name") as [e | object_type];
      [discriminate |].
    destruct (Py.get schema "properties" (PList [])) as [e | declared] eqn:Ed;
      [discriminate |].
    destruct (Py.iter declared) as [e | props] eqn:Ei; [discriminate |].
    destruct (Hubspot.columns_of props) as [e | fields_list] eqn:Ec;
      [discriminate |].
    unfold Py.dict_setitem in H.
    destruct (Py.hashable object_type); [| discriminate].
    destruct (IH _ full table cols col H Hin Hcol) as [Hacc | Hex].
    + apply In_dict_set in Hacc. destruct Hacc as [[Hv _] | Hacc].
      * right. inversion Hv. subst.
        destruct (hubspot_columns props fields_list col Ec Hcol)
          as (prop & name & ty & Hp & Hn & Ht & Hc).
        exists schema, declared, props, prop, name, ty.
        repeat split; try assumption. left. reflexivity.
      * left. exact Hacc.
    + right. destruct Hex as (sc & de & ps & p & n & t & Hs & Hrest).
      exists sc, de, ps, p, n, t. split; [right; exact Hs | exact Hrest].
Qed.

(** The value that [field_entries] stores under a field name carries the
    type of one of the fields, as the vendor gave it. *)
Lemma salesforce_field_entries (fields : list pyval) :
  forall (acc info : pydict) (name details : pyval),
    Salesforce.field_entries fields acc = inr info ->
    In (name, details) info ->
    In (name, details) acc \/
    exists field data_type,
      In field fields /\
      Py.getitem field "type" = inr data_type /\
      Py.get details "type" (PStr "string") = inr data_type.
Proof.
  induction fields as [| field rest IH];
    intros acc info name details H Hin.
  - inversion H. subst. left. exact Hin.
  - cbn [Salesforce.field_entries] in H.
    destruct (Salesforce.field_entry field acc) as [e | acc'] eqn:Ef;
      [discriminate |].
    destruct (IH acc' info name details H Hin) as [Hacc | Hex].
    + unfold Salesforce.field_entry in Ef.
      destruct (Py.getitem field "type") as [e | ty] eqn:Et;
        [discriminate |].
      destruct (Py.getitem field "label") as [e | label]; [discriminate |].
      destruct (Py.get field "length" PNone) as [e | len]; [discriminate |].
      destruct (Py.get field "nillable" (PBool true)) as [e | nil];
        [discriminate |].
      destruct (Py.get field "createable" (PBool false)) as [e | cr];
        [discriminate |].
      destruct (Py.get field "updateable" (PBool false)) as [e | up];
        [discriminate |].
      destruct (Py.getitem field "name") as [e | key]; [discriminate |].
      unfold Py.dict_setitem in Ef.
      destruct (Py.hashable key); [| discriminate].
      inversion Ef. subst acc'.
      apply In_dict_set in Hacc. destruct Hacc as [[Hv _] | Hacc].
      * right. exists field, ty. subst details.
        split; [left; reflexivity |]. split; [exact Et | reflexivity].
      * left. exact Hacc.
    + right. destruct Hex as (f & t & Hf & Hrest).
      exists f, t. split; [right; exact Hf | exact Hrest].
Qed.

Lemma salesforce_columns (info : pydict) :
  forall cols col,
    Salesforce.columns_of info = inr cols ->
    In col cols ->
    exists name details data_type,
      In (name, details) info /\
      Py.get details "type" (PStr "string") = inr data_type /\
      col = column name data_type.
Proof.
  induction info as [| [name details] info IH]; intros cols col H Hin.
  - inversion H. subst. destruct Hin.
  - cbn [Salesforce.columns_of] in H.
    destruct (Py.get details "type" (PStr "string")) as [e | ty] eqn:Et;
      [discriminate |].
    destruct (Salesforce.columns_of info) as [e | rest]; [discriminate |].
    inversion H. subst. destruct Hin as [<- | Hin].
    + exists name, details, ty. repeat split; try assumption.
      left. reflexivity.
    + destruct (IH rest col eq_refl Hin) as (n & d & t & Hi & Hrest).
      exists n, d, t. split; [right; exact Hi | exact Hrest].
Qed.

(** C4 (as amended). [list_objects] has no table of types: every entry
    of a field list is [{columnName, dataType}] and nothing else, and its
    [dataType] is the vendor's own type of a property (HubSpot; ['string']
    only when the property has no type) or of a field (Salesforce),
    passed through as it came. *)
Theorem vendor_types_pass_through :
  (forall (all_schemas : list pyval) (full : pydict) (table : pyval)
          (cols : list pyval) (col : pyval),
      Hubspot.schemas_to_tables all_schemas [] = inr full ->
      In (table, PList cols) full ->
      In col cols ->
      exists schema declared props prop name data_type,
        In schema all_schemas /\
        Py.get schema "properties" (PList []) = inr declared /\
        Py.iter declared = inr props /\
        In prop props /\
        Py.getitem prop "name" = inr name /\
        Py.get prop "type" (PStr "string") = inr data_type /\
        col = column name data_type) /\
  (forall (fields : list pyval) (info : pydict) (cols : list pyval)
          (col : pyval),
      Salesforce.field_entries fields [] = inr info ->
      Salesforce.columns_of info = inr cols ->
      In col cols ->
      exists field name data_type,
        In field fields /\
        Py.getitem field "type" = inr data_type /\
        col = column name data_type).
Proof.
  split.
  - intros all_schemas full table cols col H Hin Hcol.
    destruct (hubspot_tables all_schemas [] full table cols col H Hin Hcol)
      as [[] | Hex].
    exact Hex.
  - intros fields info cols col Hf Hc Hin.
    destruct (salesforce_columns info cols col Hc Hin)
      as (name & details & ty & Hi & Ht & Hcol).
    destruct (salesforce_field_entries fields [] info name details Hf Hi)
      as [[] | (field & ty' & Hfield & Htype & Ht')].
    exists field, name, ty. repeat split; try assumption. congruence.
Qed.

Lemma vendor_types_pass_through_witness :
  exists schema declared props prop name data_type,
    In schema [deals_schema] /\
    Py.get schema "properties" (PList []) = inr declared /\
    Py.iter declared = inr props /\
    In prop props /\
    Py.getitem prop "name" = inr name /\
    Py.get prop "type" (PStr "string") = inr data_type /\
    column (PStr "amount") (PStr "currency") = column name data_type.
Proof.
  apply (proj1 vendor_types_pass_through [deals_schema]
           [(PStr "deals", PList [column (PStr "amount") (PStr "currency")])]
           (PStr "deals") [column (PStr "amount") (PStr "currency")]
           (column (PStr "amount") (PStr "currency"))).
  - reflexivity.
  - left. reflexivity.
  - left. reflexivity.
Defined.

(** C4, the claim as stated fails: for a property [amount] of the
    unmapped type [currency], [HubspotConnector.list_objects] gives the
    entry [{columnName: amount, dataType: currency}]: the type is not
    turned into [string], and the entry has no [nullable]. *)
Lemma vendor_types_counterexample :
  result_of (Hubspot.list_objects hubspot_with_token
               (world_of currency_vendor))
  = Ret (PDict
           [(PStr "hubspot",
             PDict [(PStr "deals",
                     PList [column (PStr "amount") (PStr "currency")])])]) /\
  column (PStr "amount") (PStr "currency")
  <> PDict (Py.dict_of [("columnName", PStr "amount");
                        ("dataType", PStr "string");
                        ("nullable", PBool true)]).
Proof. split; [vm_compute; reflexivity | discriminate]. Qed.

(** ** Reasoning about what a method sends *)

Section Sends.
Context {S : Type}.
Variable allowed : any_call -> bool.

Lemma sends_only_ret {A} (a : A) : sends_only allowed (@ret S A a).
Proof. intros s w. exists []. split; reflexivity. Qed.

Lemma sends_only_raise {A} (e : exn) : sends_only allowed (@raise S A e).
Proof. intros s w. exists []. split; reflexivity. Qed.

Lemma sends_only_out_of_fuel {A} : sends_only allowed (@out_of_fuel S A).
Proof. intros s w. exists []. split; reflexivity. Qed.

Lemma sends_only_lift {A} (r : exn + A) : sends_only allowed (@lift S A r).
Proof. destruct r; [apply sends_only_raise | apply sends_only_ret]. Qed.

Lemma sends_only_self : sends_only allowed (@self S).
Proof. intros s w. exists []. split; reflexivity. Qed.

Lemma sends_only_set_self (f : S -> S) : sends_only allowed (set_self f).
Proof. intros s w. exists []. split; reflexivity. Qed.

Lemma sends_only_logger (lvl : level) (msg : string) :
  sends_only allowed (@logger S lvl msg).
Proof. intros s w. exists []. split; reflexivity. Qed.

Lemma sends_only_now : sends_only allowed (@datetime_now S).
Proof. intros s w. exists []. split; reflexivity. Qed.

Lemma sends_only_sleep (d : Z) : sends_only allowed (@time_sleep S d).
Proof. intros s w. exists []. split; reflexivity. Qed.

Lemma sends_only_send {T} (c : call T) :
  allowed (AnyCall c) = true -> sends_only allowed (@send S T c).
Proof.
  intros H s w. exists [AnyCall c]. unfold send.
  destruct (vendor w _ c); simpl; rewrite H; split; reflexivity.
Qed.

Lemma sends_only_bind {A B} (m : M S A) (k : A -> M S B) :
  sends_only allowed m -> (forall a, sends_only allowed (k a)) ->
  sends_only allowed (bind m k).
Proof.
  intros Hm Hk s w. unfold bind. destruct (Hm s w) as (new & E & Hnew).
  destruct (m s w) as [[r s1] w1]. simpl in E.
  destruct r as [a | e |]; simpl.
  - destruct (Hk a s1 w1) as (new' & E' & Hnew').
    exists (new' ++ new). rewrite E', E, app_assoc, forallb_app, Hnew, Hnew'.
    split; reflexivity.
  - exists new. split; assumption.
  - exists new. split; assumption.
Qed.

Lemma sends_only_try {A} (m : M S A) (h : exn -> M S A) :
  sends_only allowed m -> (forall e, sends_only allowed (h e)) ->
  sends_only allowed (try_except m h).
Proof.
  intros Hm Hh s w. unfold try_except. destruct (Hm s w) as (new & E & Hnew).
  destruct (m s w) as [[r s1] w1]. simpl in E.
  destruct r as [a | e |]; simpl.
  - exists new. split; assumption.
  - destruct (Hh e s1 w1) as (new' & E' & Hnew').
    exists (new' ++ new). rewrite E', E, app_assoc, forallb_app, Hnew, Hnew'.
    split; reflexivity.
  - exists new. split; assumption.
Qed.

End Sends.

(** Splits a method into its steps, for a property that each step has. *)
Ltac by_steps bind_lemma try_lemma leaf :=
  repeat (cbv beta zeta;
          first [ assumption
                | match goal with H : forall _, _ |- _ => solve [apply H] end
                | apply bind_lemma; [| intros ?]
                | apply try_lemma; [| intros ?]
                | leaf
                | match goal with
                  | |- _ _ (if ?b then _ else _) => destruct b
                  | |- _ _ (match ?x with _ => _ end) => destruct x
                  end ]).

Ltac sends_leaf :=
  first [ apply sends_only_ret | apply sends_only_raise
        | apply sends_only_out_of_fuel | apply sends_only_lift
        | apply sends_only_self | apply sends_only_set_self
        | apply sends_only_logger | apply sends_only_now
        | apply sends_only_sleep
        | apply sends_only_send; reflexivity
        | assumption ].

Ltac sends := by_steps sends_only_bind sends_only_try sends_leaf.

(** Validation asks no vendor for data. *)
Lemma salesforce_validation_sends_no_data_request :
  sends_only (fun c => negb (Contract.is_data_request c))
    Salesforce.validate_connection.
Proof.
  unfold Salesforce.validate_connection, Salesforce.validate_connection_with,
    Salesforce.authenticate_with, Salesforce.password_login,
    Salesforce.refresh_access_token, Salesforce.refresh_access_token_try,
    raise_for_status.
  sends.
Qed.

Lemma hubspot_validation_sends_no_data_request :
  sends_only (fun c => negb (Contract.is_data_request c))
    Hubspot.validate_connection.
Proof.
  unfold Hubspot.validate_connection, Hubspot.refresh_access_token,
    Hubspot.refresh_access_token_try, raise_for_status.
  sends.
Qed.

Lemma ga4_validation_sends_no_data_request :
  sends_only (fun c => negb (Contract.is_data_request c))
    GA4.validate_connection.
Proof. unfold GA4.validate_connection, GA4.authenticate. sends. Qed.

Lemma google_ads_validation_sends_no_data_request :
  sends_only (fun c => negb (Contract.is_data_request c))
    GoogleAds.validate_connection.
Proof.
  unfold GoogleAds.validate_connection, GoogleAds.authenticate. sends.
Qed.

Lemma google_sheets_validation_sends_no_data_request :
  sends_only (fun c => negb (Contract.is_data_request c))
    GoogleSheets.validate_connection.
Proof.
  unfold GoogleSheets.validate_connection, GoogleSheets.authenticate. sends.
Qed.

(** ** The gate of the fetch operations *)

(** X1. When [validate_connection()] returns a false value, [fetch_data]
    of every connector returns the empty list at once: the instance and the
    world are as validation left them, but for one more log entry, at
    level ERROR; and validation itself has asked no vendor for data. *)
Theorem failed_validation_gates_fetch_data (v : Contract.vendor_t)
    (fuel : nat) (selector : string) (query_params : option pydict)
    (s s1 : Contract.Self (Contract.impl v)) (w w1 : world) (ok : pyval) :
  Contract.validate_connection (Contract.impl v) s w = (Ret ok, s1, w1) ->
  Py.truthy ok = false ->
  (exists msg,
      Contract.fetch_data (Contract.impl v) fuel selector query_params s w
      = (Ret (PList []), s1, with_log ((ERROR, msg) :: log w1) w1)) /\
  (exists new,
      sent w1 = new ++ sent w /\
      forallb (fun c => negb (Contract.is_data_request c)) new = true).
Proof.
  intros Hv Hok. split.
  - destruct v; simpl in *;
      [ unfold Salesforce.fetch_data | unfold Hubspot.fetch_data
      | unfold GA4.fetch_data | unfold GoogleAds.fetch_data
      | unfold GoogleSheets.fetch_data ];
      unfold bind at 1; rewrite Hv, Hok; eexists; reflexivity.
  - destruct v; simpl in *;
      [ destruct (salesforce_validation_sends_no_data_request s w)
          as (new & E & H)
      | destruct (hubspot_validation_sends_no_data_request s w)
          as (new & E & H)
      | destruct (ga4_validation_sends_no_data_request s w)
          as (new & E & H)
      | destruct (google_ads_validation_sends_no_data_request s w)
          as (new & E & H)
      | destruct (google_sheets_validation_sends_no_data_request s w)
          as (new & E & H) ];
      rewrite Hv in E; exists new; split; assumption.
Qed.

Lemma failed_validation_gates_fetch_data_witness :
  exists msg,
    Hubspot.fetch_data 1 "contacts" None hubspot_with_token
      (world_of failing_probe_vendor)
    = (Ret (PList []), hubspot_with_token,
       with_log
         [(ERROR, msg); (ERROR, "Connection validation failed")]
         (with_sent (AnyCall (HsAccountInfo (Some (PStr "t")))) false
            (world_of failing_probe_vendor))).
Proof.
  exact (proj1 (failed_validation_gates_fetch_data Contract.hubspot 1
                  "contacts" None hubspot_with_token hubspot_with_token
                  (world_of failing_probe_vendor)
                  (with_log [(ERROR, "Connection validation failed")]
                     (with_sent (AnyCall (HsAccountInfo (Some (PStr "t"))))
                        false (world_of failing_probe_vendor)))
                  (PBool false) eq_refl eq_refl)).
Defined.

(** ** Reasoning about failures of the vendor *)

Section Failures.
Context {S : Type}.

Lemma quiet_ret {A} (a : A) : quiet (@ret S A a).
Proof. intros s w. reflexivity. Qed.

Lemma quiet_raise {A} (e : exn) : quiet (@raise S A e).
Proof. intros s w. reflexivity. Qed.

Lemma quiet_out_of_fuel {A} : quiet (@out_of_fuel S A).
Proof. intros s w. reflexivity. Qed.

Lemma quiet_lift {A} (r : exn + A) : quiet (@lift S A r).
Proof. destruct r; intros s w; reflexivity. Qed.

Lemma quiet_self : quiet (@self S).
Proof. intros s w. reflexivity. Qed.

Lemma quiet_set_self (f : S -> S) : quiet (set_self f).
Proof. intros s w. reflexivity. Qed.

Lemma quiet_logger (lvl : level) (msg : string) : quiet (@logger S lvl msg).
Proof. intros s w. reflexivity. Qed.

Lemma quiet_now : quiet (@datetime_now S).
Proof. intros s w. reflexivity. Qed.

Lemma quiet_sleep (d : Z) : quiet (@time_sleep S d).
Proof. intros s w. reflexivity. Qed.

Lemma quiet_bind {A B} (m : M S A) (k : A -> M S B) :
  quiet m -> (forall a, quiet (k a)) -> quiet (bind m k).
Proof.
  intros Hm Hk s w. unfold bind. specialize (Hm s w).
  destruct (m s w) as [[r s1] w1]. simpl in Hm.
  destruct r as [a | e |]; simpl; try exact Hm.
  rewrite (Hk a s1 w1). exact Hm.
Qed.

Lemma quiet_try {A} (m : M S A) (h : exn -> M S A) :
  quiet m -> (forall e, quiet (h e)) -> quiet (try_except m h).
Proof.
  intros Hm Hh s w. unfold try_except. specialize (Hm s w).
  destruct (m s w) as [[r s1] w1]. simpl in Hm.
  destruct r as [a | e |]; simpl; try exact Hm.
  rewrite (Hh e s1 w1). exact Hm.
Qed.

Lemma guarded_quiet {A} (good : A -> world -> Prop) (m : M S A) :
  quiet m -> guarded good m.
Proof. intros H s w. rewrite (H s w). split; lia. Qed.

Lemma guarded_send {T} (good : T -> world -> Prop) (c : call T) :
  guarded good (@send S T c).
Proof.
  intros s w. unfold send. destruct (vendor w _ c); simpl.
  - split; [lia |]. intros _. left. reflexivity.
  - split; lia.
Qed.

Lemma guarded_weaken {A} (good good' : A -> world -> Prop) (m : M S A) :
  (forall x w, good x w -> good' x w) -> guarded good m -> guarded good' m.
Proof.
  intros Hg Hm s w. destruct (Hm s w) as [Hle Hf]. split; [exact Hle |].
  intros Hlt. destruct (Hf Hlt) as [Hr | (x & E & Hx)]; [left; exact Hr |].
  right. exists x. split; [exact E | apply Hg; exact Hx].
Qed.

Lemma guarded_bind {A B} (good : B -> world -> Prop) (m : M S A)
    (k : A -> M S B) :
  guarded nothing m -> (forall a, guarded good (k a)) ->
  guarded good (bind m k).
Proof.
  intros Hm Hk s w. unfold bind. destruct (Hm s w) as [Hle Hf].
  destruct (m s w) as [[r s1] w1]. simpl in Hle, Hf.
  destruct r as [a | e |]; simpl.
  - destruct (Hk a s1 w1) as [Hle' Hf']. split; [lia |].
    intros Hlt. apply Hf'.
    destruct (Nat.eq_dec (raised w) (raised w1)) as [Heq | Hne]; [lia |].
    destruct Hf as [Hr | (x & _ & [])]; [lia | discriminate Hr].
  - split; [exact Hle |]. intros _. left. reflexivity.
  - split; [exact Hle |]. intros Hlt.
    destruct (Hf Hlt) as [Hr | (x & _ & [])]. discriminate Hr.
Qed.

Lemma guarded_try {A} (good : A -> world -> Prop) (m : M S A)
    (h : exn -> M S A) :
  guarded good m -> (forall e, settles good (h e)) ->
  guarded good (try_except m h).
Proof.
  intros Hm Hh s w. unfold try_except. destruct (Hm s w) as [Hle Hf].
  destruct (m s w) as [[r s1] w1]. simpl in Hle, Hf.
  destruct r as [a | e |]; simpl.
  - split; [exact Hle | exact Hf].
  - destruct (Hh e s1 w1) as [Heq Hr]. rewrite Heq.
    split; [exact Hle |]. intros _. exact Hr.
  - split; [exact Hle | exact Hf].
Qed.

Lemma no_raise_bind {A B} (m : M S A) (k : A -> M S B) :
  no_raise m -> (forall a, no_raise (k a)) -> no_raise (bind m k).
Proof.
  intros Hm Hk s w. unfold bind. specialize (Hm s w).
  destruct (m s w) as [[r s1] w1]. simpl in Hm.
  destruct r as [a | e |]; simpl; try assumption. apply Hk.
Qed.

Lemma no_raise_try {A} (m : M S A) (h : exn -> M S A) :
  (forall e, no_raise (h e)) -> no_raise (try_except m h).
Proof.
  intros Hh s w. unfold try_except.
  destruct (m s w) as [[r s1] w1].
  destruct r as [a | e |]; simpl; try reflexivity. apply Hh.
Qed.

Lemma no_raise_ret {A} (a : A) : no_raise (@ret S A a).
Proof. intros s w. reflexivity. Qed.

Lemma no_raise_self : no_raise (@self S).
Proof. intros s w. reflexivity. Qed.

Lemma no_raise_set_self (f : S -> S) : no_raise (set_self f).
Proof. intros s w. reflexivity. Qed.

Lemma no_raise_logger (lvl : level) (msg : string) :
  no_raise (@logger S lvl msg).
Proof. intros s w. reflexivity. Qed.

Lemma no_raise_now : no_raise (@datetime_now S).
Proof. intros s w. reflexivity. Qed.

Lemma no_raise_sleep (d : Z) : no_raise (@time_sleep S d).
Proof. intros s w. reflexivity. Qed.

Lemma no_raise_out_of_fuel {A} : no_raise (@out_of_fuel S A).
Proof. intros s w. reflexivity. Qed.

(** A gated operation: validation first, then either the report of the
    failed validation or the guarded body. *)
Lemma gated_no_raise (validate : M S pyval) (on_fail : M S pyval)
    (rest : M S pyval) :
  no_raise validate -> no_raise on_fail -> no_raise rest ->
  no_raise (bind validate
              (fun ok => if negb (Py.truthy ok) then on_fail else rest)).
Proof.
  intros Hv Hf Hr. apply no_raise_bind; [exact Hv |].
  intros ok. destruct (negb (Py.truthy ok)); assumption.
Qed.

Lemma gated_guarded (empty : pyval) (validate : M S pyval)
    (on_fail : M S pyval) (rest : M S pyval) :
  guarded falsy validate -> no_raise validate ->
  settles (empty_and_logged empty) on_fail ->
  guarded (empty_and_logged empty) rest ->
  guarded (empty_and_logged empty)
    (bind validate
       (fun ok => if negb (Py.truthy ok) then on_fail else rest)).
Proof.
  intros Hv Hn Hf Hr s w. unfold bind.
  destruct (Hv s w) as [Hle Hfail]. specialize (Hn s w).
  destruct (validate s w) as [[r s1] w1]. simpl in Hle, Hfail, Hn.
  destruct r as [ok | e |]; simpl; try discriminate Hn.
  - destruct (Py.truthy ok) eqn:Hok; simpl.
    + destruct (Hr s1 w1) as [Hle' Hf']. split; [lia |].
      intros Hlt. apply Hf'.
      destruct (Nat.eq_dec (raised w) (raised w1)) as [Heq | Hne]; [lia |].
      destruct Hfail as [Hx | (x & Ex & Hx)]; [lia | discriminate Hx |].
      inversion Ex. subst x. unfold falsy in Hx. congruence.
    + destruct (Hf s1 w1) as [Heq Hres]. rewrite Heq.
      split; [exact Hle |]. intros _. exact Hres.
  - split; [exact Hle |]. intros Hlt.
    destruct (Hfail Hlt) as [Hx | (x & Ex & _)]; discriminate.
Qed.

End Failures.

Ltac quiet_leaf :=
  first [ apply quiet_ret | apply quiet_raise | apply quiet_out_of_fuel
        | apply quiet_lift | apply quiet_self | apply quiet_set_self
        | apply quiet_logger | apply quiet_now | apply quiet_sleep
        | assumption ].

Ltac be_quiet := by_steps quiet_bind quiet_try quiet_leaf.

(** A handler that logs and returns, or logs and raises again. *)
Ltac settle :=
  let s := fresh "s" in
  let w := fresh "w" in
  intros s w;
  repeat match goal with
         | |- context [if ?b then _ else _] => destruct b
         end;
  (split;
   [ reflexivity
   | first [ left; reflexivity
           | right; eexists;
             (split;
              [ reflexivity
              | first [ reflexivity
                      | split; [reflexivity | do 2 eexists; reflexivity] ] ])
           ] ]).

Ltac no_raise_leaf :=
  first [ apply no_raise_ret | apply no_raise_self | apply no_raise_set_self
        | apply no_raise_logger | apply no_raise_now | apply no_raise_sleep
        | apply no_raise_out_of_fuel | assumption ].

Ltac never_raises :=
  repeat (cbv beta zeta;
          first [ apply no_raise_try; intros ?
                | apply no_raise_bind; [| intros ?]
                | no_raise_leaf
                | match goal with
                  | |- no_raise (if ?b then _ else _) => destruct b
                  | |- no_raise (match ?x with _ => _ end) => destruct x
                  end ]).

(** ** The rate limiters reach no vendor *)

Lemma salesforce_limits_are_quiet : quiet Salesforce.handle_rate_limits.
Proof. unfold Salesforce.handle_rate_limits. be_quiet. Qed.

Lemma hubspot_limits_are_quiet : quiet Hubspot.handle_rate_limits.
Proof. unfold Hubspot.handle_rate_limits. be_quiet. Qed.

Lemma space_out_is_quiet {S} (last : S -> option Z)
    (set_last : option Z -> S -> S) (count : S -> Z)
    (set_count : Z -> S -> S) (config : S -> rate_limit_config_t)
    (default : Z) :
  quiet (Spacing.space_out last set_last count set_count config default).
Proof. unfold Spacing.space_out. be_quiet. Qed.

Lemma ga4_limits_are_quiet : quiet GA4.handle_rate_limits.
Proof.
  unfold GA4.handle_rate_limits, Spacing.log_progress.
  pose proof (space_out_is_quiet GA4.last_request_time
                GA4.set_last_request_time GA4.request_count
                GA4.set_request_count GA4.rate_limit_config 100000).
  be_quiet.
Qed.

Lemma google_ads_limits_are_quiet : quiet GoogleAds.handle_rate_limits.
Proof.
  unfold GoogleAds.handle_rate_limits, Spacing.log_progress.
  pose proof (space_out_is_quiet GoogleAds.last_request_time
                GoogleAds.set_last_request_time GoogleAds.request_count
                GoogleAds.set_request_count GoogleAds.rate_limit_config
                100000).
  be_quiet.
Qed.

Lemma google_sheets_limits_are_quiet : quiet GoogleSheets.handle_rate_limits.
Proof.
  unfold GoogleSheets.handle_rate_limits.
  pose proof (space_out_is_quiet GoogleSheets.last_request_time
                GoogleSheets.set_last_request_time
                GoogleSheets.request_count GoogleSheets.set_request_count
                GoogleSheets.rate_limit_config 1000000).
  be_quiet.
Qed.

Ltac guarded_leaf :=
  first [ apply guarded_send
        | assumption
        | match goal with H : forall _, _ |- _ => apply H end
        | apply guarded_quiet; solve [be_quiet]
        | solve [settle] ].

Ltac keep_guard := by_steps guarded_bind guarded_try guarded_leaf.

(** ** Salesforce: failures of the vendor *)

Lemma salesforce_password_login_guarded :
  guarded nothing Salesforce.password_login.
Proof. unfold Salesforce.password_login. keep_guard. Qed.

Lemma salesforce_refresh_guarded (good : pyval -> world -> Prop) :
  guarded good Salesforce.refresh_access_token.
Proof.
  unfold Salesforce.refresh_access_token,
    Salesforce.refresh_access_token_try, raise_for_status.
  keep_guard.
Qed.

Lemma salesforce_authenticate_guarded :
  guarded falsy (Salesforce.authenticate_with out_of_fuel).
Proof.
  unfold Salesforce.authenticate_with.
  pose proof (guarded_weaken nothing falsy _
                (fun x w (H : nothing x w) => match H with end)
                salesforce_password_login_guarded).
  keep_guard.
Qed.

Lemma salesforce_validate_guarded :
  guarded falsy Salesforce.validate_connection.
Proof.
  unfold Salesforce.validate_connection, Salesforce.validate_connection_with.
  pose proof salesforce_authenticate_guarded.
  pose proof (salesforce_refresh_guarded falsy).
  keep_guard.
Qed.

Lemma salesforce_authenticate_no_raise (validate : M Salesforce.Self pyval) :
  no_raise (Salesforce.authenticate_with validate).
Proof. unfold Salesforce.authenticate_with. never_raises. Qed.

Lemma salesforce_validate_no_raise :
  no_raise Salesforce.validate_connection.
Proof.
  unfold Salesforce.validate_connection, Salesforce.validate_connection_with.
  pose proof (salesforce_authenticate_no_raise out_of_fuel).
  never_raises.
Qed.

Lemma salesforce_next_batches_guarded (fuel : nat) :
  forall records next_url,
    guarded nothing (Salesforce.next_batches fuel records next_url).
Proof.
  pose proof salesforce_limits_are_quiet.
  induction fuel as [| fuel IH]; intros records next_url;
    cbn [Salesforce.next_batches].
  - keep_guard.
  - destruct (negb (Py.truthy next_url)); keep_guard.
Qed.

Lemma salesforce_fetch_data_try_guarded (fuel : nat) (query : fstring) :
  guarded nothing (Salesforce.fetch_data_try fuel query).
Proof.
  unfold Salesforce.fetch_data_try.
  pose proof salesforce_limits_are_quiet.
  pose proof (salesforce_next_batches_guarded fuel).
  keep_guard.
Qed.

Lemma salesforce_fetch_schema_try_guarded (object_name : string) :
  guarded nothing (Salesforce.fetch_schema_try object_name).
Proof.
  unfold Salesforce.fetch_schema_try.
  pose proof salesforce_limits_are_quiet.
  keep_guard.
Qed.

Lemma salesforce_fetch_data_guarded (fuel : nat)
    (query_or_object_name : string) (query_params : option pydict) :
  Contract.well_formed Contract.salesforce query_or_object_name query_params
  = true ->
  guarded (empty_and_logged (PList []))
    (Salesforce.fetch_data fuel query_or_object_name query_params) /\
  no_raise (Salesforce.fetch_data fuel query_or_object_name query_params).
Proof.
  unfold Contract.well_formed, Salesforce.fetch_data.
  destruct (Salesforce.build_query query_or_object_name query_params)
    as [e | query]; [discriminate |].
  intros _. split.
  - apply gated_guarded.
    + exact salesforce_validate_guarded.
    + exact salesforce_validate_no_raise.
    + settle.
    + pose proof (fun q =>
                    guarded_weaken nothing (empty_and_logged (PList [])) _
                      (fun x w (H : nothing x w) => match H with end)
                      (salesforce_fetch_data_try_guarded fuel q)).
      keep_guard.
  - apply gated_no_raise.
    + exact salesforce_validate_no_raise.
    + never_raises.
    + unfold lift. never_raises.
Qed.

Lemma salesforce_fetch_schema_guarded (object_name : string) :
  guarded (empty_and_logged (PDict [])) (Salesforce.fetch_schema object_name)
  /\ no_raise (Salesforce.fetch_schema object_name).
Proof.
  unfold Salesforce.fetch_schema. split.
  - apply gated_guarded.
    + exact salesforce_validate_guarded.
    + exact salesforce_validate_no_raise.
    + settle.
    + pose proof (guarded_weaken nothing (empty_and_logged (PDict [])) _
                    (fun x w (H : nothing x w) => match H with end)
                    (salesforce_fetch_schema_try_guarded object_name)).
      keep_guard.
  - apply gated_no_raise.
    + exact salesforce_validate_no_raise.
    + never_raises.
    + never_raises.
Qed.

Lemma salesforce_list_objects_no_raise : no_raise Salesforce.list_objects.
Proof.
  unfold Salesforce.list_objects.
  apply gated_no_raise.
  - exact salesforce_validate_no_raise.
  - never_raises.
  - never_raises.
Qed.

(** ** HubSpot: failures of the vendor *)

Lemma from_nothing {S A} (good : A -> world -> Prop) (m : M S A) :
  guarded nothing m -> guarded good m.
Proof.
  apply guarded_weaken. intros x w H. destruct H.
Qed.

Lemma hubspot_refresh_guarded : guarded falsy Hubspot.refresh_access_token.
Proof.
  unfold Hubspot.refresh_access_token, Hubspot.refresh_access_token_try,
    raise_for_status.
  keep_guard.
Qed.

Lemma hubspot_validate_guarded : guarded falsy Hubspot.validate_connection.
Proof.
  unfold Hubspot.validate_connection.
  pose proof hubspot_refresh_guarded.
  keep_guard.
Qed.

Lemma hubspot_validate_no_raise : no_raise Hubspot.validate_connection.
Proof. unfold Hubspot.validate_connection. never_raises. Qed.

Lemma hubspot_search_pages_guarded (fuel : nat) :
  forall object_type query_params properties all_results after,
    guarded nothing
      (Hubspot.search_pages fuel object_type query_params properties
         all_results after).
Proof.
  pose proof hubspot_limits_are_quiet.
  induction fuel as [| fuel IH];
    intros object_type query_params properties all_results after;
    cbn [Hubspot.search_pages]; unfold raise_for_status; keep_guard.
Qed.

Lemma hubspot_fetch_data_guarded (fuel : nat) (object_type : string)
    (query_params : option pydict) :
  guarded (empty_and_logged (PList []))
    (Hubspot.fetch_data fuel object_type query_params) /\
  no_raise (Hubspot.fetch_data fuel object_type query_params).
Proof.
  unfold Hubspot.fetch_data, Hubspot.fetch_data_try, Hubspot.on_error.
  split.
  - apply gated_guarded.
    + exact hubspot_validate_guarded.
    + exact hubspot_validate_no_raise.
    + settle.
    + pose proof (fun a b c d e =>
                    from_nothing (empty_and_logged (PList [])) _
                      (hubspot_search_pages_guarded fuel a b c d e)).
      keep_guard.
  - apply gated_no_raise.
    + exact hubspot_validate_no_raise.
    + never_raises.
    + never_raises.
Qed.

Lemma hubspot_fetch_schema_guarded (object_type : string) :
  guarded (empty_and_logged (PDict [])) (Hubspot.fetch_schema object_type) /\
  no_raise (Hubspot.fetch_schema object_type).
Proof.
  unfold Hubspot.fetch_schema, Hubspot.on_error. split.
  - apply gated_guarded.
    + exact hubspot_validate_guarded.
    + exact hubspot_validate_no_raise.
    + settle.
    + apply guarded_try; [| intros e; settle].
      apply from_nothing.
      unfold Hubspot.fetch_schema_try, raise_for_status.
      pose proof hubspot_limits_are_quiet. keep_guard.
  - apply gated_no_raise.
    + exact hubspot_validate_no_raise.
    + never_raises.
    + never_raises.
Qed.

Lemma hubspot_list_objects_guarded :
  guarded (empty_and_logged (PDict [])) Hubspot.list_objects /\
  no_raise Hubspot.list_objects.
Proof.
  unfold Hubspot.list_objects, Hubspot.on_error. split.
  - apply gated_guarded.
    + exact hubspot_validate_guarded.
    + exact hubspot_validate_no_raise.
    + settle.
    + apply guarded_try; [| intros e; settle].
      apply from_nothing.
      unfold Hubspot.list_objects_try, raise_for_status.
      pose proof hubspot_limits_are_quiet. keep_guard.
  - apply gated_no_raise.
    + exact hubspot_validate_no_raise.
    + never_raises.
    + never_raises.
Qed.

(** ** GA4: failures of the vendor *)

Lemma ga4_authenticate_guarded : guarded falsy GA4.authenticate.
Proof. unfold GA4.authenticate. keep_guard. Qed.

Lemma ga4_authenticate_no_raise : no_raise GA4.authenticate.
Proof. unfold GA4.authenticate. never_raises. Qed.

Lemma ga4_validate_guarded : guarded falsy GA4.validate_connection.
Proof.
  unfold GA4.validate_connection. pose proof ga4_authenticate_guarded.
  keep_guard.
Qed.

Lemma ga4_validate_no_raise : no_raise GA4.validate_connection.
Proof.
  unfold GA4.validate_connection. pose proof ga4_authenticate_no_raise.
  never_raises.
Qed.

Lemma ga4_convert_rows_quiet (response : ga4_report) (report_type : string)
    (rows : list ga4_row) :
  quiet (GA4.convert_rows response report_type rows).
Proof.
  induction rows as [| row rows IH]; cbn [GA4.convert_rows]; be_quiet.
Qed.

Lemma ga4_standard_report_guarded (query_params : pydict) :
  guarded nothing (GA4._fetch_standard_report query_params).
Proof.
  unfold GA4._fetch_standard_report, GA4._convert_report_to_records.
  pose proof ga4_limits_are_quiet.
  pose proof ga4_convert_rows_quiet.
  keep_guard.
Qed.

Lemma ga4_realtime_report_guarded (query_params : pydict) :
  guarded nothing (GA4._fetch_realtime_report query_params).
Proof.
  unfold GA4._fetch_realtime_report, GA4._convert_report_to_records.
  pose proof ga4_limits_are_quiet.
  pose proof ga4_convert_rows_quiet.
  keep_guard.
Qed.

Lemma ga4_fetch_data_try_guarded (report_type : string)
    (query_params : pydict) :
  guarded nothing (GA4.fetch_data_try report_type query_params).
Proof.
  unfold GA4.fetch_data_try, GA4._fetch_cohort_report,
    GA4._fetch_pivot_report.
  pose proof ga4_standard_report_guarded.
  pose proof ga4_realtime_report_guarded.
  keep_guard.
Qed.

Lemma ga4_fetch_data_guarded (report_type : string)
    (query_params : option pydict) :
  guarded (empty_and_logged (PList []))
    (GA4.fetch_data report_type query_params) /\
  no_raise (GA4.fetch_data report_type query_params).
Proof.
  unfold GA4.fetch_data. split.
  - apply gated_guarded.
    + exact ga4_validate_guarded.
    + exact ga4_validate_no_raise.
    + settle.
    + apply guarded_try; [| intros e; settle].
      apply from_nothing. apply ga4_fetch_data_try_guarded.
  - apply gated_no_raise.
    + exact ga4_validate_no_raise.
    + never_raises.
    + never_raises.
Qed.

Lemma ga4_fetch_schema_guarded (object_type : string) :
  guarded (empty_and_logged (PDict [])) (GA4.fetch_schema object_type) /\
  no_raise (GA4.fetch_schema object_type).
Proof.
  unfold GA4.fetch_schema. split.
  - apply gated_guarded.
    + exact ga4_validate_guarded.
    + exact ga4_validate_no_raise.
    + settle.
    + apply guarded_try; [| intros e; settle].
      apply from_nothing. unfold GA4.fetch_schema_try.
      pose proof ga4_limits_are_quiet. keep_guard.
  - apply gated_no_raise.
    + exact ga4_validate_no_raise.
    + never_raises.
    + never_raises.
Qed.

(** ** Google Ads: failures of the vendor *)

Lemma google_ads_authenticate_guarded : guarded falsy GoogleAds.authenticate.
Proof. unfold GoogleAds.authenticate. keep_guard. Qed.

Lemma google_ads_authenticate_no_raise : no_raise GoogleAds.authenticate.
Proof. unfold GoogleAds.authenticate. never_raises. Qed.

Lemma google_ads_validate_guarded :
  guarded falsy GoogleAds.validate_connection.
Proof.
  unfold GoogleAds.validate_connection.
  pose proof google_ads_authenticate_guarded. keep_guard.
Qed.

Lemma google_ads_validate_no_raise : no_raise GoogleAds.validate_connection.
Proof.
  unfold GoogleAds.validate_connection.
  pose proof google_ads_authenticate_no_raise. never_raises.
Qed.

Lemma google_ads_stamp_rows_quiet (rows : list pydict) :
  quiet (GoogleAds.stamp_rows rows).
Proof.
  induction rows as [| row rows IH]; cbn [GoogleAds.stamp_rows]; be_quiet.
Qed.

Lemma google_ads_execute_query_guarded (query : fstring) :
  guarded nothing (GoogleAds._execute_query query).
Proof.
  unfold GoogleAds._execute_query.
  pose proof google_ads_limits_are_quiet.
  pose proof google_ads_stamp_rows_quiet.
  keep_guard.
Qed.

Lemma google_ads_fetchers_guarded (object_type : string)
    (fetch : pydict -> M GoogleAds.Self pyval) (query_params : pydict) :
  GoogleAds.fetcher object_type = Some fetch ->
  guarded nothing (fetch query_params).
Proof.
  pose proof google_ads_execute_query_guarded.
  unfold GoogleAds.fetcher.
  repeat match goal with
         | |- context [if ?b then _ else _] => destruct b
         end;
    intros E; inversion E; subst;
    first [ unfold GoogleAds._fetch_campaigns
          | unfold GoogleAds._fetch_ad_groups
          | unfold GoogleAds._fetch_ads
          | unfold GoogleAds._fetch_keywords
          | unfold GoogleAds._fetch_campaign_performance
          | unfold GoogleAds._fetch_ad_group_performance
          | unfold GoogleAds._fetch_keyword_performance ];
    unfold GoogleAds.plain_fetch, GoogleAds.performance_fetch; keep_guard.
Qed.

Lemma google_ads_fetch_data_guarded (object_type : string)
    (query_params : option pydict) :
  guarded (empty_and_logged (PList []))
    (GoogleAds.fetch_data object_type query_params) /\
  no_raise (GoogleAds.fetch_data object_type query_params).
Proof.
  unfold GoogleAds.fetch_data. split.
  - apply gated_guarded.
    + exact google_ads_validate_guarded.
    + exact google_ads_validate_no_raise.
    + settle.
    + apply guarded_try; [| intros e; settle].
      apply from_nothing. unfold GoogleAds.fetch_data_try.
      destruct (GoogleAds.fetcher object_type) as [fetch |] eqn:E.
      * pose proof (fun q => google_ads_fetchers_guarded object_type fetch
                                q E).
        keep_guard.
      * keep_guard.
  - apply gated_no_raise.
    + exact google_ads_validate_no_raise.
    + never_raises.
    + never_raises.
Qed.

Lemma google_ads_fetch_schema_quiet (object_type : string) :
  quiet (GoogleAds.fetch_schema object_type) /\
  no_raise (GoogleAds.fetch_schema object_type).
Proof.
  unfold GoogleAds.fetch_schema. split; [be_quiet | never_raises].
Qed.

(** ** Google Sheets: failures of the vendor *)

Lemma google_sheets_authenticate_guarded :
  guarded falsy GoogleSheets.authenticate.
Proof. unfold GoogleSheets.authenticate. keep_guard. Qed.

Lemma google_sheets_authenticate_no_raise :
  no_raise GoogleSheets.authenticate.
Proof. unfold GoogleSheets.authenticate. never_raises. Qed.

Lemma google_sheets_validate_guarded :
  guarded falsy GoogleSheets.validate_connection.
Proof.
  unfold GoogleSheets.validate_connection.
  pose proof google_sheets_authenticate_guarded. keep_guard.
Qed.

Lemma google_sheets_validate_no_raise :
  no_raise GoogleSheets.validate_connection.
Proof.
  unfold GoogleSheets.validate_connection.
  pose proof google_sheets_authenticate_no_raise. never_raises.
Qed.

Lemma google_sheets_rows_quiet (data_rows : list pyval) :
  forall row_index headers include_headers sheet_name spreadsheet_id,
    quiet (GoogleSheets.rows_to_records data_rows row_index headers
             include_headers sheet_name spreadsheet_id).
Proof.
  induction data_rows as [| row rows IH]; intros;
    cbn [GoogleSheets.rows_to_records]; be_quiet.
Qed.

Lemma google_sheets_fetch_data_guarded (spreadsheet_id : string)
    (query_params : option pydict) :
  guarded (empty_and_logged (PList []))
    (GoogleSheets.fetch_data spreadsheet_id query_params) /\
  no_raise (GoogleSheets.fetch_data spreadsheet_id query_params).
Proof.
  unfold GoogleSheets.fetch_data. split.
  - apply gated_guarded.
    + exact google_sheets_validate_guarded.
    + exact google_sheets_validate_no_raise.
    + settle.
    + apply guarded_try; [| intros e; settle].
      apply from_nothing. unfold GoogleSheets.fetch_data_try.
      pose proof google_sheets_limits_are_quiet.
      pose proof google_sheets_rows_quiet.
      keep_guard.
  - apply gated_no_raise.
    + exact google_sheets_validate_no_raise.
    + never_raises.
    + never_raises.
Qed.

Lemma google_sheets_fetch_schema_guarded (spreadsheet_id : string)
    (sheet_name : option string) :
  guarded (empty_and_logged (PDict []))
    (GoogleSheets.fetch_schema spreadsheet_id sheet_name) /\
  no_raise (GoogleSheets.fetch_schema spreadsheet_id sheet_name).
Proof.
  unfold GoogleSheets.fetch_schema. split.
  - apply gated_guarded.
    + exact google_sheets_validate_guarded.
    + exact google_sheets_validate_no_raise.
    + settle.
    + apply guarded_try; [| intros e; settle].
      apply from_nothing. unfold GoogleSheets.fetch_schema_try.
      pose proof google_sheets_limits_are_quiet.
      keep_guard.
  - apply gated_no_raise.
    + exact google_sheets_validate_no_raise.
    + never_raises.
    + never_raises.
Qed.

(** ** The fetch operations are fail-soft *)

(** X2. [fetch_data], [fetch_schema] and [list_objects] of the five
    connectors never raise, whatever the vendor does, when the arguments
    are well formed (the SOQL text of Salesforce is built before the
    [try]). *)
Theorem fetch_operations_never_raise (v : Contract.vendor_t) (fuel : nat)
    (selector : string) (sheet_name : option string)
    (query_params : option pydict) (s : Contract.Self (Contract.impl v))
    (w : world) :
  Contract.well_formed v selector query_params = true ->
  is_raise (result_of (Contract.fetch_data (Contract.impl v) fuel selector
                         query_params s w)) = false /\
  is_raise (result_of (Contract.fetch_schema (Contract.impl v) selector
                         sheet_name s w)) = false /\
  (forall list_objects,
      Contract.list_objects (Contract.impl v) = Some list_objects ->
      is_raise (result_of (list_objects s w)) = false).
Proof.
  intros Hwf. unfold result_of. destruct v; simpl in *.
  - split; [| split].
    + apply (proj2 (salesforce_fetch_data_guarded fuel selector query_params
                      Hwf)).
    + apply (proj2 (salesforce_fetch_schema_guarded selector)).
    + intros lo E. inversion E. apply salesforce_list_objects_no_raise.
  - split; [| split].
    + apply (proj2 (hubspot_fetch_data_guarded fuel selector query_params)).
    + apply (proj2 (hubspot_fetch_schema_guarded selector)).
    + intros lo E. inversion E. apply (proj2 hubspot_list_objects_guarded).
  - split; [| split].
    + apply (proj2 (ga4_fetch_data_guarded selector query_params)).
    + apply (proj2 (ga4_fetch_schema_guarded selector)).
    + intros lo E. discriminate E.
  - split; [| split].
    + apply (proj2 (google_ads_fetch_data_guarded selector query_params)).
    + reflexivity.
    + intros lo E. discriminate E.
  - split; [| split].
    + apply (proj2 (google_sheets_fetch_data_guarded selector query_params)).
    + apply (proj2 (google_sheets_fetch_schema_guarded selector sheet_name)).
    + intros lo E. discriminate E.
Qed.

Lemma fetch_operations_never_raise_witness :
  is_raise (result_of (Salesforce.fetch_data 1 "Account" None
                         salesforce_with_token
                         (world_of failing_probe_vendor))) = false.
Proof.
  exact (proj1 (fetch_operations_never_raise Contract.salesforce 1 "Account"
                  None None salesforce_with_token
                  (world_of failing_probe_vendor) eq_refl)).
Defined.

Lemma absorbed {S} (empty : pyval) (m : M S pyval) (s : S) (w : world) :
  guarded (empty_and_logged empty) m -> no_raise m ->
  (raised w < raised (world_after (m s w)))%nat ->
  result_of (m s w) = Ret empty /\ error_logged (world_after (m s w)).
Proof.
  intros Hg Hn Hlt. destruct (Hg s w) as [_ Hf]. specialize (Hn s w).
  unfold result_of, world_after in *.
  destruct (Hf Hlt) as [Hr | (x & E & -> & Hlog)]; [congruence |].
  split; assumption.
Qed.

(** X3. Whenever a call into the vendor raises while [fetch_data] or
    [fetch_schema] of one of the five connectors runs, be it during
    validation or after it, the operation returns the empty list
    (the empty mapping), and the latest log entry is an ERROR.  The same
    holds for [list_objects] of HubSpot. *)
Theorem vendor_failures_give_empty (v : Contract.vendor_t) (fuel : nat)
    (selector : string) (sheet_name : option string)
    (query_params : option pydict) (s : Contract.Self (Contract.impl v))
    (w : world) :
  Contract.well_formed v selector query_params = true ->
  (let run :=
     Contract.fetch_data (Contract.impl v) fuel selector query_params s w in
   (raised w < raised (world_after run))%nat ->
   result_of run = Ret (PList []) /\ error_logged (world_after run)) /\
  (let run :=
     Contract.fetch_schema (Contract.impl v) selector sheet_name s w in
   (raised w < raised (world_after run))%nat ->
   result_of run = Ret (PDict []) /\ error_logged (world_after run)) /\
  (forall list_objects,
      Contract.list_objects (Contract.impl v) = Some list_objects ->
      v = Contract.hubspot ->
      (raised w < raised (world_after (list_objects s w)))%nat ->
      result_of (list_objects s w) = Ret (PDict []) /\
      error_logged (world_after (list_objects s w))).
Proof.
  intros Hwf. cbv zeta. destruct v; simpl in *.
  - split; [| split].
    + apply absorbed;
        apply (salesforce_fetch_data_guarded fuel selector query_params Hwf).
    + apply absorbed; apply (salesforce_fetch_schema_guarded selector).
    + intros lo _ E. discriminate E.
  - split; [| split].
    + apply absorbed;
        apply (hubspot_fetch_data_guarded fuel selector query_params).
    + apply absorbed; apply (hubspot_fetch_schema_guarded selector).
    + intros lo E _. inversion E.
      apply absorbed; apply hubspot_list_objects_guarded.
  - split; [| split].
    + apply absorbed; apply (ga4_fetch_data_guarded selector query_params).
    + apply absorbed; apply (ga4_fetch_schema_guarded selector).
    + intros lo E. discriminate E.
  - split; [| split].
    + apply absorbed;
        apply (google_ads_fetch_data_guarded selector query_params).
    + intros Hlt. exfalso. unfold world_after in Hlt. simpl in Hlt. lia.
    + intros lo E. discriminate E.
  - split; [| split].
    + apply absorbed;
        apply (google_sheets_fetch_data_guarded selector query_params).
    + apply absorbed;
        apply (google_sheets_fetch_schema_guarded selector sheet_name).
    + intros lo E. discriminate E.
Qed.

Lemma vendor_failures_give_empty_witness :
  result_of (Hubspot.fetch_data 1 "contacts" None hubspot_with_token
               (world_of search_down_vendor)) = Ret (PList []) /\
  error_logged
    (world_after (Hubspot.fetch_data 1 "contacts" None hubspot_with_token
                    (world_of search_down_vendor))).
Proof.
  apply (proj1 (vendor_failures_give_empty Contract.hubspot 1 "contacts"
                  None None hubspot_with_token (world_of search_down_vendor)
                  eq_refl)).
  vm_compute. lia.
Defined.

Lemma refresh_without_refresh_token_witness :
  Salesforce.refresh_access_token salesforce_without_refresh
    (world_of token_vendor)
  = (Raise (PlainException "No refresh token available."),
     salesforce_without_refresh,
     with_log
       [(ERROR, "No refresh token available to refresh the access token.")]
       (world_of token_vendor)) /\
  Hubspot.refresh_access_token hubspot_without_refresh
    (world_of token_vendor)
  = (Ret (PBool false), hubspot_without_refresh,
     with_log
       [(ERROR, "No refresh token available to refresh the access token.")]
       (world_of token_vendor)).
Proof.
  split.
  - exact (proj1 (refresh_without_refresh_token salesforce_without_refresh
                    hubspot_without_refresh (world_of token_vendor))
             eq_refl).
  - exact (proj2 (refresh_without_refresh_token salesforce_without_refresh
                    hubspot_without_refresh (world_of token_vendor))
             eq_refl).
Defined.

Lemma salesforce_refresh_returns_token_data_witness :
  result_of (Salesforce.refresh_access_token salesforce_refreshable
               (world_of token_vendor)) = Ret token_data /\
  Salesforce.access_token
    (self_of (Salesforce.refresh_access_token salesforce_refreshable
                (world_of token_vendor))) = PStr "new".
Proof.
  exact (salesforce_refresh_returns_token_data salesforce_refreshable
           (world_of token_vendor) (json_response 200 token_data)
           (Py.dict_of [("access_token", PStr "new");
                        ("refresh_token", PStr "r2");
                        ("expires_in", PInt 1800)])
           (PStr "new") eq_refl eq_refl eq_refl eq_refl eq_refl).
Defined.

(** ** The mutual recursion of Salesforce's authentication *)

Lemma salesforce_authenticate_password (validate : M Salesforce.Self pyval)
    (s : Salesforce.Self) (w : world) :
  Salesforce.auth_type s = Salesforce.password ->
  Salesforce.authenticate_with validate s w
  = Salesforce.authenticate_with out_of_fuel s w.
Proof.
  intros H. unfold Salesforce.authenticate_with, try_except, bind, self.
  rewrite H. reflexivity.
Qed.

Lemma salesforce_validate_any_callback (validate : M Salesforce.Self pyval)
    (s : Salesforce.Self) (w : world) :
  Salesforce.validate_connection_with (Salesforce.authenticate_with validate)
    s w
  = Salesforce.validate_connection_with
      (Salesforce.authenticate_with out_of_fuel) s w.
Proof.
  unfold Salesforce.validate_connection_with, bind, self.
  destruct (negb (Py.truthy (Salesforce.access_token s))).
  - destruct (Salesforce.auth_type s) eqn:Ha; cbn [Salesforce.is_password];
      try reflexivity.
    apply salesforce_authenticate_password. exact Ha.
  - unfold try_except, send.
    destruct (vendor w _ _) as [e | r]; [reflexivity |].
    destruct (status_code r =? 200); [reflexivity |].
    destruct (status_code r =? 401); [| reflexivity].
    unfold logger.
    destruct (Salesforce.auth_type s) eqn:Ha; try reflexivity.
    rewrite (salesforce_authenticate_password validate); [reflexivity |].
    exact Ha.
Qed.

(** X6. [validate_connection] and [authenticate] of Salesforce call each
    other, but the recursion ends after one call: [validate_connection]
    calls [authenticate] for password credentials only, and then
    [authenticate] logs in without calling back.  So
    [validate_connection] is the same whether the [authenticate] it
    calls could call back or not. *)
Theorem salesforce_validation_recursion_ends (s : Salesforce.Self)
    (w : world) :
  Salesforce.validate_connection_with Salesforce.authenticate s w
  = Salesforce.validate_connection s w.
Proof.
  unfold Salesforce.authenticate, Salesforce.validate_connection at 2.
  apply salesforce_validate_any_callback.
Qed.

Lemma column_number_from_acc (acc : Z) (s : string) :
  column_number_from acc s = acc * letters_weight s + column_number_from 0 s.
Proof.
  revert acc. induction s as [| c r IH]; intros acc;
    cbn [column_number_from letters_weight].
  - lia.
  - rewrite IH. rewrite (IH (26 * 0 + (Z.of_nat (nat_of_ascii c) - 64))).
    lia.
Qed.

Lemma letter_code (k : Z) :
  0 <= k < 26 ->
  nat_of_ascii (ascii_of_nat (Z.to_nat k + 65)) = (Z.to_nat k + 65)%nat.
Proof.
  intros Hk. apply nat_ascii_embedding. lia.
Qed.

Lemma column_letter_loop (fuel : nat) (n : Z) (result : string) :
  (Z.to_nat n < fuel)%nat ->
  column_number (GoogleSheets.column_letter_fuel fuel n result)
  = Z.max 0 n * letters_weight result + column_number result
  /\ (all_capitals result = true ->
      all_capitals (GoogleSheets.column_letter_fuel fuel n result) = true).
Proof.
  unfold column_number.
  revert n result. induction fuel as [| fuel IH]; intros n result Hfuel.
  - lia.
  - cbn [GoogleSheets.column_letter_fuel]. destruct (0 <? n) eqn:Hn.
    + apply Z.ltb_lt in Hn.
      assert (Hmod : 0 <= (n - 1) mod 26 < 26) by (apply Z.mod_pos_bound; lia).
      assert (Hdiv : 0 <= (n - 1) / 26) by (apply Z.div_pos; lia).
      assert (Hsplit : n - 1 = 26 * ((n - 1) / 26) + (n - 1) mod 26)
        by (apply Z.div_mod; lia).
      destruct (IH ((n - 1) / 26)
                  (String (ascii_of_nat (Z.to_nat ((n - 1) mod 26) + 65))
                     result)) as [Hv Hu].
      { lia. }
      split.
      * rewrite Hv. cbn [column_number_from letters_weight].
        rewrite column_number_from_acc. rewrite letter_code by exact Hmod.
        rewrite (Z.max_r 0 ((n - 1) / 26)) by exact Hdiv.
        rewrite (Z.max_r 0 n) by lia.
        replace (Z.of_nat (Z.to_nat ((n - 1) mod 26) + 65) - 64)
          with ((n - 1) mod 26 + 1) by lia.
        replace n with (26 * ((n - 1) / 26) + (n - 1) mod 26 + 1) at 3 by lia.
        ring.
      * intros Hres. apply Hu. cbn [all_capitals]. rewrite Hres.
        unfold is_capital. rewrite letter_code by exact Hmod.
        rewrite andb_true_r. apply andb_true_intro.
        split; apply Nat.leb_le; lia.
    + apply Z.ltb_ge in Hn. split; [| trivial].
      replace (Z.max 0 n) with 0 by lia. lia.
Qed.

Lemma column_letter_enough_fuel (fuel fuel' : nat) (n : Z)
    (result : string) :
  (Z.to_nat n < fuel)%nat -> (Z.to_nat n < fuel')%nat ->
  GoogleSheets.column_letter_fuel fuel n result = GoogleSheets.column_letter_fuel fuel' n result.
Proof.
  revert fuel' n result.
  induction fuel as [| fuel IH]; intros fuel' n result Hfuel Hfuel'; [lia |].
  destruct fuel' as [| fuel']; [lia |].
  cbn [GoogleSheets.column_letter_fuel]. destruct (0 <? n) eqn:Hn; [| reflexivity].
  apply Z.ltb_lt in Hn.
  assert (Hdiv : 0 <= (n - 1) / 26) by (apply Z.div_pos; lia).
  assert (Hsplit : n - 1 = 26 * ((n - 1) / 26) + (n - 1) mod 26)
    by (apply Z.div_mod; lia).
  assert (Hmod : 0 <= (n - 1) mod 26 < 26) by (apply Z.mod_pos_bound; lia).
  apply IH; lia.
Qed.

(** X7. [_number_to_column_letter] writes a column number in letters:
    read back as a number in base 26 with the digits [A] = 1 to
    [Z] = 26, the letters give the number again, so two columns never
    share their letters; every character is a capital letter; and the
    loop has ended by itself, more iterations change nothing. *)
Theorem column_letters_round_trip (n extra : nat) :
  column_number (GoogleSheets._number_to_column_letter n) = Z.of_nat n
  /\ all_capitals (GoogleSheets._number_to_column_letter n) = true
  /\ GoogleSheets.column_letter_fuel (S n + extra) (Z.of_nat n) ""
     = GoogleSheets._number_to_column_letter n.
Proof.
  unfold GoogleSheets._number_to_column_letter.
  destruct (column_letter_loop (S n) (Z.of_nat n) "") as [Hv Hu]; [lia |].
  split.
  - rewrite Hv. unfold column_number. cbn [column_number_from letters_weight]. lia.
  - split; [apply Hu; reflexivity |].
    apply column_letter_enough_fuel; lia.
Qed.
